(** * DisguiseDrive: envelope encryption and folder access gating

    A shallow embedding of the backend of DisguiseDrive:
    - the crypto service   (src/backend/src/services/crypto.js),
    - the storage service  (src/backend/src/services/supabaseStorage.js),
    - the cover generator  (src/unnamed/part_008),
    - [verifyFolderAccess] (src/backend/src/middleware/auth.js),
    - the files router     (src/unnamed/part_005): upload, encrypted blob,
      decrypt-key and delete,
    - the folders router   (src/unnamed/part_006): unlock,
    together with the properties of the envelope-encryption and access-token
    subsystem that the specification states about them.

    Node's [crypto] primitives (PBKDF2, AES-256-GCM, SHA-256), [JSON.parse],
    Joi's messages and the services behind the network are parameters of the
    development; [Buffer], base64, the Prisma tables and the storage bucket
    are modelled concretely.  A handler is a function from the request and
    the state of the world to its outcome and the new state; the state
    carries the trace of the effects, in the order in which [await] makes
    them happen. *)

From Stdlib Require Import List String Ascii Bool Arith NArith ZArith Lia.
From Stdlib Require Import Strings.Byte DecimalString.
Import ListNotations.

Local Open Scope string_scope.
Local Open Scope list_scope.

Set Implicit Arguments.

(* ===================================================================== *)
(** * JavaScript values used by the service *)
(* ===================================================================== *)

Module JS.

(** A thrown [Error]: its [name] and its [message]. *)
Record error := mkError { name : string; message : string }.

Definition Error (msg : string) : error := mkError "Error" msg.
Definition RangeError (msg : string) : error := mkError "RangeError" msg.
Definition TypeError (msg : string) : error := mkError "TypeError" msg.
Definition SyntaxError (msg : string) : error := mkError "SyntaxError" msg.

(** A computation that either throws or returns. *)
Definition result (A : Type) : Type := (error + A)%type.

Definition throw {A} (e : error) : result A := inl e.
Definition ok {A} (a : A) : result A := inr a.

Definition bind {A B} (r : result A) (k : A -> result B) : result B :=
  match r with
  | inl e => inl e
  | inr a => k a
  end.

(** [try { body } catch (error) { handler }] *)
Definition try_catch {A} (body : result A) (handler : error -> result A)
  : result A :=
  match body with
  | inl e => handler e
  | inr a => inr a
  end.

(** Truthiness of a string: only the empty string is falsy. *)
Definition truthy_string (s : string) : bool :=
  match s with
  | EmptyString => false
  | String _ _ => true
  end.

(** Values produced by [JSON.parse].  Numbers only occur through their
    truthiness and their type, so integers stand for them. *)
#[warnings="-register-all"] Inductive json :=
| JNull
| JBool (b : bool)
| JNum (n : Z)
| JStr (s : string)
| JArr (items : list json)
| JObj (fields : list (string * json)).

(** Truthiness of a JSON value. *)
Definition truthy (v : json) : bool :=
  match v with
  | JNull => false
  | JBool b => b
  | JNum n => negb (Z.eqb n 0)
  | JStr s => truthy_string s
  | JArr _ => true
  | JObj _ => true
  end.

End JS.

Notation "x <- r ;; k" := (JS.bind r (fun x => k))
  (at level 61, r at next level, right associativity).

(* ===================================================================== *)
(** * Buffers *)
(* ===================================================================== *)

Module Buffer.

Definition t := list byte.

(** [Buffer.concat([a, b, ...])] *)
Definition concat (parts : list t) : t := List.concat parts.

(** [buf.subarray(start, end)]: both indices are clamped to the length. *)
Definition subarray (buf : t) (start stop : nat) : t :=
  firstn (stop - start) (skipn start buf).

(** [buf.subarray(start)] *)
Definition subarray_from (buf : t) (start : nat) : t := skipn start buf.

(** [Buffer.from(str)] (utf8): the bytes of the string. *)
Definition from_utf8 (s : string) : t := list_byte_of_string s.

(** [buf.toString('utf8')] *)
Definition toString_utf8 (buf : t) : string := string_of_list_byte buf.

(** An index as [subarray] reads it: cut at the length of the buffer. *)
Definition clamp (buf : t) (i : N) : nat :=
  N.to_nat (N.min i (N.of_nat (List.length buf))).

(** [buf.readUInt32BE(0)]: throws a RangeError when fewer than four bytes
    are available. *)
Definition readUInt32BE0 (buf : t) : JS.result N :=
  match buf with
  | b0 :: b1 :: b2 :: b3 :: _ =>
      JS.ok (((Byte.to_N b0 * 256 + Byte.to_N b1) * 256
              + Byte.to_N b2) * 256 + Byte.to_N b3)%N
  | _ => JS.throw (JS.RangeError
                     "Attempt to access memory outside buffer bounds")
  end.

(** ** Base64 *)

Definition byte_of_N (n : N) : byte :=
  match Byte.of_N (n mod 256) with
  | Some b => b
  | None => x00
  end.

Definition alphabet : list ascii :=
  list_ascii_of_string
    "ABCDEFGHIJKLMNOPQRSTUVWXYZabcdefghijklmnopqrstuvwxyz0123456789+/".

Definition alphabet_url : list ascii :=
  list_ascii_of_string
    "ABCDEFGHIJKLMNOPQRSTUVWXYZabcdefghijklmnopqrstuvwxyz0123456789-_".

Definition pad : ascii := "="%char.

Definition digit (table : list ascii) (v : N) : ascii :=
  nth (N.to_nat v) table pad.

(** Value of a base64 symbol; the decoder accepts both alphabets. *)
Fixpoint index_in (table : list ascii) (c : ascii) (i : N) : option N :=
  match table with
  | [] => None
  | d :: rest => if Ascii.eqb c d then Some i else index_in rest c (N.succ i)
  end.

Definition unbase64 (c : ascii) : option N :=
  match index_in alphabet c 0 with
  | Some v => Some v
  | None => index_in alphabet_url c 0
  end.

(** The sextets of up to three bytes. *)
Definition sextets1 (a : byte) : list N :=
  let a := Byte.to_N a in
  [a / 4; (a mod 4) * 16]%N.

Definition sextets2 (a b : byte) : list N :=
  let a := Byte.to_N a in
  let b := Byte.to_N b in
  [a / 4; (a mod 4) * 16 + b / 16; (b mod 16) * 4]%N.

Definition sextets3 (a b c : byte) : list N :=
  let a := Byte.to_N a in
  let b := Byte.to_N b in
  let c := Byte.to_N c in
  [a / 4; (a mod 4) * 16 + b / 16; (b mod 16) * 4 + c / 64; c mod 64]%N.

(** [buf.toString('base64')] and [buf.toString('base64url')]: the first
    pads the last group with [=], the second does not. *)
Fixpoint encode (table : list ascii) (padding : bool) (buf : t)
  : list ascii :=
  match buf with
  | [] => []
  | [a] =>
      map (digit table) (sextets1 a) ++ (if padding then [pad; pad] else [])
  | [a; b] =>
      map (digit table) (sextets2 a b) ++ (if padding then [pad] else [])
  | a :: b :: c :: rest =>
      map (digit table) (sextets3 a b c) ++ encode table padding rest
  end.

Definition toString_base64 (buf : t) : string :=
  string_of_list_ascii (encode alphabet true buf).

Definition toString_base64url (buf : t) : string :=
  string_of_list_ascii (encode alphabet_url false buf).

(** [Buffer.from(str, 'base64')]: symbols outside the alphabets are
    skipped, decoding stops at the first [=], and an incomplete last group
    yields the bytes that are complete. *)
Fixpoint symbols (s : list ascii) : list N :=
  match s with
  | [] => []
  | c :: rest =>
      if Ascii.eqb c pad then []
      else match unbase64 c with
           | Some v => v :: symbols rest
           | None => symbols rest
           end
  end.

Fixpoint bytes_of_symbols (l : list N) : t :=
  match l with
  | s0 :: s1 :: s2 :: s3 :: rest =>
      byte_of_N (s0 * 4 + s1 / 16)
        :: byte_of_N ((s1 mod 16) * 16 + s2 / 4)
        :: byte_of_N ((s2 mod 4) * 64 + s3)
        :: bytes_of_symbols rest
  | [s0; s1; s2] =>
      [byte_of_N (s0 * 4 + s1 / 16); byte_of_N ((s1 mod 16) * 16 + s2 / 4)]
  | [s0; s1] => [byte_of_N (s0 * 4 + s1 / 16)]
  | _ => []
  end%N.

Definition from_base64 (s : string) : t :=
  bytes_of_symbols (symbols (list_ascii_of_string s)).

End Buffer.

(* ===================================================================== *)
(** * Node's [crypto] module *)
(* ===================================================================== *)

(** The primitives the service calls.  [aes_256_gcm_encrypt key iv aad data]
    stands for [createCipheriv('aes-256-gcm', key, iv)], [setAAD(aad)],
    [update(data)], [final()] and [getAuthTag()], and returns the ciphertext
    and the tag; [aes_256_gcm_decrypt key iv aad data tag] stands for
    [createDecipheriv], [setAAD], [setAuthTag], [update] and [final].  Both
    throw where Node throws. *)
Record NodeCrypto := {
  pbkdf2 : string -> Buffer.t -> N -> nat -> string -> Buffer.t;
  aes_256_gcm_encrypt :
    Buffer.t -> Buffer.t -> Buffer.t -> Buffer.t
    -> JS.result (Buffer.t * Buffer.t);
  aes_256_gcm_decrypt :
    Buffer.t -> Buffer.t -> Buffer.t -> Buffer.t -> Buffer.t
    -> JS.result Buffer.t;
  sha256_hex : Buffer.t -> string
}.

(** What the development assumes of them: PBKDF2 returns [keylen] bytes; with
    a 32-byte key and a 12-byte IV, AES-256-GCM encrypts to a ciphertext as
    long as the plaintext and a 16-byte tag; and decryption with the same
    key, IV, associated data and tag returns the plaintext. *)
Record NodeCryptoLaws (nc : NodeCrypto) : Prop := {
  pbkdf2_length :
    forall password salt iterations keylen digest,
      List.length (pbkdf2 nc password salt iterations keylen digest) = keylen;
  gcm_encrypt_returns :
    forall key iv aad data,
      List.length key = 32 -> List.length iv = 12 ->
      exists ct tag,
        aes_256_gcm_encrypt nc key iv aad data = inr (ct, tag)
        /\ List.length ct = List.length data /\ List.length tag = 16;
  gcm_decrypt_encrypt :
    forall key iv aad data ct tag,
      aes_256_gcm_encrypt nc key iv aad data = inr (ct, tag) ->
      aes_256_gcm_decrypt nc key iv aad ct tag = inr data
}.

(** The system's random source: an unbounded stream of bytes and the number
    of bytes already drawn. *)
Record rng := mkRng { stream : nat -> byte; cursor : nat }.

(** [crypto.randomBytes(n)] *)
Definition randomBytes (n : nat) (g : rng) : Buffer.t * rng :=
  (map (stream g) (seq (cursor g) n), mkRng (stream g) (cursor g + n)).

(* ===================================================================== *)
(** * The crypto service (src/backend/src/services/crypto.js) *)
(* ===================================================================== *)

Module CryptoService.
Section WithNode.

Variable node : NodeCrypto.

(** [JSON.parse(metadataJson).ivLength] of the legacy storage metadata: a
    number, or [None] for [undefined]. *)
Variable metadata_ivLength : string -> JS.result (option N).

Definition generateFileKey (g : rng) : Buffer.t * rng := randomBytes 32 g.

Definition generateSalt (g : rng) : Buffer.t * rng := randomBytes 32 g.

Definition deriveKeyFromPassword (password : string) (salt : Buffer.t)
  : Buffer.t :=
  pbkdf2 node password salt 100000%N 32 "sha256".

Definition AAD : Buffer.t := Buffer.from_utf8 "DisguiseDrive-v1".

Record encrypted := mkEncrypted {
  encryptedData : Buffer.t;
  iv : Buffer.t;
  authTag : Buffer.t
}.

Definition encryptData (data key : Buffer.t) (g : rng)
  : JS.result encrypted * rng :=
  let '(iv, g) := randomBytes 12 g in
  (JS.bind (aes_256_gcm_encrypt node key iv AAD data)
     (fun '(encryptedData, authTag) =>
        JS.ok (mkEncrypted encryptedData iv authTag)),
   g).

Definition decryptData (encryptedData key iv authTag : Buffer.t)
  : JS.result Buffer.t :=
  aes_256_gcm_decrypt node key iv AAD encryptedData authTag.

Record wrappedKey := mkWrappedKey {
  encryptedKeyBlob : string;
  salt : string
}.

(** A [Buffer] is an object, hence truthy whatever its length. *)
Definition truthy_buffer (b : Buffer.t) : bool := true.

Definition encryptFileKey (fileKey : Buffer.t) (password : string)
    (salt : Buffer.t) (g : rng) : JS.result wrappedKey * rng :=
  let '(body, g) :=
    if negb (truthy_buffer fileKey) || negb (JS.truthy_string password)
       || negb (truthy_buffer salt)
    then (JS.throw (JS.Error
            "Missing required parameters: fileKey, password, or salt"), g)
    else
      let passwordKey := deriveKeyFromPassword password salt in
      if negb (truthy_buffer passwordKey)
      then (JS.throw (JS.Error "Failed to derive password key"), g)
      else
        let '(encryptResult, g) := encryptData fileKey passwordKey g in
        (r <- encryptResult ;;
         if negb (truthy_buffer (encryptedData r))
            || negb (truthy_buffer (iv r))
            || negb (truthy_buffer (authTag r))
         then JS.throw (JS.Error "Failed to encrypt file key data")
         else
           let keyBlob :=
             Buffer.concat [iv r; authTag r; encryptedData r] in
           JS.ok (mkWrappedKey (Buffer.toString_base64 keyBlob)
                               (Buffer.toString_base64 salt)),
         g)
  in
  (JS.try_catch body
     (fun error =>
        JS.throw (JS.Error
          ("File key encryption failed: " ++ JS.message error))),
   g).

(** [Buffer.from(value, 'base64')] on a nullable database field. *)
Definition Buffer_from_base64 (value : option string)
  : JS.result Buffer.t :=
  match value with
  | Some s => JS.ok (Buffer.from_base64 s)
  | None =>
      JS.throw (JS.TypeError
        ("The first argument must be of type string or an instance of "
         ++ "Buffer, ArrayBuffer, or Array or an Array-like Object. "
         ++ "Received null"))
  end.

Definition decryptFileKey (encryptedKeyBlob : option string)
    (password : string) (saltBase64 : option string)
  : JS.result Buffer.t :=
  JS.try_catch
    (keyBlob <- Buffer_from_base64 encryptedKeyBlob ;;
     salt <- Buffer_from_base64 saltBase64 ;;
     let iv := Buffer.subarray keyBlob 0 12 in
     let authTag := Buffer.subarray keyBlob 12 28 in
     let encryptedData := Buffer.subarray_from keyBlob 28 in
     let passwordKey := deriveKeyFromPassword password salt in
     fileKey <- decryptData encryptedData passwordKey iv authTag ;;
     JS.ok fileKey)
    (fun error =>
       JS.throw (JS.Error
         ("File key decryption failed: " ++ JS.message error))).

Definition calculateHash (data : Buffer.t) : string := sha256_hex node data.

(** [generateToken(length = 32)] *)
Definition generateToken (g : rng) : string * rng :=
  let '(bytes, g) := randomBytes 32 g in
  (Buffer.toString_base64url bytes, g).

Record encryptedFile := mkEncryptedFile {
  ef_encryptedData : Buffer.t;
  ef_fileKey : Buffer.t;
  ef_iv : Buffer.t;
  ef_authTag : Buffer.t
}.

Definition encryptFileForStorage (fileData : Buffer.t) (g : rng)
  : JS.result encryptedFile * rng :=
  let '(fileKey, g) := generateFileKey g in
  let '(r, g) := encryptData fileData fileKey g in
  (e <- r ;;
   JS.ok (mkEncryptedFile (encryptedData e) fileKey (iv e) (authTag e)),
   g).

(** The statements after the [return] are never executed. *)
Definition createStorageBlob (encryptedData iv authTag : Buffer.t)
  : Buffer.t :=
  Buffer.concat [iv; authTag; encryptedData].

Record parsedBlob := mkParsedBlob {
  pb_encryptedData : Buffer.t;
  pb_iv : Buffer.t
}.

(** The blob is read in the layout [metadata length][metadata][iv][data].
    With an [undefined] [ivLength] the sums are [NaN], which [subarray]
    reads as index 0. *)
Definition parseStorageBlob (storageBlob : Buffer.t)
  : JS.result parsedBlob :=
  metadataLength <- Buffer.readUInt32BE0 storageBlob ;;
  let metadataBuffer :=
    Buffer.subarray storageBlob 4
      (Buffer.clamp storageBlob (4 + metadataLength)) in
  let metadataJson := Buffer.toString_utf8 metadataBuffer in
  ivLength <- metadata_ivLength metadataJson ;;
  match ivLength with
  | Some ivLength =>
      JS.ok (mkParsedBlob
               (Buffer.subarray_from storageBlob
                  (Buffer.clamp storageBlob
                     (4 + metadataLength + ivLength)))
               (Buffer.subarray storageBlob
                  (Buffer.clamp storageBlob (4 + metadataLength))
                  (Buffer.clamp storageBlob
                     (4 + metadataLength + ivLength))))
  | None =>
      JS.ok (mkParsedBlob
               (Buffer.subarray_from storageBlob 0)
               (Buffer.subarray storageBlob
                  (Buffer.clamp storageBlob (4 + metadataLength)) 0))
  end.

End WithNode.
End CryptoService.

(* ===================================================================== *)
(** * The database, the storage bucket and the trace of effects *)
(* ===================================================================== *)

(** Rows of the Prisma tables [folders], [files], [folder_access_tokens] and
    [security_logs].  Dates are milliseconds since the epoch. *)
Record folder := mkFolder {
  folder_id : string;
  folder_name : string;
  isProtected : bool;
  passwordHash : option string;
  folder_ownerId : string
}.

Record file := mkFile {
  file_id : string;
  originalName : string;
  mimeType : string;
  size : Z;
  storagePath : string;
  coverPath : string;
  encryptedKeyBlob : option string;
  salt : option string;
  uploadMode : string;
  ownerId : string;
  folderId : string;
  createdAt : Z
}.

Record folderAccessToken := mkToken {
  token : string;
  token_folderId : string;
  token_userId : string;
  expiresAt : Z
}.

(** [metadata] is the object handed to [JSON.stringify]. *)
Record securityLog := mkLog {
  log_userId : option string;
  action : string;
  success : bool;
  ipAddress : string;
  userAgent : option string;
  metadata : JS.json
}.

(** What a handler sends: [res.status(s).json(v)] or [res.send(buffer)]
    with its headers. *)
Inductive body :=
| Json (v : JS.json)
| Octets (headers : list (string * JS.json)) (data : Buffer.t).

Record response := mkResponse { status : nat; payload : body }.

(** The effects of a request, in the order in which they happen. *)
Inductive event :=
| EvTokenLookup (token folderId userId : string) (now : Z) (found : bool)
| EvWrapKey (filename : string) (password : option JS.json)
| EvUnwrapKey (encryptedKeyBlob : option string) (password : string)
    (salt : option string)
| EvStorageUpload (path : string) (data : Buffer.t)
| EvStorageDownload (path : string)
| EvStorageDelete (path : string)
| EvFileCreate (row : file)
| EvFileDelete (id : string)
| EvTokenCreate (row : folderAccessToken)
| EvSecurityLog (row : securityLog)
| EvResponse (r : response).

(** The state a request runs in.  [clock] is what [Date.now()] and
    [new Date()] read; [calls] counts the calls made to services behind the
    network, whose replies are indexed by it; [ids] counts the rows created
    so far. *)
Record world := mkWorld {
  folders : list folder;
  files : list file;
  folderAccessTokens : list folderAccessToken;
  securityLogs : list securityLog;
  bucket : list (string * Buffer.t);
  random : rng;
  clock : Z;
  calls : nat;
  ids : nat;
  trace : list event
}.

Definition emit (e : event) (w : world) : world :=
  mkWorld (folders w) (files w) (folderAccessTokens w) (securityLogs w)
    (bucket w) (random w) (clock w) (calls w) (ids w) (trace w ++ [e]).

Definition set_random (g : rng) (w : world) : world :=
  mkWorld (folders w) (files w) (folderAccessTokens w) (securityLogs w)
    (bucket w) g (clock w) (calls w) (ids w) (trace w).

Definition set_clock (t : Z) (w : world) : world :=
  mkWorld (folders w) (files w) (folderAccessTokens w) (securityLogs w)
    (bucket w) (random w) t (calls w) (ids w) (trace w).

Definition set_files (l : list file) (w : world) : world :=
  mkWorld (folders w) l (folderAccessTokens w) (securityLogs w)
    (bucket w) (random w) (clock w) (calls w) (ids w) (trace w).

Definition set_tokens (l : list folderAccessToken) (w : world) : world :=
  mkWorld (folders w) (files w) l (securityLogs w)
    (bucket w) (random w) (clock w) (calls w) (ids w) (trace w).

Definition set_logs (l : list securityLog) (w : world) : world :=
  mkWorld (folders w) (files w) (folderAccessTokens w) l
    (bucket w) (random w) (clock w) (calls w) (ids w) (trace w).

Definition set_bucket (b : list (string * Buffer.t)) (w : world) : world :=
  mkWorld (folders w) (files w) (folderAccessTokens w) (securityLogs w)
    b (random w) (clock w) (calls w) (ids w) (trace w).

Definition tick (w : world) : world :=
  mkWorld (folders w) (files w) (folderAccessTokens w) (securityLogs w)
    (bucket w) (random w) (clock w) (S (calls w)) (ids w) (trace w).

Definition next_id (w : world) : world :=
  mkWorld (folders w) (files w) (folderAccessTokens w) (securityLogs w)
    (bucket w) (random w) (clock w) (calls w) (S (ids w)) (trace w).

(** How a middleware or a handler ends: it sent a response, it called
    [next()], or it threw (the rejection goes to [next(err)]). *)
Inductive outcome (A : Type) :=
| Sent (r : response)
| Next (a : A)
| Thrown (e : JS.error).

Arguments Sent {A} r.
Arguments Next {A} a.
Arguments Thrown {A} e.

(** [res.status(s).json(v)] *)
Definition respond {A} (s : nat) (v : JS.json) (w : world)
  : outcome A * world :=
  let r := mkResponse s (Json v) in
  (Sent r, emit (EvResponse r) w).

(** ** Prisma *)

Module prisma.

(** [prisma.folder.findFirst({ where: { id, ownerId } })] *)
Definition folder_findFirst (id owner : string) (w : world)
  : option folder :=
  find (fun f => String.eqb (folder_id f) id
                 && String.eqb (folder_ownerId f) owner) (folders w).

(** [prisma.file.findFirst({ where: { id, ownerId } })] *)
Definition file_findFirst (id owner : string) (w : world) : option file :=
  find (fun f => String.eqb (file_id f) id
                 && String.eqb (ownerId f) owner) (files w).

(** The folder a file row includes ([include: { folder: true }]). *)
Definition file_folder (f : file) (w : world) : option folder :=
  find (fun d => String.eqb (folder_id d) (folderId f)) (folders w).

(** [prisma.folderAccessToken.findFirst({ where: { token, folderId,
    userId, expiresAt: { gt: new Date() } } })] *)
Definition token_matches (tok fid uid : string) (now : Z)
    (r : folderAccessToken) : bool :=
  String.eqb (token r) tok && String.eqb (token_folderId r) fid
  && String.eqb (token_userId r) uid && (now <? expiresAt r)%Z.

Definition folderAccessToken_findFirst (tok fid uid : string) (w : world)
  : option folderAccessToken * world :=
  let r := find (token_matches tok fid uid (clock w))
             (folderAccessTokens w) in
  (r, emit (EvTokenLookup tok fid uid (clock w)
              (match r with Some _ => true | None => false end)) w).

(** [prisma.folderAccessToken.create]: the table has a unique index on
    [token]. *)
Definition folderAccessToken_create (row : folderAccessToken) (w : world)
  : JS.result unit * world :=
  if existsb (fun r => String.eqb (token r) (token row))
       (folderAccessTokens w)
  then (JS.throw (JS.mkError "PrismaClientKnownRequestError"
                    "Unique constraint failed on the fields: (`token`)"),
        w)
  else (JS.ok tt,
        emit (EvTokenCreate row)
          (set_tokens (folderAccessTokens w ++ [row]) w)).

(** [prisma.securityLog.create] *)
Definition securityLog_create (row : securityLog) (w : world) : world :=
  emit (EvSecurityLog row) (set_logs (securityLogs w ++ [row]) w).

(** [prisma.file.create] *)
Definition file_create (row : file) (w : world) : world :=
  emit (EvFileCreate row) (next_id (set_files (files w ++ [row]) w)).

(** [prisma.file.delete({ where: { id } })] *)
Definition file_delete (id : string) (w : world) : world :=
  emit (EvFileDelete id)
    (set_files
       (filter (fun f => negb (String.eqb (file_id f) id)) (files w)) w).

End prisma.

(* ===================================================================== *)
(** * Requests *)
(* ===================================================================== *)

(** A file as multer hands it over ([req.files[i]]). *)
Record upload := mkUpload {
  originalname : string;
  mimetype : string;
  upload_size : Z;
  buffer : Buffer.t
}.

(** An authenticated request: [user] is [req.user.id], set by the
    authentication middleware that runs first.  A route parameter is a
    non-empty string; the empty string stands for a parameter the route does
    not have. *)
Record request := mkRequest {
  user : string;
  params_id : string;
  params_folderId : string;
  x_folder_token : option string;
  body_password : option string;
  body_uploadMode : option string;
  body_passwords : option string;
  body_coverTypes : option string;
  req_files : option (list upload);
  ip : string;
  user_agent : option string
}.

(** Decimal form of a number inside a template string. *)
Definition decimal (n : nat) : string :=
  NilZero.string_of_uint (Nat.to_uint n).

Definition decimalZ (z : Z) : string :=
  NilZero.string_of_int (Z.to_int z).

(** [str.startsWith(prefix)] *)
Fixpoint startsWith (prefix s : string) : bool :=
  match prefix, s with
  | EmptyString, _ => true
  | String a p, String b s' => Ascii.eqb a b && startsWith p s'
  | String _ _, EmptyString => false
  end.

(** [a || b] on strings and on values that may be [undefined]. *)
Definition or_string (a b : string) : string :=
  if JS.truthy_string a then a else b.

Definition or_default (a : option string) (b : string) : string :=
  match a with
  | Some s => or_string s b
  | None => b
  end.

Definition or_json (a b : option JS.json) : option JS.json :=
  match a with
  | Some v => if JS.truthy v then a else b
  | None => b
  end.

Fixpoint lookup {A} (key : string) (l : list (string * A)) : option A :=
  match l with
  | [] => None
  | (k, v) :: rest => if String.eqb k key then Some v else lookup key rest
  end.

(** [value[i]]: reading a property of [null] throws; a number or a boolean
    has no such property. *)
Definition json_index (value : JS.json) (i : nat)
  : JS.result (option JS.json) :=
  match value with
  | JS.JNull =>
      JS.throw (JS.TypeError
        ("Cannot read properties of null (reading '" ++ decimal i ++ "')"))
  | JS.JArr items => JS.ok (nth_error items i)
  | JS.JStr s =>
      JS.ok (match String.get i s with
             | Some c => Some (JS.JStr (String c EmptyString))
             | None => None
             end)
  | JS.JObj fields => JS.ok (lookup (decimal i) fields)
  | JS.JBool _ | JS.JNum _ => JS.ok None
  end.

(* ===================================================================== *)
(** * The storage service and the cover generator *)
(* ===================================================================== *)

Section Services.

(** [SupabaseStorageService] (src/backend/src/services/supabaseStorage.js)
    and [CoverGenerator] (src/unnamed/part_008).  The parameters are the
    error, if any, with which Supabase answers the n-th call made to a
    service, and the reply of Unsplash to the n-th call.  An upload to a path
    that exists is refused. *)
Variable supabase_error : nat -> option string.
Variable getRandomNatureImage : nat -> JS.result string.

Definition supabase_upload (filePath : string) (data : Buffer.t)
    (w : world) : JS.result string * world :=
  let n := calls w in
  let w := emit (EvStorageUpload filePath data) (tick w) in
  match supabase_error n with
  | Some msg => (JS.throw (JS.Error ("Supabase upload failed: " ++ msg)), w)
  | None =>
      match lookup filePath (bucket w) with
      | Some _ =>
          (JS.throw (JS.Error
             "Supabase upload failed: The resource already exists"), w)
      | None =>
          (JS.ok filePath, set_bucket (bucket w ++ [(filePath, data)]) w)
      end
  end.

Definition uploadEncryptedFile (fileBuffer : Buffer.t) (fileName : string)
    (w : world) : JS.result string * world :=
  let filePath :=
    ("encrypted/" ++ decimalZ (clock w) ++ "-" ++ fileName)%string in
  supabase_upload filePath fileBuffer w.

Definition uploadFile (fileBuffer : Buffer.t) (fileName : string)
    (w : world) : JS.result string * world :=
  let filePath :=
    ("normal/" ++ decimalZ (clock w) ++ "-" ++ fileName)%string in
  supabase_upload filePath fileBuffer w.

Definition downloadEncryptedFile (filePath : string) (w : world)
  : JS.result Buffer.t * world :=
  let n := calls w in
  let w := emit (EvStorageDownload filePath) (tick w) in
  match supabase_error n with
  | Some msg =>
      (JS.throw (JS.Error ("Supabase download failed: " ++ msg)), w)
  | None =>
      match lookup filePath (bucket w) with
      | Some data => (JS.ok data, w)
      | None =>
          (JS.throw (JS.Error "Supabase download failed: Object not found"),
           w)
      end
  end.

(** [deleteFile] catches its own errors and answers [false]. *)
Definition deleteFile (filePath : string) (w : world) : bool * world :=
  let n := calls w in
  let w := emit (EvStorageDelete filePath) (tick w) in
  match supabase_error n with
  | Some _ => (false, w)
  | None =>
      (true,
       set_bucket
         (filter (fun e => negb (String.eqb (fst e) filePath)) (bucket w))
         w)
  end.

(** [signature.every((byte, index) => buffer[index] === byte)] *)
Fixpoint has_signature (signature : list byte) (buf : Buffer.t) : bool :=
  match signature, buf with
  | [], _ => true
  | s :: sig', b :: buf' => Byte.eqb b s && has_signature sig' buf'
  | _ :: _, [] => false
  end.

Definition imageSignatures : list (list byte) :=
  [ [xff; xd8; xff];
    [x89; x50; x4e; x47];
    [x47; x49; x46];
    [x42; x4d];
    [x52; x49; x46; x46] ].

Definition validateImage (buf : Buffer.t) : bool :=
  match buf with
  | [] => false
  | _ => existsb (fun signature => has_signature signature buf)
           imageSignatures
  end.

Definition fallbackUrl : string :=
  "https://images.unsplash.com/photo-1506905925346-21bda4d32df4"
  ++ "?w=400&h=300&fit=crop".

(** [generateCover(imageBuffer, fileHash, ownerId)]: its [data]. *)
Definition generateCover (w : world) : string * world :=
  (match getRandomNatureImage (calls w) with
   | inr coverImageUrl => coverImageUrl
   | inl _ => fallbackUrl
   end, tick w).

End Services.

(* ===================================================================== *)
(** * The middleware and the routers *)
(* ===================================================================== *)

(** What the routes take from their platform. *)
Record Platform := {
  node : NodeCrypto;
  JSON_parse : string -> JS.result JS.json;
  (** [error.details[0].message] of a failed Joi validation *)
  joi_message : JS.json -> string;
  supabase_error : nat -> option string;
  getRandomNatureImage : nat -> JS.result string;
  (** the id Prisma gives to the n-th row it creates *)
  cuid : nat -> string;
  toISOString : Z -> string
}.

Definition error_body (msg : string) : JS.json :=
  JS.JObj [("error", JS.JStr msg)].

Definition token_required : JS.json :=
  JS.JObj [("error", JS.JStr "Folder access token required");
           ("requiresFolderPassword", JS.JBool true)].

Definition token_invalid : JS.json :=
  JS.JObj [("error", JS.JStr "Invalid or expired folder access token");
           ("requiresFolderPassword", JS.JBool true)].

Definition invalid_password : JS.json :=
  JS.JObj [("error", JS.JStr "Invalid password");
           ("success", JS.JBool false)].

Definition opt_json (s : option string) : JS.json :=
  match s with
  | Some s => JS.JStr s
  | None => JS.JNull
  end.

Section Routes.

Variable P : Platform.

(** ** src/backend/src/middleware/auth.js *)

(** [verifyFolderAccess]: on [next()] the request carries the folder and,
    for a protected folder, the token row.  The queries of the model do
    not throw, so the [catch] branch is not entered. *)
Definition verifyFolderAccess (req : request) (w : world)
  : outcome (folder * option folderAccessToken) * world :=
  let folderId := or_string (params_id req) (params_folderId req) in
  if negb (JS.truthy_string folderId)
  then respond 400 (error_body "Folder ID required") w
  else
    match prisma.folder_findFirst folderId (user req) w with
    | None => respond 404 (error_body "Folder not found") w
    | Some folder =>
        if negb (isProtected folder)
        then (Next (folder, None), w)
        else
          let accessToken := or_default (x_folder_token req) "" in
          if negb (JS.truthy_string accessToken)
          then respond 403 token_required w
          else
            let '(tokenRecord, w) :=
              prisma.folderAccessToken_findFirst
                accessToken folderId (user req) w in
            match tokenRecord with
            | None => respond 403 token_invalid w
            | Some tokenRecord => (Next (folder, Some tokenRecord), w)
            end
    end.

(** ** The files router (src/unnamed/part_005) *)

Definition secure : string := "secure".

(** [secureUploadSchema]: an array holding at least one item, all of them
    strings of four characters or more. *)
Definition min4 (v : JS.json) : bool :=
  match v with
  | JS.JStr s => Nat.leb 4 (String.length s)
  | _ => false
  end.

Definition secureUploadSchema_validate (passwords : JS.json)
  : option string :=
  match passwords with
  | JS.JArr (item :: items) =>
      if forallb min4 (item :: items) then None
      else Some (joi_message P passwords)
  | _ => Some (joi_message P passwords)
  end.

(** [passwords.length] *)
Definition json_length (v : JS.json) : option nat :=
  match v with
  | JS.JArr items => Some (List.length items)
  | JS.JStr s => Some (String.length s)
  | _ => None
  end.

(** [encryptFileKey] on a value that need not be a string: the guard
    rejects a falsy one and PBKDF2 one of another type. *)
Definition encryptFileKey_any (fileKey : Buffer.t)
    (password : option JS.json) (salt : Buffer.t) (g : rng)
  : JS.result CryptoService.wrappedKey * rng :=
  match password with
  | Some (JS.JStr s) => CryptoService.encryptFileKey (node P) fileKey s salt g
  | _ =>
      if match password with Some v => JS.truthy v | None => false end
      then (JS.throw (JS.Error
              ("File key encryption failed: The 'password' argument "
               ++ "must be of type string or an instance of ArrayBuffer, "
               ++ "Buffer, TypedArray, or DataView.")), g)
      else (JS.throw (JS.Error
              ("File key encryption failed: Missing required parameters: "
               ++ "fileKey, password, or salt")), g)
  end.

(** One entry of [uploadedFiles] or of [errors]. *)
Inductive processed :=
| Uploaded (row : file)
| Failed (filename error : string).

(** The body of the [try] block of the upload loop. *)
Definition store_file (req : request) (uploadMode : string)
    (password : option JS.json) (f : upload) (w : world)
  : JS.result processed * world :=
  let isImage := startsWith "image/" (mimetype f) in
  if isImage && negb (validateImage (buffer f))
  then (JS.ok (Failed (originalname f) "Invalid image format"), w)
  else
    let fileHash := CryptoService.calculateHash (node P) (buffer f) in
    let '(stored, w) :=
      if String.eqb uploadMode secure
      then
        let '(r, g) :=
          CryptoService.encryptFileForStorage (node P) (buffer f)
            (random w) in
        let w := set_random g w in
        match r with
        | inl e => (JS.throw e, w)
        | inr ef =>
            let storageBlob :=
              CryptoService.createStorageBlob
                (CryptoService.ef_encryptedData ef)
                (CryptoService.ef_iv ef) (CryptoService.ef_authTag ef) in
            let '(salt, g) := CryptoService.generateSalt (random w) in
            let w :=
              emit (EvWrapKey (originalname f) password)
                (set_random g w) in
            let '(encryptionResult, g) :=
              encryptFileKey_any (CryptoService.ef_fileKey ef) password
                salt (random w) in
            let w := set_random g w in
            match encryptionResult with
            | inl e => (JS.throw e, w)
            | inr wk =>
                let encryptedKeyBlob :=
                  CryptoService.encryptedKeyBlob wk in
                if negb (JS.truthy_string encryptedKeyBlob)
                then (JS.throw (JS.Error
                        ("Failed to encrypt file key - "
                         ++ "no encrypted blob returned")), w)
                else
                  let '(storagePath, w) :=
                    uploadEncryptedFile (supabase_error P) storageBlob
                      ("encrypted/" ++ fileHash ++ "-" ++ originalname f)
                      w in
                  (path <- storagePath ;;
                   JS.ok (path, Some encryptedKeyBlob,
                          Some (Buffer.toString_base64 salt)), w)
            end
        end
      else
        let '(storagePath, w) :=
          uploadFile (supabase_error P) (buffer f)
            ("normal/" ++ fileHash ++ "-" ++ originalname f) w in
        (path <- storagePath ;; JS.ok (path, None, None), w)
    in
    match stored with
    | inl e => (JS.throw e, w)
    | inr (storagePath, encryptedKeyBlob, salt) =>
        let '(coverPath, w) := generateCover (getRandomNatureImage P) w in
        let row :=
          mkFile (cuid P (ids w)) (originalname f) (mimetype f)
            (upload_size f) storagePath coverPath encryptedKeyBlob salt
            uploadMode (user req) (params_folderId req) (clock w) in
        (JS.ok (Uploaded row), prisma.file_create row w)
    end.

(** [uploadMode === 'secure' ? (passwords[i] || passwords[0]) : null] *)
Definition select_password (uploadMode : string) (passwords : JS.json)
    (i : nat) : JS.result (option JS.json) :=
  if String.eqb uploadMode secure
  then (a <- json_index passwords i ;;
        b <- (if match a with Some v => JS.truthy v | None => false end
              then JS.ok None else json_index passwords 0) ;;
        JS.ok (or_json a b))
  else JS.ok (Some JS.JNull).

(** One turn of the upload loop.  Reading [coverTypes[i]] happens outside
    the [try] block, so its exception leaves the handler. *)
Definition process_file (req : request) (uploadMode : string)
    (passwords coverTypes : JS.json) (i : nat) (f : upload) (w : world)
  : JS.result processed * world :=
  match select_password uploadMode passwords i with
  | inl e => (JS.throw e, w)
  | inr password =>
      match json_index coverTypes i with
      | inl e => (JS.throw e, w)
      | inr _ =>
          let '(r, w) := store_file req uploadMode password f w in
          (JS.ok match r with
                 | inr p => p
                 | inl error => Failed (originalname f) (JS.message error)
                 end, w)
      end
  end.

Fixpoint upload_loop (req : request) (uploadMode : string)
    (passwords coverTypes : JS.json) (i : nat) (todo : list upload)
    (done : list processed) (w : world)
  : JS.result (list processed) * world :=
  match todo with
  | [] => (JS.ok done, w)
  | f :: rest =>
      let '(r, w) :=
        process_file req uploadMode passwords coverTypes i f w in
      match r with
      | inl e => (JS.throw e, w)
      | inr p =>
          upload_loop req uploadMode passwords coverTypes (S i) rest
            (done ++ [p]) w
      end
  end.

Definition uploadedFiles (done : list processed) : list file :=
  flat_map (fun p => match p with Uploaded row => [row] | _ => [] end) done.

Definition errors (done : list processed) : list (string * string) :=
  flat_map (fun p => match p with
                     | Failed filename error => [(filename, error)]
                     | _ => []
                     end) done.

(** The fields [select] keeps of a created row. *)
Definition selected (row : file) : JS.json :=
  JS.JObj [("id", JS.JStr (file_id row));
           ("originalName", JS.JStr (originalName row));
           ("mimeType", JS.JStr (mimeType row));
           ("size", JS.JNum (size row));
           ("coverPath", JS.JStr (coverPath row));
           ("createdAt", JS.JStr (toISOString P (createdAt row)))].

(** [POST /:folderId/files], the handler behind [verifyFolderAccess] and
    multer. *)
Definition upload_files (req : request) (w : world)
  : outcome unit * world :=
  match req_files req with
  | None | Some [] => respond 400 (error_body "No files provided") w
  | Some files =>
      let uploadMode := or_default (body_uploadMode req) secure in
      match
        (if String.eqb uploadMode secure
         then JSON_parse P (or_default (body_passwords req) "[]")
         else JS.ok (JS.JArr []))
      with
      | inl _ => respond 400 (error_body "Invalid passwords format") w
      | inr passwords =>
          match JSON_parse P (or_default (body_coverTypes req) "[]") with
          | inl _ =>
              respond 400 (error_body "Invalid cover types format") w
          | inr coverTypes =>
              match
                (if String.eqb uploadMode secure
                 then
                   match secureUploadSchema_validate passwords with
                   | Some details =>
                       Some (JS.JObj
                               [("error", JS.JStr "Validation failed");
                                ("details", JS.JStr details)])
                   | None =>
                       if match json_length passwords with
                          | Some n => negb (Nat.eqb n (List.length files))
                          | None => true
                          end
                       then Some (error_body
                              "Number of passwords must match number of files")
                       else None
                   end
                 else None)
              with
              | Some rejection => respond 400 rejection w
              | None =>
                  let '(r, w) :=
                    upload_loop req uploadMode passwords coverTypes 0
                      files [] w in
                  match r with
                  | inl e => (Thrown e, w)
                  | inr done =>
                      let uploaded := uploadedFiles done in
                      let failed := errors done in
                      let w :=
                        prisma.securityLog_create
                          (mkLog (Some (user req)) "file_upload"
                             (Nat.ltb 0 (List.length uploaded)) (ip req)
                             (user_agent req)
                             (JS.JObj
                                [("folderId",
                                  JS.JStr (params_folderId req));
                                 ("filesUploaded",
                                  JS.JNum
                                    (Z.of_nat (List.length uploaded)));
                                 ("filesError",
                                  JS.JNum
                                    (Z.of_nat (List.length failed)))]))
                          w in
                      respond 201
                        (JS.JObj
                           ([("message",
                              JS.JStr (decimal (List.length uploaded)
                                       ++ " files uploaded successfully"));
                             ("files",
                              JS.JArr (map selected uploaded))]
                            ++ match failed with
                               | [] => []
                               | _ =>
                                   [("errors",
                                     JS.JArr
                                       (map (fun e =>
                                          JS.JObj
                                            [("filename", JS.JStr (fst e));
                                             ("error", JS.JStr (snd e))])
                                          failed))]
                               end)) w
                  end
              end
          end
      end
  end.

Definition null_folder : JS.error :=
  JS.TypeError "Cannot read properties of null (reading 'isProtected')".

(** [GET /:id/encrypted] *)
Definition get_encrypted (req : request) (w : world)
  : outcome unit * world :=
  let fileId := params_id req in
  match prisma.file_findFirst fileId (user req) w with
  | None => respond 404 (error_body "File not found") w
  | Some file =>
      match prisma.file_folder file w with
      | None => (Thrown null_folder, w)
      | Some folder =>
          let '(denied, w) :=
            if isProtected folder
            then
              let accessToken := or_default (x_folder_token req) "" in
              if negb (JS.truthy_string accessToken)
              then (Some token_required, w)
              else
                let '(tokenRecord, w) :=
                  prisma.folderAccessToken_findFirst
                    accessToken (folderId file) (user req) w in
                match tokenRecord with
                | None => (Some token_invalid, w)
                | Some _ => (None, w)
                end
            else (None, w)
          in
          match denied with
          | Some rejection => respond 403 rejection w
          | None =>
              let '(r, w) :=
                downloadEncryptedFile (supabase_error P)
                  (storagePath file) w in
              match r with
              | inr encryptedBuffer =>
                  let r :=
                    mkResponse 200
                      (Octets
                         [("Content-Type",
                           JS.JStr "application/octet-stream");
                          ("Content-Length",
                           JS.JNum
                             (Z.of_nat (List.length encryptedBuffer)));
                          ("Cache-Control", JS.JStr "private, no-cache")]
                         encryptedBuffer) in
                  (Sent r, emit (EvResponse r) w)
              | inl _ =>
                  respond 500 (error_body "Failed to get encrypted file") w
              end
          end
      end
  end.

(** [POST /:id/decrypt-key] *)
Definition decrypt_key (req : request) (w : world)
  : outcome unit * world :=
  let fileId := params_id req in
  let password := or_default (body_password req) "" in
  if negb (JS.truthy_string password)
  then respond 400 (error_body "Password required") w
  else
    match prisma.file_findFirst fileId (user req) w with
    | None => respond 404 (error_body "File not found") w
    | Some file =>
        match prisma.file_folder file w with
        | None => (Thrown null_folder, w)
        | Some folder =>
            let '(denied, w) :=
              if isProtected folder
              then
                let accessToken := or_default (x_folder_token req) "" in
                if negb (JS.truthy_string accessToken)
                then (Some token_required, w)
                else
                  let '(tokenRecord, w) :=
                    prisma.folderAccessToken_findFirst
                      accessToken (folder_id folder) (user req) w in
                  match tokenRecord with
                  | None => (Some token_invalid, w)
                  | Some _ => (None, w)
                  end
              else (None, w)
            in
            match denied with
            | Some rejection => respond 403 rejection w
            | None =>
                let w :=
                  emit (EvUnwrapKey (encryptedKeyBlob file) password
                          (salt file)) w in
                match
                  CryptoService.decryptFileKey (node P)
                    (encryptedKeyBlob file) password (salt file)
                with
                | inr fileKey =>
                    let w :=
                      prisma.securityLog_create
                        (mkLog (Some (user req)) "file_unlock_attempt"
                           true (ip req) (user_agent req)
                           (JS.JObj [("fileId", JS.JStr fileId)])) w in
                    respond 200
                      (JS.JObj
                         [("success", JS.JBool true);
                          ("fileKey",
                           JS.JStr (Buffer.toString_base64 fileKey))]) w
                | inl error =>
                    let w :=
                      prisma.securityLog_create
                        (mkLog (Some (user req)) "file_unlock_attempt"
                           false (ip req) (user_agent req)
                           (JS.JObj
                              [("fileId", JS.JStr fileId);
                               ("error", JS.JStr (JS.message error))])) w in
                    respond 401 invalid_password w
                end
            end
        end
    end.

(** [DELETE /:id] *)
Definition delete_file (req : request) (w : world)
  : outcome unit * world :=
  let fileId := params_id req in
  match prisma.file_findFirst fileId (user req) w with
  | None => respond 404 (error_body "File not found") w
  | Some file =>
      let '(_, w) := deleteFile (supabase_error P) (storagePath file) w in
      let '(_, w) := deleteFile (supabase_error P) (coverPath file) w in
      let w := prisma.file_delete fileId w in
      respond 200
        (JS.JObj [("message", JS.JStr "File deleted successfully")]) w
  end.

(** ** The folders router (src/unnamed/part_006) *)

(** [unlockFolderSchema]: a body holding a non-empty string [password]. *)
Definition unlockFolderSchema_validate (req : request)
  : JS.result string :=
  match body_password req with
  | Some (String c s) => JS.ok (String c s)
  | other => JS.throw (JS.mkError "ValidationError"
                         (joi_message P
                            (JS.JObj [("password", opt_json other)])))
  end.

Definition two_hours : Z := 2 * 60 * 60 * 1000.

(** [POST /:id/unlock] *)
Definition unlock (req : request) (w : world) : outcome unit * world :=
  match unlockFolderSchema_validate req with
  | inl error =>
      respond 400
        (JS.JObj [("error", JS.JStr "Validation failed");
                  ("details", JS.JStr (JS.message error))]) w
  | inr password =>
      let folderId := params_id req in
      match prisma.folder_findFirst folderId (user req) w with
      | None => respond 404 (error_body "Folder not found") w
      | Some folder =>
          if negb (isProtected folder)
          then respond 400
                 (error_body "Folder is not password protected") w
          else
            let isValidPassword :=
              match passwordHash folder with
              | Some stored => String.eqb stored password
              | None => false
              end in
            if negb isValidPassword
            then
              let w :=
                prisma.securityLog_create
                  (mkLog (Some (user req)) "folder_unlock_attempt" false
                     (ip req) (user_agent req)
                     (JS.JObj [("folderId", JS.JStr folderId);
                               ("reason", JS.JStr "invalid_password")]))
                  w in
              respond 401 (error_body "Invalid folder password") w
            else
              let '(accessToken, g) :=
                CryptoService.generateToken (random w) in
              let w := set_random g w in
              let expiresAt := (clock w + two_hours)%Z in
              let '(created, w) :=
                prisma.folderAccessToken_create
                  (mkToken accessToken folderId (user req) expiresAt) w in
              match created with
              | inr _ =>
                  let w :=
                    prisma.securityLog_create
                      (mkLog (Some (user req)) "folder_unlock_attempt"
                         true (ip req) (user_agent req)
                         (JS.JObj [("folderId", JS.JStr folderId)])) w in
                  respond 200
                    (JS.JObj
                       [("message",
                         JS.JStr "Folder unlocked successfully");
                        ("accessToken", JS.JStr accessToken);
                        ("expiresAt",
                         JS.JStr (toISOString P expiresAt))]) w
              | inl _ =>
                  let w :=
                    prisma.securityLog_create
                      (mkLog (Some (user req)) "folder_unlock_attempt"
                         false (ip req) (user_agent req)
                         (JS.JObj
                            [("folderId", JS.JStr folderId);
                             ("reason", JS.JStr "verification_error")]))
                      w in
                  respond 500 (error_body "Password verification failed") w
              end
      end
  end.

End Routes.

(* ===================================================================== *)
(** * A reference platform *)
(* ===================================================================== *)

(** A stand-in for Node's primitives on which the examples run: a one-byte
    XOR stream with a checksum tag, checked the way Node checks its
    arguments.  It satisfies [NodeCryptoLaws]. *)
Module Reference.

Definition xor_byte (a b : byte) : byte :=
  let '(a0, (a1, (a2, (a3, (a4, (a5, (a6, a7))))))) := Byte.to_bits a in
  let '(b0, (b1, (b2, (b3, (b4, (b5, (b6, b7))))))) := Byte.to_bits b in
  Byte.of_bits (xorb a0 b0, (xorb a1 b1, (xorb a2 b2, (xorb a3 b3,
    (xorb a4 b4, (xorb a5 b5, (xorb a6 b6, xorb a7 b7))))))).

Definition checksum (data : Buffer.t) : byte :=
  Buffer.byte_of_N
    (fold_left (fun acc b => (acc * 131 + Byte.to_N b + 1) mod 251)%N
       data 7%N).

Definition pbkdf2 (password : string) (salt : Buffer.t) (iterations : N)
    (keylen : nat) (digest : string) : Buffer.t :=
  map (fun i => checksum (Buffer.from_utf8 password ++ salt
                          ++ [Buffer.byte_of_N (N.of_nat i)]))
    (seq 0 keylen).

Definition mac (key iv aad ct : Buffer.t) : Buffer.t :=
  repeat (checksum (key ++ iv ++ aad ++ ct)) 16.

Definition check_key_iv (key iv : Buffer.t) : option JS.error :=
  if negb (Nat.eqb (List.length key) 32)
  then Some (JS.RangeError "Invalid key length")
  else match iv with
       | [] => Some (JS.TypeError "Invalid initialization vector")
       | _ => None
       end.

Definition encrypt (key iv aad data : Buffer.t)
  : JS.result (Buffer.t * Buffer.t) :=
  match check_key_iv key iv with
  | Some e => JS.throw e
  | None =>
      let ct := map (xor_byte (checksum (key ++ iv))) data in
      JS.ok (ct, mac key iv aad ct)
  end.

Definition tag_lengths : list nat := [4; 8; 12; 13; 14; 15; 16].

Definition decrypt (key iv aad ct tag : Buffer.t) : JS.result Buffer.t :=
  match check_key_iv key iv with
  | Some e => JS.throw e
  | None =>
      if negb (existsb (Nat.eqb (List.length tag)) tag_lengths)
      then JS.throw (JS.TypeError
             ("Invalid authentication tag length: "
              ++ decimal (List.length tag)))
      else if list_eq_dec Byte.byte_eq_dec tag
                (firstn (List.length tag) (mac key iv aad ct))
      then JS.ok (map (xor_byte (checksum (key ++ iv))) ct)
      else JS.throw (JS.Error
             "Unsupported state or unable to authenticate data")
  end.

Definition crypto : NodeCrypto :=
  Build_NodeCrypto pbkdf2 encrypt decrypt
    (fun data => decimal (List.length data)).

(** A reader of comma-separated lists standing in for [JSON.parse]. *)
Fixpoint split_commas (s : string) (word : string) : list string :=
  match s with
  | EmptyString => [word]
  | String c rest =>
      if Ascii.eqb c ","%char
      then word :: split_commas rest EmptyString
      else split_commas rest (word ++ String c EmptyString)
  end.

Definition parse (s : string) : JS.result JS.json :=
  if String.eqb s "[]" then JS.ok (JS.JArr [])
  else if String.eqb s "null" then JS.ok JS.JNull
  else if String.eqb s "" then JS.throw (JS.SyntaxError
                                 "Unexpected end of JSON input")
  else JS.ok (JS.JArr (map JS.JStr (split_commas s EmptyString))).

Definition platform : Platform :=
  Build_Platform crypto parse (fun _ => "validation failed")
    (fun _ => None)
    (fun _ => JS.ok "https://images.unsplash.com/photo-1")
    (fun n => ("row" ++ decimal n)%string) decimalZ.

Definition zeros : rng := mkRng (fun _ => x00) 0.

Definition alice : string := "alice".

Definition vault : folder := mkFolder "vault" "Vault" true (Some "open") alice.

Definition plain_file : file :=
  mkFile "f1" "cat.png" "image/png" 4 "normal/1-normal/4-cat.png"
    "https://images.unsplash.com/photo-1" None None "normal" alice "vault"
    0.

(** A protected folder holding one plain-mode file; nobody has unlocked
    the folder. *)
Definition locked_world : world :=
  mkWorld [vault] [plain_file] [] []
    [("normal/1-normal/4-cat.png", [x89; x50; x4e; x47])]
    zeros 1000 0 1 [].

Definition request_for (id : string) (tok password : option string)
  : request :=
  mkRequest alice id "" tok password None None None None "127.0.0.1" None.

Definition album : folder := mkFolder "album" "Album" false None alice.

Definition content_key : Buffer.t := repeat x07 32.

Definition salt_bytes : Buffer.t := repeat x02 32.

(** The KeyBlob of [content_key] wrapped under 'correct-horse'. *)
Definition wrapped : string :=
  Eval vm_compute in
    match fst (CryptoService.encryptFileKey crypto content_key
                 "correct-horse" salt_bytes zeros) with
    | inr r => CryptoService.encryptedKeyBlob r
    | inl _ => ""
    end.

Definition secret_file : file :=
  mkFile "f2" "dog.png" "image/png" 4 "encrypted/1-encrypted/4-dog.png"
    "https://images.unsplash.com/photo-1" (Some wrapped)
    (Some (Buffer.toString_base64 salt_bytes)) "secure" alice "album" 0.

(** An unprotected folder holding one secure-mode file. *)
Definition open_world : world :=
  mkWorld [album] [secret_file] [] []
    [("encrypted/1-encrypted/4-dog.png", [x00])]
    zeros 1000 0 2 [].

Definition png : upload :=
  mkUpload "cat.png" "image/png" 4 [x89; x50; x4e; x47].

Definition jpg : upload :=
  mkUpload "sun.jpg" "image/jpeg" 3 [xff; xd8; xff].

(** An upload to the album: the mode, the passwords and the files. *)
Definition upload_request (mode : string) (passwords : option string)
    (todo : list upload) : request :=
  mkRequest alice "" "album" None None (Some mode) passwords None
    (Some todo) "127.0.0.1" None.

End Reference.

(* ===================================================================== *)
(** * The browser's crypto utilities (src/frontend/src/lib/crypto.js) *)
(* ===================================================================== *)

(** The second half of the definitions covers what stands around the
    envelope encryption and the token gate:
    - the browser's crypto utilities (src/frontend/src/lib/crypto.js) and
      the upload dialog (src/frontend/src/components/UploadModal.js),
    - the routes of the files router that hand out a URL, the metadata and
      the cover of a file, and the upload route with its middleware,
    - the routes of the folders router that create, lock and delete a
      folder,
    - the error handler (src/backend/src/middleware/errorHandler.js) and
      [authenticateToken] (src/backend/src/middleware/auth.js).
    The trace of a state keeps recording the effects on the storage
    bucket, on the rows of files, tokens and security logs, and the
    responses. *)

(** What the client takes from the browser.  [subtle_deriveKey password
    salt iterations hash length] stands for [importKey] of the password,
    [deriveKey] with PBKDF2 and [exportKey] of the derived key;
    [subtle_decrypt key iv additionalData tagLength data] stands for
    [importKey] of the raw key and [decrypt] with AES-GCM;
    [invalid_character] is the message of the [DOMException] of [atob]. *)
Record Browser := {
  subtle_deriveKey :
    Buffer.t -> Buffer.t -> N -> string -> nat -> JS.result Buffer.t;
  subtle_decrypt :
    Buffer.t -> Buffer.t -> Buffer.t -> nat -> Buffer.t
    -> JS.result Buffer.t;
  invalid_character : string
}.

(** The browser and Node compute the same functions: PBKDF2 with
    HMAC-SHA-256, and AES-256-GCM, for which WebCrypto reads the tag of 128
    bits at the end of its input. *)
Record BrowserLaws (nc : NodeCrypto) (b : Browser) : Prop := {
  deriveKey_pbkdf2 :
    forall password salt,
      subtle_deriveKey b (Buffer.from_utf8 password) salt 100000%N
        "SHA-256" 256
      = inr (pbkdf2 nc password salt 100000%N 32 "sha256");
  decrypt_node :
    forall key iv aad data ct tag,
      aes_256_gcm_encrypt nc key iv aad data = inr (ct, tag) ->
      subtle_decrypt b key iv aad 128 (ct ++ tag) = inr data
}.

Module Client.
Section WithBrowser.

Variable browser : Browser.

(** ** [atob] and [btoa] *)

(** ASCII whitespace: tab, line feed, form feed, carriage return, space. *)
Definition is_whitespace (c : ascii) : bool :=
  existsb (Ascii.eqb c)
    [ascii_of_nat 9; ascii_of_nat 10; ascii_of_nat 12; ascii_of_nat 13;
     ascii_of_nat 32].

(** One or two [=] at the end are removed. *)
Fixpoint drop_padding (data : list ascii) : list ascii :=
  match data with
  | [] => []
  | c :: rest =>
      match rest with
      | [] => if Ascii.eqb c Buffer.pad then [] else [c]
      | [d] =>
          if Ascii.eqb d Buffer.pad
          then (if Ascii.eqb c Buffer.pad then [] else [c])
          else [c; d]
      | _ => c :: drop_padding rest
      end
  end.

(** The values of the symbols, all of which must be of the alphabet. *)
Fixpoint values (data : list ascii) : option (list N) :=
  match data with
  | [] => Some []
  | c :: rest =>
      match Buffer.index_in Buffer.alphabet c 0, values rest with
      | Some v, Some vs => Some (v :: vs)
      | _, _ => None
      end
  end.

Definition InvalidCharacterError : JS.error :=
  JS.mkError "InvalidCharacterError" (invalid_character browser).

(** [atob(base64)]: whitespace is removed; when the length is a multiple
    of four the padding is removed; a length of 1 modulo 4 and a symbol
    outside the alphabet are errors.  The result is a binary string. *)
Definition atob (base64 : string) : JS.result string :=
  let data :=
    filter (fun c => negb (is_whitespace c)) (list_ascii_of_string base64) in
  let data :=
    if Nat.eqb (List.length data mod 4) 0 then drop_padding data
    else data in
  if Nat.eqb (List.length data mod 4) 1
  then JS.throw InvalidCharacterError
  else
    match values data with
    | None => JS.throw InvalidCharacterError
    | Some vs => JS.ok (string_of_list_byte (Buffer.bytes_of_symbols vs))
    end.

(** [btoa(binary)] of a string of bytes. *)
Definition btoa (binary : string) : string :=
  string_of_list_ascii
    (Buffer.encode Buffer.alphabet true (list_byte_of_string binary)).

(** [base64ToUint8Array]: the char codes of [atob(base64)]. *)
Definition base64ToUint8Array (base64 : string) : JS.result Buffer.t :=
  binaryString <- atob base64 ;;
  JS.ok (list_byte_of_string binaryString).

(** [uint8ArrayToBase64]: [btoa] of the string of the bytes. *)
Definition uint8ArrayToBase64 (bytes : Buffer.t) : string :=
  btoa (string_of_list_byte bytes).

(** ** Keys *)

(** [deriveKey(password, salt)]: the salt is a string or an array of
    bytes. *)
Definition deriveKey (password : string) (salt : string + Buffer.t)
  : JS.result Buffer.t :=
  JS.try_catch
    (subtle_deriveKey browser (Buffer.from_utf8 password)
       (match salt with
        | inl text => Buffer.from_utf8 text
        | inr bytes => bytes
        end)
       100000%N "SHA-256" 256)
    (fun _ => JS.throw (JS.Error "Failed to derive encryption key")).

Definition AAD : Buffer.t := Buffer.from_utf8 "DisguiseDrive-v1".

(** [decryptFileKey(encryptedKeyBlob, password, saltBase64)]: the blob is
    cut at 12 and at 28 and WebCrypto is given the ciphertext followed by
    the tag. *)
Definition decryptFileKey (encryptedKeyBlob password saltBase64 : string)
  : JS.result Buffer.t :=
  JS.try_catch
    (keyBlob <- base64ToUint8Array encryptedKeyBlob ;;
     salt <- base64ToUint8Array saltBase64 ;;
     let iv := Buffer.subarray keyBlob 0 12 in
     let authTag := Buffer.subarray keyBlob 12 28 in
     let encryptedData := Buffer.subarray_from keyBlob 28 in
     passwordKey <- deriveKey password (inr salt) ;;
     subtle_decrypt browser passwordKey iv AAD 128
       (encryptedData ++ authTag))
    (fun error =>
       JS.throw (JS.Error
         ("File key decryption failed: " ++ JS.message error))).

(** [decryptFileData(encryptedBlob, fileKey)] *)
Definition decryptFileData (encryptedBlob fileKey : Buffer.t)
  : JS.result Buffer.t :=
  JS.try_catch
    (let iv := Buffer.subarray encryptedBlob 0 12 in
     let authTag := Buffer.subarray encryptedBlob 12 28 in
     let encryptedData := Buffer.subarray_from encryptedBlob 28 in
     subtle_decrypt browser fileKey iv AAD 128 (encryptedData ++ authTag))
    (fun error =>
       JS.throw (JS.Error ("File decryption failed: " ++ JS.message error))).

End WithBrowser.
End Client.

(* ===================================================================== *)
(** * More of the middleware and of the routers *)
(* ===================================================================== *)

(** A handler behind a middleware: it runs when the middleware calls
    [next()]. *)
Definition behind {A B} (middleware : outcome A * world)
    (handler : A -> world -> outcome B * world) : outcome B * world :=
  match middleware with
  | (Next a, w) => handler a w
  | (Sent r, w) => (Sent r, w)
  | (Thrown e, w) => (Thrown e, w)
  end.

Definition set_folders (l : list folder) (w : world) : world :=
  mkWorld l (files w) (folderAccessTokens w) (securityLogs w)
    (bucket w) (random w) (clock w) (calls w) (ids w) (trace w).


(** The fields of a multipart form as multer leaves them in [req.body] and
    [req.files]. *)
Record form := mkForm {
  form_uploadMode : option string;
  form_passwords : option string;
  form_coverTypes : option string;
  form_files : option (list upload)
}.

Definition with_form (req : request) (f : form) : request :=
  mkRequest (user req) (params_id req) (params_folderId req)
    (x_folder_token req) (body_password req) (form_uploadMode f)
    (form_passwords f) (form_coverTypes f) (form_files f) (ip req)
    (user_agent req).

(** The body of [POST /api/folders]; a field that is present has the type
    its schema names. *)
Record folder_body := mkFolderBody {
  body_name : option string;
  body_isProtected : option bool;
  body_folder_password : option string
}.

Definition opt_bool (b : option bool) : JS.json :=
  match b with
  | Some b => JS.JBool b
  | None => JS.JNull
  end.

Definition folder_body_json (b : folder_body) : JS.json :=
  JS.JObj [("name", opt_json (body_name b));
           ("isProtected", opt_bool (body_isProtected b));
           ("password", opt_json (body_folder_password b))].

Section MoreRoutes.

Variable P : Platform.

(** ** The files router (src/unnamed/part_005), continued *)

(** The signed URL Supabase makes for a path. *)
Variable createSignedUrl : string -> string.

(** multer's reading of the multipart body of a request under the limits
    and the file filter of the router. *)
Variable upload_array : request -> JS.result form.

(** [getFileUrl(filePath)] of the storage service. *)
Definition getFileUrl (filePath : string) (w : world)
  : JS.result string * world :=
  let n := calls w in
  let w := tick w in
  match supabase_error P n with
  | Some msg =>
      (JS.throw (JS.Error ("Supabase URL generation failed: " ++ msg)), w)
  | None =>
      match lookup filePath (bucket w) with
      | Some _ => (JS.ok (createSignedUrl filePath), w)
      | None =>
          (JS.throw (JS.Error
             "Supabase URL generation failed: Object not found"), w)
      end
  end.

(** [POST /:folderId/files]: [verifyFolderAccess], multer, the handler. *)
Definition upload_route (req : request) (w : world)
  : outcome unit * world :=
  behind (verifyFolderAccess req w)
    (fun _ w =>
       match upload_array req with
       | inl e => (Thrown e, w)
       | inr f => upload_files P (with_form req f) w
       end).

(** [GET /:id/url], the handler. *)
Definition get_url (req : request) (w : world) : outcome unit * world :=
  let fileId := params_id req in
  match prisma.file_findFirst fileId (user req) w with
  | None => respond 404 (error_body "File not found") w
  | Some file =>
      if negb (String.eqb (uploadMode file) "normal")
      then respond 400
             (error_body
                "This endpoint is only for normal (unencrypted) files") w
      else
        let '(r, w) := getFileUrl (storagePath file) w in
        match r with
        | inr signedUrl =>
            respond 200
              (JS.JObj [("url", JS.JStr signedUrl);
                        ("filename", JS.JStr (originalName file))]) w
        | inl _ => respond 500 (error_body "Failed to generate file URL") w
        end
  end.

(** [GET /:id/url] behind [verifyFolderAccess], which reads [req.params.id]
    as the id of a folder. *)
Definition url_route (req : request) (w : world) : outcome unit * world :=
  behind (verifyFolderAccess req w) (fun _ => get_url req).

(** [GET /:id/meta] *)
Definition get_meta (req : request) (w : world) : outcome unit * world :=
  let fileId := params_id req in
  match prisma.file_findFirst fileId (user req) w with
  | None => respond 404 (error_body "File not found") w
  | Some file =>
      respond 200
        (JS.JObj
           [("file",
             JS.JObj
               [("id", JS.JStr (file_id file));
                ("originalName", JS.JStr (originalName file));
                ("mimeType", JS.JStr (mimeType file));
                ("size", JS.JNum (size file));
                ("coverPath", JS.JStr (coverPath file));
                ("encryptedKeyBlob", opt_json (encryptedKeyBlob file));
                ("salt", opt_json (salt file));
                ("uploadMode", JS.JStr (uploadMode file));
                ("createdAt", JS.JStr (toISOString P (createdAt file)));
                ("folder",
                 match prisma.file_folder file w with
                 | Some folder =>
                     JS.JObj
                       [("id", JS.JStr (folder_id folder));
                        ("name", JS.JStr (folder_name folder));
                        ("isProtected", JS.JBool (isProtected folder))]
                 | None => JS.JNull
                 end)])]) w
  end.




(** ** The folders router (src/unnamed/part_006), continued *)

(** [createFolderSchema]: a name of 1 to 100 characters, and a password,
    if there is one, of at least 4. *)
Definition createFolderSchema_validate (b : folder_body)
  : option string :=
  match body_name b with
  | Some name =>
      if Nat.leb 1 (String.length name)
         && Nat.leb (String.length name) 100
      then
        match body_folder_password b with
        | Some password =>
            if Nat.leb 4 (String.length password) then None
            else Some (joi_message P (folder_body_json b))
        | None => None
        end
      else Some (joi_message P (folder_body_json b))
  | None => Some (joi_message P (folder_body_json b))
  end.

(** [prisma.folder.findFirst({ where: { name, ownerId } })] *)
Definition folder_findByName (name owner : string) (w : world)
  : option folder :=
  find (fun f => String.eqb (folder_name f) name
                 && String.eqb (folder_ownerId f) owner) (folders w).

(** [prisma.folder.create] *)
Definition folder_create (row : folder) (w : world) : world :=
  next_id (set_folders (folders w ++ [row]) w).

(** [POST /]: create a folder. *)
Definition create_folder (req : request) (b : folder_body) (w : world)
  : outcome unit * world :=
  match createFolderSchema_validate b with
  | Some details =>
      respond 400
        (JS.JObj [("error", JS.JStr "Validation failed");
                  ("details", JS.JStr details)]) w
  | None =>
      let name := or_default (body_name b) "" in
      match folder_findByName name (user req) w with
      | Some _ =>
          respond 409 (error_body "Folder with this name already exists") w
      | None =>
          let isProtected :=
            match body_isProtected b with
            | Some flag => flag
            | None => false
            end in
          let passwordHash :=
            if isProtected
            then match body_folder_password b with
                 | Some password =>
                     if JS.truthy_string password then Some password
                     else None
                 | None => None
                 end
            else None in
          let row :=
            mkFolder (cuid P (ids w)) name isProtected passwordHash
              (user req) in
          let now := clock w in
          let w := folder_create row w in
          respond 201
            (JS.JObj
               [("message", JS.JStr "Folder created successfully");
                ("folder",
                 JS.JObj
                   [("id", JS.JStr (folder_id row));
                    ("name", JS.JStr name);
                    ("isProtected", JS.JBool isProtected);
                    ("createdAt", JS.JStr (toISOString P now));
                    ("updatedAt", JS.JStr (toISOString P now))])]) w
      end
  end.

(** [lockFolderSchema]: a password of at least 4 characters. *)
Definition lockFolderSchema_validate (req : request) : JS.result string :=
  match body_password req with
  | Some password =>
      if Nat.leb 4 (String.length password) then JS.ok password
      else JS.throw (JS.mkError "ValidationError"
             (joi_message P
                (JS.JObj [("password", JS.JStr password)])))
  | None => JS.throw (JS.mkError "ValidationError"
              (joi_message P (JS.JObj [("password", JS.JNull)])))
  end.

(** [prisma.folder.update({ where: { id }, data: { isProtected: true,
    passwordHash } })] *)
Definition folder_lock (id passwordHash : string) (w : world) : world :=
  set_folders
    (map (fun f => if String.eqb (folder_id f) id
                   then mkFolder (folder_id f) (folder_name f) true
                          (Some passwordHash) (folder_ownerId f)
                   else f) (folders w)) w.

(** [POST /:id/lock] *)
Definition lock (req : request) (w : world) : outcome unit * world :=
  match lockFolderSchema_validate req with
  | inl error =>
      respond 400
        (JS.JObj [("error", JS.JStr "Validation failed");
                  ("details", JS.JStr (JS.message error))]) w
  | inr password =>
      let folderId := params_id req in
      match prisma.folder_findFirst folderId (user req) w with
      | None => respond 404 (error_body "Folder not found") w
      | Some folder =>
          let w := folder_lock folderId password w in
          let w :=
            prisma.securityLog_create
              (mkLog (Some (user req)) "folder_password_set" true (ip req)
                 (user_agent req)
                 (JS.JObj [("folderId", JS.JStr folderId)])) w in
          respond 200
            (JS.JObj
               [("message", JS.JStr "Folder password protection enabled");
                ("folder",
                 JS.JObj
                   [("id", JS.JStr (folder_id folder));
                    ("name", JS.JStr (folder_name folder));
                    ("isProtected", JS.JBool true);
                    ("updatedAt",
                     JS.JStr (toISOString P (clock w)))])]) w
      end
  end.

(** The local disk of the server, on which [deleteFile] of the local
    storage service unlinks a path; it catches its own errors. *)
Variable disk : Type.
Variable unlink : string -> disk -> disk.

(** The files of a folder ([include: { files: true }]). *)
Definition folder_files (id : string) (w : world) : list file :=
  filter (fun f => String.eqb (folderId f) id) (files w).

(** The loop over the files of the folder to delete. *)
Fixpoint unlink_files (l : list file) (d : disk) : disk :=
  match l with
  | [] => d
  | f :: rest =>
      unlink_files rest (unlink (coverPath f) (unlink (storagePath f) d))
  end.

(** [prisma.folder.delete({ where: { id } })]: the rows of [files] and of
    [folder_access_tokens] that refer to the folder go with it (ON DELETE
    CASCADE). *)
Definition folder_delete (id : string) (w : world) : world :=
  set_tokens
    (filter (fun t => negb (String.eqb (token_folderId t) id))
       (folderAccessTokens w))
    (set_files
       (filter (fun f => negb (String.eqb (folderId f) id)) (files w))
       (set_folders
          (filter (fun f => negb (String.eqb (folder_id f) id))
             (folders w)) w)).

(** [DELETE /:id] of the folders router. *)
Definition delete_folder (req : request) (d : disk) (w : world)
  : outcome unit * (disk * world) :=
  let folderId := params_id req in
  match prisma.folder_findFirst folderId (user req) w with
  | None =>
      let '(r, w) := respond 404 (error_body "Folder not found") w in
      (r, (d, w))
  | Some folder =>
      let d := unlink_files (folder_files (folder_id folder) w) d in
      let w := folder_delete folderId w in
      let '(r, w) :=
        respond 200
          (JS.JObj
             [("message",
               JS.JStr "Folder and all files deleted successfully")]) w in
      (r, (d, w))
  end.

End MoreRoutes.

(* ===================================================================== *)
(** * The error handler (src/backend/src/middleware/errorHandler.js) *)
(* ===================================================================== *)

(** An error as the handler reads it. *)
Record failure := mkFailure {
  err_name : string;
  err_message : string;
  err_status : option nat;
  err_statusCode : option nat;
  err_code : option string;
  err_details : option JS.json;
  err_stack : string
}.

(** What the handler reads of the request; [in_user] is [req.user?.id]. *)
Record incoming := mkIncoming {
  in_user : option string;
  in_url : string;
  in_method : string;
  in_ip : string;
  in_user_agent : option string
}.

(** [a || b || 500] on numbers: 0 is falsy. *)
Definition or_status (a b : option nat) : nat :=
  match a with
  | Some (S n) => S n
  | _ => match b with
         | Some (S n) => S n
         | _ => 500
         end
  end.

Definition status_is (err : failure) (s : nat) : bool :=
  match err_status err with
  | Some n => Nat.eqb n s
  | None => false
  end.

Definition code_is (err : failure) (c : string) : bool :=
  match err_code err with
  | Some code => String.eqb code c
  | None => false
  end.

(** Whether the handler records the error in the security log. *)
Definition security_relevant (err : failure) : bool :=
  String.eqb (err_name err) "UnauthorizedError"
  || status_is err 401 || status_is err 403.

(** [errorHandler(err, req, res, next)]; [production] is
    [process.env.NODE_ENV === 'production'].  The write to the security
    log of the model does not fail, so its [catch] branch is not
    entered. *)
Definition errorHandler (production : bool) (err : failure)
    (req : incoming) (w : world) : outcome unit * world :=
  let w :=
    if security_relevant err
    then
      prisma.securityLog_create
        (mkLog (match in_user req with
                | Some id => if JS.truthy_string id then Some id else None
                | None => None
                end)
           "unauthorized_access_attempt" false (in_ip req)
           (in_user_agent req)
           (JS.JObj [("url", JS.JStr (in_url req));
                     ("method", JS.JStr (in_method req));
                     ("error", JS.JStr (err_message err))])) w
    else w in
  if String.eqb (err_name err) "ValidationError"
  then respond 400
         (JS.JObj
            [("error", JS.JStr "Validation failed");
             ("details",
              match err_details err with
              | Some details =>
                  if JS.truthy details then details
                  else JS.JStr (err_message err)
              | None => JS.JStr (err_message err)
              end)]) w
  else if String.eqb (err_name err) "JsonWebTokenError"
  then respond 401 (error_body "Invalid token") w
  else if String.eqb (err_name err) "TokenExpiredError"
  then respond 401 (error_body "Token expired") w
  else if code_is err "P2002"
  then respond 409 (error_body "Resource already exists") w
  else if code_is err "P2025"
  then respond 404 (error_body "Resource not found") w
  else if code_is err "LIMIT_FILE_SIZE"
  then respond 413 (error_body "File too large") w
  else if code_is err "LIMIT_UNEXPECTED_FILE"
  then respond 400 (error_body "Unexpected file field") w
  else
    let status := or_status (err_status err) (err_statusCode err) in
    if production
    then respond status (error_body "Internal server error") w
    else respond status
           (JS.JObj [("error", JS.JStr (err_message err));
                     ("stack", JS.JStr (err_stack err))]) w.

(* ===================================================================== *)
(** * Authentication (src/backend/src/middleware/auth.js) *)
(* ===================================================================== *)

(** A row of [users], as [select] returns it. *)
Record account := mkAccount {
  account_id : string;
  email : string;
  username : string
}.

(** [header.split(' ')]: the pieces between single spaces. *)
Fixpoint split_spaces (s : string) (word : string) : list string :=
  match s with
  | EmptyString => [word]
  | String c rest =>
      if Ascii.eqb c " "%char
      then word :: split_spaces rest EmptyString
      else split_spaces rest (word ++ String c EmptyString)
  end.

Section Authentication.

(** [jwt.verify(token, process.env.JWT_SECRET)]: the [userId] of the
    payload, if it has one, or the error of the verification. *)
Variable jwt_verify : string -> JS.result (option string).

(** [authenticateToken]: on [next()] the request carries the user. *)
Definition authenticateToken (authorization : option string)
    (users : list account) (w : world) : outcome account * world :=
  let token :=
    match authorization with
    | Some authHeader =>
        if JS.truthy_string authHeader
        then nth_error (split_spaces authHeader EmptyString) 1
        else None
    | None => None
    end in
  match token with
  | None => respond 401 (error_body "Access token required") w
  | Some token =>
      if negb (JS.truthy_string token)
      then respond 401 (error_body "Access token required") w
      else
        match jwt_verify token with
        | inl error =>
            if String.eqb (JS.name error) "JsonWebTokenError"
            then respond 401 (error_body "Invalid token") w
            else if String.eqb (JS.name error) "TokenExpiredError"
            then respond 401 (error_body "Token expired") w
            else respond 500 (error_body "Authentication failed") w
        | inr None => respond 500 (error_body "Authentication failed") w
        | inr (Some userId) =>
            match find (fun u => String.eqb (account_id u) userId) users
            with
            | None =>
                respond 401 (error_body "Invalid token - user not found") w
            | Some user => (Next user, w)
            end
        end
  end.

End Authentication.

(* ===================================================================== *)
(** * A reference browser *)
(* ===================================================================== *)

Module ReferenceBrowser.

Definition deriveKey (password salt : Buffer.t) (iterations : N)
    (hash : string) (length : nat) : JS.result Buffer.t :=
  JS.ok (Reference.pbkdf2 (Buffer.toString_utf8 password) salt iterations
           (length / 8) hash).

Definition decrypt (key iv aad : Buffer.t) (tagLength : nat)
    (data : Buffer.t) : JS.result Buffer.t :=
  let tagBytes := tagLength / 8 in
  if Nat.ltb (List.length data) tagBytes
  then JS.throw (JS.mkError "OperationError"
         "The provided data is too small")
  else
    let n := List.length data - tagBytes in
    match Reference.decrypt key iv aad (firstn n data) (skipn n data) with
    | inr plain => JS.ok plain
    | inl _ => JS.throw (JS.mkError "OperationError"
                 "The operation failed for an operation-specific reason")
    end.

Definition browser : Browser :=
  Build_Browser deriveKey decrypt
    "The string to be decoded is not correctly encoded.".

End ReferenceBrowser.

(* ===================================================================== *)
(** * The upload dialog (src/frontend/src/components/UploadModal.js) *)
(* ===================================================================== *)

Module UploadModal.

(** A file of the dialog: the id the dialog gave it, and the file. *)
Record fileData := mkFileData {
  id : string;
  file : upload
}.

(** [validatePasswords()]; [passwords] is the object that maps the id of a
    file to its password. *)
Definition validatePasswords (uploadMode : string)
    (files : list fileData) (passwords : list (string * string)) : bool :=
  if String.eqb uploadMode "normal" then true
  else
    forallb (fun fileData =>
               match lookup (id fileData) passwords with
               | Some password =>
                   JS.truthy_string password
                   && negb (Nat.ltb (String.length password) 4)
               | None => false
               end) files.

(** [files.map(({ id }) => passwords[id])], as [JSON.stringify] sees it:
    the entry of a missing password is [null]. *)
Definition passwordArray (files : list fileData)
    (passwords : list (string * string)) : JS.json :=
  JS.JArr (map (fun fileData => opt_json (lookup (id fileData) passwords))
             files).

Section WithJSON.

Variable JSON_stringify : JS.json -> string.

(** The form that [handleUpload] sends, once the files are chosen and the
    passwords validated. *)
Definition handleUpload (uploadMode : string) (files : list fileData)
    (passwords : list (string * string)) : option form :=
  match files with
  | [] => None
  | _ =>
      if negb (validatePasswords uploadMode files passwords) then None
      else
        Some (mkForm (Some uploadMode)
                (if String.eqb uploadMode "secure"
                 then Some (JSON_stringify (passwordArray files passwords))
                 else None)
                None (Some (map file files)))
  end.

End WithJSON.
End UploadModal.

(* ===================================================================== *)
(** * Example requests and states *)
(* ===================================================================== *)

Module Examples.

(** A multer that takes the form as the request already holds it. *)
Definition multer (req : request) : JS.result form :=
  JS.ok (mkForm (body_uploadMode req) (body_passwords req)
           (body_coverTypes req) (req_files req)).

(** An upload to the protected folder, without a token. *)
Definition vault_upload : request :=
  mkRequest Reference.alice "" "vault" None None (Some "normal") None None
    (Some [Reference.png]) "127.0.0.1" None.

(** A request of another user. *)
Definition bob_request (id : string) : request :=
  mkRequest "bob" id "" None (Some "abcd") None None None None "127.0.0.1"
    None.





(** A local disk that holds nothing. *)
Definition unlink (path : string) (d : unit) : unit := d.

Definition users : list account :=
  [mkAccount "alice" "alice@example.org" "alice"].

(** A verifier that accepts the token 'good' as a token of alice. *)
Definition jwt_verify (token : string) : JS.result (option string) :=
  if String.eqb token "good" then JS.ok (Some "alice")
  else JS.throw (JS.mkError "JsonWebTokenError" "jwt malformed").

Definition denied (message : string) : failure :=
  mkFailure "Error" message (Some 403) None None None "at handler".

Definition browsing : incoming :=
  mkIncoming (Some "alice") "/api/folders/vault" "GET" "127.0.0.1" None.

End Examples.

(* ===================================================================== *)
(** * Notions used in the statements *)
(* ===================================================================== *)

(** A digit of a base64 alphabet is read back as its value and is not the
    padding character. *)
Definition digit_ok (table : list ascii) (v : nat) : bool :=
  let c := Buffer.digit table (N.of_nat v) in
  negb (Ascii.eqb c Buffer.pad)
  && match Buffer.unbase64 c with
     | Some u => N.eqb u (N.of_nat v)
     | None => false
     end.

(** Wrapping [K] under [password] and [salt] yields a blob that unwraps to
    [K] under the same password and the base64 form of the salt. *)
Definition wrap_round_trip (nc : NodeCrypto) (K : Buffer.t)
    (password : string) (salt : Buffer.t) (g : rng) : Prop :=
  exists r,
    fst (CryptoService.encryptFileKey nc K password salt g) = inr r
    /\ CryptoService.decryptFileKey nc
         (Some (CryptoService.encryptedKeyBlob r)) password
         (Some (Buffer.toString_base64 salt)) = inr K.

(** The events a request added to the trace. *)
Definition events_of (before after : world) : list event :=
  skipn (List.length (trace before)) (trace after).

(** Kinds of events. *)
Definition is_unwrap (e : event) : bool :=
  match e with EvUnwrapKey _ _ _ => true | _ => false end.

Definition is_wrap (e : event) : bool :=
  match e with EvWrapKey _ _ => true | _ => false end.

Definition is_log (e : event) : bool :=
  match e with EvSecurityLog _ => true | _ => false end.

Definition is_download (e : event) : bool :=
  match e with EvStorageDownload _ => true | _ => false end.

(** The events the upload loop makes for a file: a key wrap under the
    password selected for it, storage uploads and row creations. *)
Definition upload_event (f : upload) (uploadMode : string)
    (password : option JS.json) (e : event) : Prop :=
  match e with
  | EvWrapKey filename pw =>
      filename = originalname f /\ pw = password /\ uploadMode = "secure"
  | EvStorageUpload _ _ => True
  | EvFileCreate _ => True
  | _ => False
  end.

(** A row as the plain mode stores it: no KeyBlob, no salt, the mode of the
    request, and a storage path under which the bucket holds the payload. *)
Definition plain_row (f : upload) (mode : string) (w : world)
    (row : file) : Prop :=
  encryptedKeyBlob row = None /\ salt row = None
  /\ uploadMode row = mode /\ originalName row = originalname f
  /\ lookup (storagePath row) (bucket w) = Some (buffer f).

Definition rows_of (p : JS.result processed) : list file :=
  match p with
  | inr (Uploaded row) => [row]
  | _ => []
  end.

(** When a turn of the upload loop throws: [null] passwords in secure mode,
    or [null] cover types. *)
Definition loop_throws (uploadMode : string) (passwords coverTypes : JS.json)
  : Prop :=
  (String.eqb uploadMode "secure" = true /\ passwords = JS.JNull)
  \/ coverTypes = JS.JNull.

(** An event of the upload loop over [todo], whose first file has index
    [i]. *)
Definition loop_event (uploadMode : string) (passwords : JS.json) (i : nat)
    (todo : list upload) (e : event) : Prop :=
  exists k f password,
    nth_error todo k = Some f
    /\ select_password uploadMode passwords (i + k) = inr password
    /\ upload_event f uploadMode password e.

(** A digit of the standard alphabet is no whitespace and is read back by
    [atob] as its value. *)
Definition std_digit_ok (v : nat) : bool :=
  let c := Buffer.digit Buffer.alphabet (N.of_nat v) in
  negb (Client.is_whitespace c)
  && negb (Ascii.eqb c Buffer.pad)
  && match Buffer.index_in Buffer.alphabet c 0 with
     | Some u => N.eqb u (N.of_nat v)
     | None => false
     end.

(** A character of a URL: a letter, a digit, [-] or [_]. *)
Definition url_safe (c : ascii) : bool :=
  existsb (Ascii.eqb c) Buffer.alphabet_url.

(** What a row created by the upload loop takes from the request and from
    the file; the payload of an image passed the signature check. *)
Definition row_of_upload (req : request) (mode : string) (f : upload)
    (row : file) : Prop :=
  ownerId row = user req /\ folderId row = params_folderId req
  /\ uploadMode row = mode /\ originalName row = originalname f
  /\ mimeType row = mimetype f /\ size row = upload_size f
  /\ (startsWith "image/" (mimetype f) = true ->
      validateImage (buffer f) = true).

(** A row as the secure mode stores it: the password is a string under
    which the row's KeyBlob and salt unwrap to a key, and the bucket holds
    under the row's storage path a blob that the browser opens with that key
    to the payload of the file. *)
Definition sealed_row (nc : NodeCrypto) (browser : Browser) (f : upload)
    (password : option JS.json) (w : world) (row : file) : Prop :=
  exists pw K stored,
    password = Some (JS.JStr pw)
    /\ CryptoService.decryptFileKey nc (encryptedKeyBlob row) pw (salt row)
       = inr K
    /\ lookup (storagePath row) (bucket w) = Some stored
    /\ Client.decryptFileData browser stored K = inr (buffer f).

(** In secure mode, and for primitives that satisfy the laws, a created
    row is sealed. *)
Definition sealed_when_secure (nc : NodeCrypto) (browser : Browser)
    (mode : string) (f : upload) (password : option JS.json) (w : world)
    (row : file) : Prop :=
  String.eqb mode "secure" = true ->
  NodeCryptoLaws nc -> BrowserLaws nc browser ->
  sealed_row nc browser f password w row.

(** The body of the response 201 of the upload route. *)
Definition upload_report (P : Platform) (done : list processed) : JS.json :=
  JS.JObj
    ([("message",
       JS.JStr (decimal (List.length (uploadedFiles done))
                ++ " files uploaded successfully"));
      ("files", JS.JArr (map (selected P) (uploadedFiles done)))]
     ++ match errors done with
        | [] => []
        | _ =>
            [("errors",
              JS.JArr
                (map (fun e =>
                        JS.JObj [("filename", JS.JStr (fst e));
                                 ("error", JS.JStr (snd e))])
                   (errors done)))]
        end).

(** Two states that differ at most in their traces. *)
Definition same_tables (w w' : world) : Prop :=
  folders w' = folders w /\ files w' = files w
  /\ folderAccessTokens w' = folderAccessTokens w
  /\ securityLogs w' = securityLogs w /\ bucket w' = bucket w
  /\ random w' = random w /\ clock w' = clock w /\ calls w' = calls w
  /\ ids w' = ids w.

(** The request may enter the folder: the user owns it and, if it is
    protected, holds under the token of the request a row that has not
    expired. *)
Definition may_enter (req : request) (id : string) (w : world) : Prop :=
  exists d,
    prisma.folder_findFirst id (user req) w = Some d
    /\ (isProtected d = true ->
        exists t,
          In t (folderAccessTokens w)
          /\ x_folder_token req = Some (token t) /\ token t <> ""
          /\ token_folderId t = id /\ token_userId t = user req
          /\ (clock w < expiresAt t)%Z).


(** The answer 404 of the routes of a file. *)
Definition file_not_found (w : world) : outcome unit * world :=
  respond 404 (error_body "File not found") w.

(** No user has two folders of the same name. *)
Definition names_unique (w : world) : Prop :=
  NoDup (map (fun d => (folder_ownerId d, folder_name d)) (folders w)).

(** The row of a folder once [POST /:id/lock] has set its password. *)
Definition locked (d : folder) (password : string) : folder :=
  mkFolder (folder_id d) (folder_name d) true (Some password)
    (folder_ownerId d).

(** A string that holds no space. *)
Fixpoint no_space (s : string) : bool :=
  match s with
  | EmptyString => true
  | String c rest => negb (Ascii.eqb c " "%char) && no_space rest
  end.


(* ===================================================================== *)
(** * Facts about buffers and base64 *)
(* ===================================================================== *)

Unset Implicit Arguments.

Section BufferFacts.

Lemma byte_of_to_N (b : byte) : Buffer.byte_of_N (Byte.to_N b) = b.
Proof.
  unfold Buffer.byte_of_N.
  pose proof (Byte.to_N_bounded b) as Hb.
  rewrite N.mod_small by lia.
  now rewrite Byte.of_to_N.
Qed.

Lemma digits_ok :
  forallb (digit_ok Buffer.alphabet) (seq 0 64) = true
  /\ forallb (digit_ok Buffer.alphabet_url) (seq 0 64) = true.
Proof. split; vm_compute; reflexivity. Qed.

Lemma digit_alphabet (v : N) :
  (v < 64)%N ->
  Ascii.eqb (Buffer.digit Buffer.alphabet v) Buffer.pad = false
  /\ Buffer.unbase64 (Buffer.digit Buffer.alphabet v) = Some v.
Proof.
  intros Hv.
  destruct digits_ok as [H _].
  rewrite forallb_forall in H.
  specialize (H (N.to_nat v)).
  assert (Hin : In (N.to_nat v) (seq 0 64)) by (apply in_seq; lia).
  apply H in Hin. unfold digit_ok in Hin.
  rewrite N2Nat.id in Hin.
  apply andb_true_iff in Hin as [Hpad Hval].
  split.
  - now apply negb_true_iff in Hpad.
  - destruct (Buffer.unbase64 _) as [u|]; [|discriminate].
    apply N.eqb_eq in Hval. now subst.
Qed.

Lemma symbols_digit (v : N) (rest : list ascii) :
  (v < 64)%N ->
  Buffer.symbols (Buffer.digit Buffer.alphabet v :: rest)
  = v :: Buffer.symbols rest.
Proof.
  intros Hv. destruct (digit_alphabet v Hv) as [Hpad Hval].
  cbn [Buffer.symbols]. now rewrite Hpad, Hval.
Qed.

Lemma symbols_pad (rest : list ascii) :
  Buffer.symbols (Buffer.pad :: rest) = [].
Proof. reflexivity. Qed.

(** Three bytes and their four sextets. *)
Lemma sextets_bounds (a b c : N) :
  (a < 256 -> b < 256 -> c < 256 ->
   a / 4 < 64 /\ (a mod 4) * 16 + b / 16 < 64
   /\ (b mod 16) * 4 + c / 64 < 64 /\ c mod 64 < 64
   /\ (a mod 4) * 16 < 64 /\ (b mod 16) * 4 < 64)%N.
Proof.
  intros Ha Hb Hc.
  pose proof (N.mod_upper_bound a 4). pose proof (N.mod_upper_bound b 16).
  pose proof (N.mod_upper_bound c 64).
  assert (a / 4 < 64)%N by (apply N.Div0.div_lt_upper_bound; lia).
  assert (b / 16 < 16)%N by (apply N.Div0.div_lt_upper_bound; lia).
  assert (c / 64 < 4)%N by (apply N.Div0.div_lt_upper_bound; lia).
  lia.
Qed.

Lemma regroup (a b c : N) :
  (a < 256 -> b < 256 -> c < 256 ->
   (a / 4 * 4 + ((a mod 4) * 16 + b / 16) / 16 = a
    /\ (((a mod 4) * 16 + b / 16) mod 16) * 16
       + ((b mod 16) * 4 + c / 64) / 4 = b
    /\ (((b mod 16) * 4 + c / 64) mod 4) * 64 + c mod 64 = c))%N.
Proof.
  intros Ha Hb Hc.
  pose proof (N.div_mod a 4). pose proof (N.div_mod b 16).
  pose proof (N.div_mod c 64).
  pose proof (N.mod_upper_bound a 4). pose proof (N.mod_upper_bound b 16).
  pose proof (N.mod_upper_bound c 64).
  assert (Hb16 : (b / 16 < 16)%N) by (apply N.Div0.div_lt_upper_bound; lia).
  assert (Hc64 : (c / 64 < 4)%N) by (apply N.Div0.div_lt_upper_bound; lia).
  assert (E1 : (((a mod 4) * 16 + b / 16) / 16 = a mod 4)%N).
  { rewrite N.add_comm, N.div_add by lia. rewrite N.div_small; lia. }
  assert (E2 : (((a mod 4) * 16 + b / 16) mod 16 = b / 16)%N).
  { rewrite N.add_comm, N.Div0.mod_add. apply N.mod_small; lia. }
  assert (E3 : (((b mod 16) * 4 + c / 64) / 4 = b mod 16)%N).
  { rewrite N.add_comm, N.div_add by lia. rewrite N.div_small; lia. }
  assert (E4 : (((b mod 16) * 4 + c / 64) mod 4 = c / 64)%N).
  { rewrite N.add_comm, N.Div0.mod_add. apply N.mod_small; lia. }
  rewrite E1, E2, E3, E4. lia.
Qed.

Lemma regroup_tail (a b : N) :
  (a < 256 -> b < 256 ->
   a / 4 * 4 + ((a mod 4) * 16) / 16 = a
   /\ (((a mod 4) * 16 + b / 16) mod 16) * 16 + ((b mod 16) * 4) / 4 = b)%N.
Proof.
  intros Ha Hb.
  pose proof (N.div_mod a 4). pose proof (N.div_mod b 16).
  pose proof (N.mod_upper_bound a 4). pose proof (N.mod_upper_bound b 16).
  assert (Hb16 : (b / 16 < 16)%N) by (apply N.Div0.div_lt_upper_bound; lia).
  rewrite !N.div_mul by lia.
  assert (E2 : (((a mod 4) * 16 + b / 16) mod 16 = b / 16)%N).
  { rewrite N.add_comm, N.Div0.mod_add. apply N.mod_small; lia. }
  rewrite E2. lia.
Qed.

Lemma to_N_lt (b : byte) : (Byte.to_N b < 256)%N.
Proof. pose proof (Byte.to_N_bounded b). lia. Qed.

(** Induction on a buffer three bytes at a time. *)
Lemma triples_ind (Q : Buffer.t -> Prop) :
  Q [] -> (forall a, Q [a]) -> (forall a b, Q [a; b]) ->
  (forall a b c rest, Q rest -> Q (a :: b :: c :: rest)) ->
  forall buf, Q buf.
Proof.
  intros H0 H1 H2 H3 buf.
  assert (H : Q buf /\ (forall a, Q (a :: buf))
              /\ (forall a b, Q (a :: b :: buf))).
  { induction buf as [|x buf (IH0 & IH1 & IH2)]; repeat split; auto. }
  apply H.
Qed.

Lemma decode_encode (buf : Buffer.t) :
  Buffer.bytes_of_symbols
    (Buffer.symbols (Buffer.encode Buffer.alphabet true buf)) = buf.
Proof.
  induction buf as [|a|a b|a b c rest IH] using triples_ind.
  - reflexivity.
  - pose proof (to_N_lt a) as Ha.
    destruct (sextets_bounds _ _ _ Ha Ha Ha) as (S0 & _ & _ & _ & S1 & _).
    destruct (regroup_tail _ _ Ha Ha) as (E & _).
    cbn [Buffer.encode Buffer.sextets1 map app].
    rewrite !symbols_digit, symbols_pad by assumption.
    cbn [Buffer.bytes_of_symbols]. rewrite E. now rewrite byte_of_to_N.
  - pose proof (to_N_lt a) as Ha. pose proof (to_N_lt b) as Hb.
    destruct (sextets_bounds _ _ _ Ha Hb Hb) as (S0 & S1 & _ & _ & _ & S2).
    destruct (regroup_tail _ _ Ha Hb) as (E0 & E1).
    destruct (regroup _ _ _ Ha Hb Hb) as (E0' & _).
    cbn [Buffer.encode Buffer.sextets2 map app].
    rewrite !symbols_digit, symbols_pad by assumption.
    cbn [Buffer.bytes_of_symbols]. rewrite E0', E1.
    now rewrite !byte_of_to_N.
  - pose proof (to_N_lt a) as Ha. pose proof (to_N_lt b) as Hb.
    pose proof (to_N_lt c) as Hc.
    destruct (sextets_bounds _ _ _ Ha Hb Hc) as (S0 & S1 & S2 & S3 & _).
    destruct (regroup _ _ _ Ha Hb Hc) as (E0 & E1 & E2).
    cbn [Buffer.encode Buffer.sextets3 map app].
    rewrite !symbols_digit by assumption.
    cbn [Buffer.bytes_of_symbols]. rewrite E0, E1, E2, IH.
    now rewrite !byte_of_to_N.
Qed.

(** [Buffer.from(buf.toString('base64'), 'base64')] is [buf]. *)
Lemma from_base64_toString (buf : Buffer.t) :
  Buffer.from_base64 (Buffer.toString_base64 buf) = buf.
Proof.
  unfold Buffer.from_base64, Buffer.toString_base64.
  rewrite list_ascii_of_string_of_list_ascii. apply decode_encode.
Qed.

Lemma encode_nonempty table padding (a : byte) (buf : Buffer.t) :
  Buffer.encode table padding (a :: buf) <> [].
Proof. destruct buf as [|b [|c rest]]; discriminate. Qed.

Lemma toString_base64_truthy (a : byte) (buf : Buffer.t) :
  JS.truthy_string (Buffer.toString_base64 (a :: buf)) = true.
Proof.
  unfold Buffer.toString_base64.
  pose proof (@encode_nonempty Buffer.alphabet true a buf) as H.
  destruct (Buffer.encode _ _ _); [congruence | reflexivity].
Qed.

Lemma toString_base64url_truthy (a : byte) (buf : Buffer.t) :
  JS.truthy_string (Buffer.toString_base64url (a :: buf)) = true.
Proof.
  unfold Buffer.toString_base64url.
  pose proof (@encode_nonempty Buffer.alphabet_url false a buf) as H.
  destruct (Buffer.encode _ _ _); [congruence | reflexivity].
Qed.

Lemma randomBytes_length (n : nat) (g : rng) :
  List.length (fst (randomBytes n g)) = n.
Proof. unfold randomBytes. cbn. now rewrite length_map, length_seq. Qed.

Lemma subarray_split (buf : Buffer.t) :
  buf = Buffer.subarray buf 0 12 ++ Buffer.subarray buf 12 28
        ++ Buffer.subarray_from buf 28.
Proof.
  unfold Buffer.subarray, Buffer.subarray_from.
  change (28 - 12) with 16. change (12 - 0) with 12.
  rewrite skipn_O.
  rewrite <- (firstn_skipn 12 buf) at 1. f_equal.
  rewrite <- (firstn_skipn 16 (skipn 12 buf)) at 1. f_equal.
  now rewrite skipn_skipn.
Qed.

(** Slicing back what was concatenated. *)
Lemma subarray_concat (iv tag data : Buffer.t) :
  List.length iv = 12 -> List.length tag = 16 ->
  Buffer.subarray (Buffer.concat [iv; tag; data]) 0 12 = iv
  /\ Buffer.subarray (Buffer.concat [iv; tag; data]) 12 28 = tag
  /\ Buffer.subarray_from (Buffer.concat [iv; tag; data]) 28 = data.
Proof.
  intros Hiv Htag.
  unfold Buffer.subarray, Buffer.subarray_from, Buffer.concat.
  cbn [List.concat]. rewrite app_nil_r.
  change (28 - 12) with 16. change (12 - 0) with 12.
  rewrite skipn_O. repeat split.
  - rewrite firstn_app, Hiv, Nat.sub_diag, firstn_O, app_nil_r.
    apply firstn_all2; lia.
  - rewrite skipn_app, Hiv, Nat.sub_diag, skipn_O.
    rewrite skipn_all2 by lia. cbn [app].
    rewrite firstn_app, Htag, Nat.sub_diag, firstn_O, app_nil_r.
    apply firstn_all2; lia.
  - change 28 with (16 + 12). rewrite <- skipn_skipn.
    rewrite skipn_app, Hiv, Nat.sub_diag, skipn_O.
    rewrite (skipn_all2 iv) by lia. cbn [app].
    rewrite skipn_app, Htag, Nat.sub_diag, skipn_O.
    now rewrite skipn_all2 by lia.
Qed.

End BufferFacts.

(* ===================================================================== *)
(** * The reference platform satisfies the laws *)
(* ===================================================================== *)

Section ReferenceFacts.

Lemma xor_byte_involutive (k b : byte) :
  Reference.xor_byte k (Reference.xor_byte k b) = b.
Proof.
  assert (H : Byte.to_bits (Reference.xor_byte k (Reference.xor_byte k b))
              = Byte.to_bits b).
  { unfold Reference.xor_byte.
    destruct (Byte.to_bits k) as (k0 & k1 & k2 & k3 & k4 & k5 & k6 & k7).
    destruct (Byte.to_bits b) as (b0 & b1 & b2 & b3 & b4 & b5 & b6 & b7).
    rewrite !Byte.to_bits_of_bits.
    rewrite <- !xorb_assoc, !xorb_nilpotent, !xorb_false_l.
    reflexivity. }
  apply (f_equal Byte.of_bits) in H.
  now rewrite !Byte.of_bits_to_bits in H.
Qed.

Lemma xor_stream_involutive (k : byte) (data : Buffer.t) :
  map (Reference.xor_byte k) (map (Reference.xor_byte k) data) = data.
Proof.
  rewrite map_map. rewrite <- (map_id data) at 2.
  apply map_ext. intros b. apply xor_byte_involutive.
Qed.

Lemma reference_laws : NodeCryptoLaws Reference.crypto.
Proof.
  constructor.
  - intros. cbn. unfold Reference.pbkdf2.
    now rewrite length_map, length_seq.
  - intros key iv aad data Hk Hiv. cbn.
    unfold Reference.encrypt, Reference.check_key_iv.
    rewrite Hk. cbn [Nat.eqb negb].
    destruct iv as [|i iv]; [discriminate|].
    eexists _, _. split; [reflexivity|]. split.
    + apply length_map.
    + apply repeat_length.
  - intros key iv aad data ct tag. cbn.
    unfold Reference.encrypt, Reference.decrypt.
    destruct (Reference.check_key_iv key iv); [discriminate|].
    intros H. injection H as <- <-.
    unfold Reference.mac at 1. rewrite repeat_length.
    cbn [existsb Reference.tag_lengths Nat.eqb orb negb].
    replace (firstn 16 (Reference.mac key iv aad _)) with
      (Reference.mac key iv aad (map (Reference.xor_byte
         (Reference.checksum (key ++ iv))) data)).
    2: { symmetry. apply firstn_all2. unfold Reference.mac.
         rewrite repeat_length. lia. }
    destruct (list_eq_dec _ _ _) as [_|Hne]; [|congruence].
    now rewrite xor_stream_involutive.
Qed.

End ReferenceFacts.

(* ===================================================================== *)
(** * The crypto service *)
(* ===================================================================== *)

Arguments randomBytes : simpl never.
Opaque randomBytes.

Section CryptoFacts.

Variable nc : NodeCrypto.
Hypothesis laws : NodeCryptoLaws nc.

Lemma encryptData_returns (data key : Buffer.t) (g : rng) :
  List.length key = 32 ->
  exists ct tag,
    aes_256_gcm_encrypt nc key (fst (randomBytes 12 g))
      CryptoService.AAD data = inr (ct, tag)
    /\ CryptoService.encryptData nc data key g
       = (inr (CryptoService.mkEncrypted ct (fst (randomBytes 12 g)) tag),
          snd (randomBytes 12 g))
    /\ List.length ct = List.length data
    /\ List.length tag = 16.
Proof.
  intros Hk.
  destruct (gcm_encrypt_returns laws key (fst (randomBytes 12 g))
              CryptoService.AAD data Hk (randomBytes_length 12 g))
    as (ct & tag & Henc & Hct & Htag).
  exists ct, tag. repeat split; auto.
  unfold CryptoService.encryptData.
  destruct (randomBytes 12 g) as [iv g'] eqn:E. cbn [fst snd] in *.
  now rewrite Henc.
Qed.

Lemma deriveKey_length (password : string) (salt : Buffer.t) :
  List.length (CryptoService.deriveKeyFromPassword nc password salt) = 32.
Proof. apply (pbkdf2_length laws). Qed.

Lemma encryptFileForStorage_returns (data : Buffer.t) (g : rng) :
  exists ef,
    fst (CryptoService.encryptFileForStorage nc data g) = inr ef
    /\ CryptoService.decryptData nc (CryptoService.ef_encryptedData ef)
         (CryptoService.ef_fileKey ef) (CryptoService.ef_iv ef)
         (CryptoService.ef_authTag ef) = inr data
    /\ List.length (CryptoService.ef_fileKey ef) = 32
    /\ List.length (CryptoService.ef_iv ef) = 12
    /\ List.length (CryptoService.ef_authTag ef) = 16
    /\ List.length (CryptoService.ef_encryptedData ef) = List.length data.
Proof.
  unfold CryptoService.encryptFileForStorage,
    CryptoService.generateFileKey.
  destruct (randomBytes 32 g) as [fileKey g1] eqn:Ek.
  assert (Hk : List.length fileKey = 32).
  { pose proof (randomBytes_length 32 g) as H. now rewrite Ek in H. }
  destruct (encryptData_returns data fileKey g1 Hk)
    as (ct & tag & Henc & Hrun & Hct & Htag).
  rewrite Hrun. cbn.
  eexists. split; [reflexivity|]. cbn.
  repeat split; auto using randomBytes_length.
  unfold CryptoService.decryptData.
  now apply (gcm_decrypt_encrypt laws).
Qed.

(** What [encryptFileKey] returns for a truthy password. *)
Lemma encryptFileKey_returns (K : Buffer.t) (password : string)
    (salt : Buffer.t) (g : rng) :
  password <> "" ->
  exists ct tag,
    aes_256_gcm_encrypt nc
      (pbkdf2 nc password salt 100000%N 32 "sha256")
      (fst (randomBytes 12 g)) CryptoService.AAD K = inr (ct, tag)
    /\ List.length ct = List.length K /\ List.length tag = 16
    /\ fst (CryptoService.encryptFileKey nc K password salt g)
       = inr (CryptoService.mkWrappedKey
                (Buffer.toString_base64
                   (Buffer.concat [fst (randomBytes 12 g); tag; ct]))
                (Buffer.toString_base64 salt)).
Proof.
  intros Hp.
  destruct (encryptData_returns K _ g (deriveKey_length password salt))
    as (ct & tag & Henc & Hrun & Hct & Htag).
  exists ct, tag. repeat split; auto.
  unfold CryptoService.encryptFileKey.
  destruct password as [|c p]; [congruence|].
  cbn [JS.truthy_string CryptoService.truthy_buffer negb orb].
  rewrite Hrun. reflexivity.
Qed.

Lemma encryptFileKey_empty_password (K salt : Buffer.t) (g : rng) :
  CryptoService.encryptFileKey nc K "" salt g
  = (inl (JS.Error
            ("File key encryption failed: "
             ++ "Missing required parameters: fileKey, password, or salt")),
     g).
Proof. reflexivity. Qed.

(** What [decryptFileKey] does with a blob and a salt that are strings:
    it slices and decrypts, without a check on the length. *)
Lemma decryptFileKey_slices (blob password saltBase64 : string) :
  CryptoService.decryptFileKey nc (Some blob) password (Some saltBase64)
  = JS.try_catch
      (CryptoService.decryptData nc
         (Buffer.subarray_from (Buffer.from_base64 blob) 28)
         (CryptoService.deriveKeyFromPassword nc password
            (Buffer.from_base64 saltBase64))
         (Buffer.subarray (Buffer.from_base64 blob) 0 12)
         (Buffer.subarray (Buffer.from_base64 blob) 12 28))
      (fun error =>
         JS.throw (JS.Error
           ("File key decryption failed: " ++ JS.message error))).
Proof.
  unfold CryptoService.decryptFileKey. cbn.
  destruct (CryptoService.decryptData _ _ _ _ _); reflexivity.
Qed.

(** ** C7 *)

(** C7. For every payload and every 32-byte key, [encryptData] returns a
    ciphertext, an IV and a tag from which [decryptData] under the same key
    returns the payload; the IV is the 12 bytes the call draws from the
    random source (the call takes no nonce); the encryption and every
    decryption bind the associated data 'DisguiseDrive-v1'; and the same
    holds for the content encryption of [encryptFileForStorage]. *)
Theorem aead_round_trip (data key : Buffer.t) (g : rng) :
  List.length key = 32 ->
  (exists r,
     fst (CryptoService.encryptData nc data key g) = inr r
     /\ CryptoService.decryptData nc (CryptoService.encryptedData r) key
          (CryptoService.iv r) (CryptoService.authTag r) = inr data
     /\ CryptoService.iv r = fst (randomBytes 12 g)
     /\ List.length (CryptoService.iv r) = 12
     /\ aes_256_gcm_encrypt nc key (CryptoService.iv r)
          (Buffer.from_utf8 "DisguiseDrive-v1") data
        = inr (CryptoService.encryptedData r, CryptoService.authTag r))
  /\ (forall ct k iv tag,
        CryptoService.decryptData nc ct k iv tag
        = aes_256_gcm_decrypt nc k iv
            (Buffer.from_utf8 "DisguiseDrive-v1") ct tag)
  /\ (exists ef,
        fst (CryptoService.encryptFileForStorage nc data g) = inr ef
        /\ CryptoService.decryptData nc
             (CryptoService.ef_encryptedData ef)
             (CryptoService.ef_fileKey ef) (CryptoService.ef_iv ef)
             (CryptoService.ef_authTag ef) = inr data).
Proof.
  intros Hk. split; [|split].
  - destruct (encryptData_returns data key g Hk)
      as (ct & tag & Henc & Hrun & Hct & Htag).
    rewrite Hrun. eexists. split; [reflexivity|]. cbn.
    repeat split; try exact Henc; auto using randomBytes_length.
    unfold CryptoService.decryptData.
    now apply (gcm_decrypt_encrypt laws).
  - reflexivity.
  - destruct (encryptFileForStorage_returns data g) as (ef & H1 & H2 & _).
    now exists ef.
Qed.

(** ** C2 *)

(** C2 (amended). For every ContentKey, every non-empty password and every
    salt, unwrapping the KeyBlob that [encryptFileKey] returns, with the
    same password and the base64 form of the salt, returns the ContentKey;
    the wrap encrypts under PBKDF2-SHA256 (100000 iterations, 32 bytes) of
    the password and the salt, and every unwrap decrypts under the same
    derivation of its password and its decoded salt. *)
Theorem key_wrap_round_trip (K : Buffer.t) (password : string)
    (salt : Buffer.t) (g : rng) :
  password <> "" ->
  wrap_round_trip nc K password salt g
  /\ (exists ct tag,
        aes_256_gcm_encrypt nc
          (pbkdf2 nc password salt 100000%N 32 "sha256")
          (fst (randomBytes 12 g)) (Buffer.from_utf8 "DisguiseDrive-v1") K
        = inr (ct, tag)
        /\ fst (CryptoService.encryptFileKey nc K password salt g)
           = inr (CryptoService.mkWrappedKey
                    (Buffer.toString_base64
                       (Buffer.concat [fst (randomBytes 12 g); tag; ct]))
                    (Buffer.toString_base64 salt)))
  /\ (forall blob pw saltBase64 fileKey,
        CryptoService.decryptFileKey nc (Some blob) pw (Some saltBase64)
        = inr fileKey ->
        aes_256_gcm_decrypt nc
          (pbkdf2 nc pw (Buffer.from_base64 saltBase64) 100000%N 32
             "sha256")
          (Buffer.subarray (Buffer.from_base64 blob) 0 12)
          (Buffer.from_utf8 "DisguiseDrive-v1")
          (Buffer.subarray_from (Buffer.from_base64 blob) 28)
          (Buffer.subarray (Buffer.from_base64 blob) 12 28)
        = inr fileKey).
Proof.
  intros Hp.
  destruct (encryptFileKey_returns K password salt g Hp)
    as (ct & tag & Henc & Hct & Htag & Hrun).
  split; [|split].
  - unfold wrap_round_trip. rewrite Hrun.
    eexists. split; [reflexivity|]. cbn [CryptoService.encryptedKeyBlob].
    rewrite decryptFileKey_slices, !from_base64_toString.
    destruct (subarray_concat _ _ ct (randomBytes_length 12 g) Htag)
      as (E1 & E2 & E3).
    rewrite E1, E2, E3.
    unfold CryptoService.decryptData, CryptoService.deriveKeyFromPassword.
    now rewrite (gcm_decrypt_encrypt laws _ _ _ _ Henc).
  - exists ct, tag. split; auto.
  - intros blob pw saltBase64 fileKey H.
    rewrite decryptFileKey_slices in H.
    unfold JS.try_catch, CryptoService.decryptData in H.
    match type of H with
    | match ?x with _ => _ end = _ => destruct x as [e|k] eqn:E
    end; [discriminate|].
    rewrite <- H. exact E.
Qed.

(** ** C10 *)

(** C10. A KeyBlob that [encryptFileKey] returns for a 32-byte ContentKey
    is 60 bytes long, and the FileBlob that [createStorageBlob] builds from
    the result of [encryptFileForStorage] is 28 bytes longer than the
    payload. *)
Theorem blob_lengths (K : Buffer.t) (password : string) (salt : Buffer.t)
    (g : rng) (r : CryptoService.wrappedKey) (data : Buffer.t) (g' : rng) :
  List.length K = 32 ->
  fst (CryptoService.encryptFileKey nc K password salt g) = inr r ->
  List.length (Buffer.from_base64 (CryptoService.encryptedKeyBlob r)) = 60
  /\ exists ef,
       fst (CryptoService.encryptFileForStorage nc data g') = inr ef
       /\ List.length
            (CryptoService.createStorageBlob
               (CryptoService.ef_encryptedData ef) (CryptoService.ef_iv ef)
               (CryptoService.ef_authTag ef))
          = 28 + List.length data.
Proof.
  intros HK Hr. split.
  - destruct password as [|c p].
    { rewrite encryptFileKey_empty_password in Hr. discriminate. }
    destruct (encryptFileKey_returns K (String c p) salt g)
      as (ct & tag & Henc & Hct & Htag & Hrun); [discriminate|].
    rewrite Hrun in Hr. injection Hr as <-.
    cbn [CryptoService.encryptedKeyBlob].
    rewrite from_base64_toString.
    unfold Buffer.concat. cbn [List.concat].
    rewrite !length_app, randomBytes_length, Htag, Hct, HK. reflexivity.
  - destruct (encryptFileForStorage_returns data g')
      as (ef & H1 & _ & _ & Hiv & Htag & Hct).
    exists ef. split; auto.
    unfold CryptoService.createStorageBlob, Buffer.concat.
    cbn [List.concat].
    rewrite !length_app, Hiv, Htag, Hct. cbn. lia.
Qed.

End CryptoFacts.

Transparent randomBytes.

(** ** C6 *)

Section BlobDecoding.

Variable nc : NodeCrypto.

(** C6 (amended). [decryptFileKey] applies no length floor: whatever the
    length of the KeyBlob, it takes bytes 0..12 as IV, bytes 12..28 as
    AuthTag and the remainder as ciphertext, each slice cut short at the
    end of the buffer and none reading outside it (so 12, 16 and n - 28
    bytes when the blob has n >= 28 bytes), and passes them to the AEAD
    decryption; a failure is thrown as the Error 'File key decryption
    failed', for a short blob as for any other. *)
Theorem key_blob_decode (blob password saltBase64 : string) :
  let keyBlob := Buffer.from_base64 blob in
  let iv := Buffer.subarray keyBlob 0 12 in
  let authTag := Buffer.subarray keyBlob 12 28 in
  let encryptedData := Buffer.subarray_from keyBlob 28 in
  CryptoService.decryptFileKey nc (Some blob) password (Some saltBase64)
  = JS.try_catch
      (CryptoService.decryptData nc encryptedData
         (CryptoService.deriveKeyFromPassword nc password
            (Buffer.from_base64 saltBase64)) iv authTag)
      (fun error =>
         JS.throw (JS.Error
           ("File key decryption failed: " ++ JS.message error)))
  /\ keyBlob = iv ++ authTag ++ encryptedData
  /\ List.length iv = Nat.min 12 (List.length keyBlob)
  /\ List.length authTag = Nat.min 16 (List.length keyBlob - 12)
  /\ List.length encryptedData = List.length keyBlob - 28.
Proof.
  cbv zeta. split; [apply decryptFileKey_slices|].
  split; [apply subarray_split|].
  unfold Buffer.subarray, Buffer.subarray_from.
  rewrite !length_firstn, !length_skipn.
  change (12 - 0) with 12. change (28 - 12) with 16.
  repeat split; lia.
Qed.

(** The test of the repository for [createStorageBlob] and
    [parseStorageBlob]: whatever the metadata parser answers, the blob of
    its 12-byte IV, 16-byte tag and data is not parsed back into that IV. *)
Lemma parseStorageBlob_test_vector
    (metadata_ivLength : string -> JS.result (option N)) :
  let encryptedData := Buffer.from_utf8 "encrypted data" in
  let iv := Buffer.from_utf8 "123456789012" in
  let authTag := Buffer.from_utf8 "1234567890123456" in
  match CryptoService.parseStorageBlob metadata_ivLength
          (CryptoService.createStorageBlob encryptedData iv authTag) with
  | inr parsed => CryptoService.pb_iv parsed = []
  | inl _ => True
  end.
Proof.
  cbv zeta. unfold CryptoService.parseStorageBlob.
  set (blob := CryptoService.createStorageBlob _ _ _).
  assert (Hlen : Buffer.readUInt32BE0 blob = inr 825373492%N)
    by reflexivity.
  assert (Hclamp : forall i, Buffer.clamp blob i <= 42).
  { intros i. unfold Buffer.clamp.
    change (List.length blob) with 42. lia. }
  assert (Hstart : Buffer.clamp blob (4 + 825373492) = 42) by reflexivity.
  rewrite Hlen. cbn [JS.bind].
  destruct (metadata_ivLength _) as [e|[n|]]; cbn [JS.bind JS.ok]; auto.
  cbn [CryptoService.pb_iv]. unfold Buffer.subarray.
  apply length_zero_iff_nil. rewrite length_firstn, Hstart.
  pose proof (Hclamp (4 + 825373492 + n)%N). lia.
Qed.

(** C6, counterexample. On the empty byte sequence [parseStorageBlob]
    throws a RangeError, and [decryptFileKey] goes on to the cipher and
    throws the same kind of Error as for a wrong password. *)
Lemma short_blob_not_malformed :
  CryptoService.parseStorageBlob (fun _ => inr None) []
  = inl (JS.RangeError "Attempt to access memory outside buffer bounds")
  /\ CryptoService.decryptFileKey Reference.crypto (Some "") "correct-horse"
       (Some "")
     = inl (JS.Error
              "File key decryption failed: Invalid initialization vector").
Proof. split; reflexivity. Qed.

End BlobDecoding.

(** C7, on the reference platform. *)
Lemma aead_round_trip_witness :
  (exists r,
     fst (CryptoService.encryptData Reference.crypto
            (Buffer.from_utf8 "hello-world") (repeat x01 32) Reference.zeros)
     = inr r
     /\ CryptoService.decryptData Reference.crypto
          (CryptoService.encryptedData r) (repeat x01 32)
          (CryptoService.iv r) (CryptoService.authTag r)
        = inr (Buffer.from_utf8 "hello-world")
     /\ CryptoService.iv r = fst (randomBytes 12 Reference.zeros)
     /\ List.length (CryptoService.iv r) = 12
     /\ aes_256_gcm_encrypt Reference.crypto (repeat x01 32)
          (CryptoService.iv r) (Buffer.from_utf8 "DisguiseDrive-v1")
          (Buffer.from_utf8 "hello-world")
        = inr (CryptoService.encryptedData r, CryptoService.authTag r))
  /\ (forall ct k iv tag,
        CryptoService.decryptData Reference.crypto ct k iv tag
        = aes_256_gcm_decrypt Reference.crypto k iv
            (Buffer.from_utf8 "DisguiseDrive-v1") ct tag)
  /\ (exists ef,
        fst (CryptoService.encryptFileForStorage Reference.crypto
               (Buffer.from_utf8 "hello-world") Reference.zeros) = inr ef
        /\ CryptoService.decryptData Reference.crypto
             (CryptoService.ef_encryptedData ef)
             (CryptoService.ef_fileKey ef) (CryptoService.ef_iv ef)
             (CryptoService.ef_authTag ef)
           = inr (Buffer.from_utf8 "hello-world")).
Proof.
  exact (aead_round_trip _ reference_laws (Buffer.from_utf8 "hello-world")
           (repeat x01 32) Reference.zeros eq_refl).
Defined.

(** C2, on the reference platform: a key wrapped under 'correct-horse'. *)
Lemma key_wrap_round_trip_witness :
  wrap_round_trip Reference.crypto (repeat x07 32) "correct-horse"
    (repeat x02 32) Reference.zeros.
Proof.
  refine (proj1 (key_wrap_round_trip _ reference_laws (repeat x07 32)
                   "correct-horse" (repeat x02 32) Reference.zeros _)).
  discriminate.
Defined.

(** C2, counterexample: with the empty password [encryptFileKey] throws, so
    there is no KeyBlob to unwrap. *)
Lemma key_wrap_empty_password :
  ~ wrap_round_trip Reference.crypto (repeat x07 32) "" (repeat x02 32)
      Reference.zeros.
Proof.
  intros (r & Hr & _). rewrite encryptFileKey_empty_password in Hr.
  discriminate.
Qed.

(** C10, on the reference platform. *)
Lemma blob_lengths_witness :
  exists r,
    fst (CryptoService.encryptFileKey Reference.crypto (repeat x07 32)
           "correct-horse" (repeat x02 32) Reference.zeros) = inr r
    /\ List.length (Buffer.from_base64 (CryptoService.encryptedKeyBlob r))
       = 60
    /\ exists ef,
         fst (CryptoService.encryptFileForStorage Reference.crypto
                (Buffer.from_utf8 "hello-world") Reference.zeros) = inr ef
         /\ List.length
              (CryptoService.createStorageBlob
                 (CryptoService.ef_encryptedData ef) (CryptoService.ef_iv ef)
                 (CryptoService.ef_authTag ef))
            = 28 + List.length (Buffer.from_utf8 "hello-world").
Proof.
  eexists. split; [vm_compute; reflexivity|].
  refine (blob_lengths _ reference_laws (repeat x07 32) "correct-horse"
            (repeat x02 32) Reference.zeros _
            (Buffer.from_utf8 "hello-world") Reference.zeros _ _).
  - reflexivity.
  - vm_compute. reflexivity.
Defined.

(* ===================================================================== *)
(** * The trace of a request *)
(* ===================================================================== *)

Section TraceFacts.

Lemma events_of_app (w w' : world) (evs : list event) :
  trace w' = trace w ++ evs -> events_of w w' = evs.
Proof.
  intros H. unfold events_of. rewrite H, skipn_app, Nat.sub_diag.
  now rewrite skipn_all.
Qed.

Lemma events_of_refl (w : world) : events_of w w = [].
Proof. apply events_of_app. now rewrite app_nil_r. Qed.

Lemma trace_emit (e : event) (w0 w : world) (evs : list event) :
  trace w = trace w0 ++ evs ->
  trace (emit e w) = trace w0 ++ (evs ++ [e]).
Proof. intros H. cbn. now rewrite H, app_assoc. Qed.

Lemma trace_respond {A} (s : nat) (v : JS.json) (w0 w : world)
    (evs : list event) :
  trace w = trace w0 ++ evs ->
  trace (snd (respond (A := A) s v w))
  = trace w0 ++ (evs ++ [EvResponse (mkResponse s (Json v))]).
Proof. intros H. cbn. now rewrite H, app_assoc. Qed.

Lemma trace_start (w : world) : trace w = trace w ++ [].
Proof. now rewrite app_nil_r. Qed.

End TraceFacts.

(* ===================================================================== *)
(** * The key-unwrap route *)
(* ===================================================================== *)

Section DecryptKey.

Variable P : Platform.

(** A run of [POST /:id/decrypt-key] either stops before the unwrap and
    writes no log, or it unwraps, writes the log and then responds. *)
Lemma decrypt_key_run (req : request) (w : world) :
  exists evs,
    trace (snd (decrypt_key P req w)) = trace w ++ evs
    /\ ((existsb is_unwrap evs = false
         /\ securityLogs (snd (decrypt_key P req w)) = securityLogs w)
        \/ exists pre f row r,
             evs = pre ++ [EvUnwrapKey (encryptedKeyBlob f)
                             (or_default (body_password req) "") (salt f);
                           EvSecurityLog row; EvResponse r]
             /\ existsb is_unwrap pre = false
             /\ fst (decrypt_key P req w) = Sent r
             /\ securityLogs (snd (decrypt_key P req w))
                = securityLogs w ++ [row]
             /\ action row = "file_unlock_attempt"
             /\ match CryptoService.decryptFileKey (node P)
                        (encryptedKeyBlob f)
                        (or_default (body_password req) "") (salt f)
                with
                | inr fileKey =>
                    success row = true
                    /\ r = mkResponse 200
                             (Json (JS.JObj
                                [("success", JS.JBool true);
                                 ("fileKey",
                                  JS.JStr
                                    (Buffer.toString_base64 fileKey))]))
                | inl _ =>
                    success row = false
                    /\ r = mkResponse 401 (Json invalid_password)
                end).
Proof.
  unfold decrypt_key.
  destruct (JS.truthy_string (or_default (body_password req) ""));
    cbn [negb].
  2: { eexists. split; [apply trace_respond, trace_start|].
       left. split; reflexivity. }
  destruct (prisma.file_findFirst _ _ w) as [f|].
  2: { eexists. split; [apply trace_respond, trace_start|].
       left. split; reflexivity. }
  destruct (prisma.file_folder f w) as [d|].
  2: { exists []. split; [apply trace_start|]. left. split; reflexivity. }
  assert (Hgo :
    forall w1 pre,
      trace w1 = trace w ++ pre -> existsb is_unwrap pre = false ->
      securityLogs w1 = securityLogs w ->
      let run :=
        (let w2 := emit (EvUnwrapKey (encryptedKeyBlob f)
                           (or_default (body_password req) "") (salt f))
                     w1 in
         match CryptoService.decryptFileKey (node P) (encryptedKeyBlob f)
                 (or_default (body_password req) "") (salt f)
         with
         | inr fileKey =>
             let w3 :=
               prisma.securityLog_create
                 (mkLog (Some (user req)) "file_unlock_attempt" true
                    (ip req) (user_agent req)
                    (JS.JObj [("fileId", JS.JStr (params_id req))])) w2 in
             respond (A := unit) 200
               (JS.JObj [("success", JS.JBool true);
                         ("fileKey",
                          JS.JStr (Buffer.toString_base64 fileKey))]) w3
         | inl error =>
             let w3 :=
               prisma.securityLog_create
                 (mkLog (Some (user req)) "file_unlock_attempt" false
                    (ip req) (user_agent req)
                    (JS.JObj [("fileId", JS.JStr (params_id req));
                              ("error", JS.JStr (JS.message error))])) w2 in
             respond 401 invalid_password w3
         end) in
      exists pre' row r,
        trace (snd run)
        = trace w ++ (pre' ++ [EvUnwrapKey (encryptedKeyBlob f)
                                 (or_default (body_password req) "")
                                 (salt f);
                               EvSecurityLog row; EvResponse r])
        /\ existsb is_unwrap pre' = false
        /\ fst run = Sent r
        /\ securityLogs (snd run) = securityLogs w ++ [row]
        /\ action row = "file_unlock_attempt"
        /\ match CryptoService.decryptFileKey (node P)
                   (encryptedKeyBlob f)
                   (or_default (body_password req) "") (salt f)
           with
           | inr fileKey =>
               success row = true
               /\ r = mkResponse 200
                        (Json (JS.JObj
                           [("success", JS.JBool true);
                            ("fileKey",
                             JS.JStr (Buffer.toString_base64 fileKey))]))
           | inl _ =>
               success row = false
               /\ r = mkResponse 401 (Json invalid_password)
           end).
  { intros w1 pre Htr Hpre Hlog. cbv zeta.
    destruct (CryptoService.decryptFileKey _ _ _ _) as [e|k];
      (exists pre; eexists; eexists; cbn;
       rewrite Htr, Hlog, <- !app_assoc; cbn;
       repeat split; auto). }
  destruct (isProtected d).
  - destruct (JS.truthy_string (or_default (x_folder_token req) ""));
      cbn [negb].
    + unfold prisma.folderAccessToken_findFirst.
      destruct (find _ _) as [t|].
      * edestruct (Hgo (emit (EvTokenLookup
                                 (or_default (x_folder_token req) "")
                                 (folder_id d) (user req) (clock w) true)
                           w))
      as (pre' & row & r & H1 & H2 & H3 & H4 & H5 & H6);
          [apply trace_emit, trace_start | reflexivity | reflexivity |].
        eexists. split; [exact H1|]. right. exists pre', f, row, r. auto 10.
      * eexists. split; [apply trace_respond, trace_emit, trace_start|].
        left. split; reflexivity.
    + eexists. split; [apply trace_respond, trace_start|].
      left. split; reflexivity.
  - edestruct (Hgo w []) as (pre' & row & r & H1 & H2 & H3 & H4 & H5 & H6);
      [apply trace_start | reflexivity | reflexivity |].
    eexists. split; [exact H1|]. right. exists pre', f, row, r. auto 10.
Qed.

End DecryptKey.

Section EventFacts.

Lemma none_of {A} (p : A -> bool) (l : list A) (x : A) :
  existsb p l = false -> In x l -> p x = false.
Proof.
  intros H Hin. destruct (p x) eqn:E; auto.
  assert (existsb p l = true) by (apply existsb_exists; eauto).
  congruence.
Qed.

Lemma token_matches_iff (tok fid uid : string) (now : Z)
    (r : folderAccessToken) :
  prisma.token_matches tok fid uid now r = true
  <-> token r = tok /\ token_folderId r = fid /\ token_userId r = uid
      /\ (now < expiresAt r)%Z.
Proof.
  unfold prisma.token_matches.
  rewrite !andb_true_iff, !String.eqb_eq, Z.ltb_lt. tauto.
Qed.

Lemma find_token_iff (tok fid uid : string) (now : Z)
    (l : list folderAccessToken) :
  (exists r, find (prisma.token_matches tok fid uid now) l = Some r)
  <-> exists r, In r l /\ token r = tok /\ token_folderId r = fid
                /\ token_userId r = uid /\ (now < expiresAt r)%Z.
Proof.
  split.
  - intros (r & H). apply find_some in H as (Hin & Hm).
    exists r. split; auto. now apply token_matches_iff.
  - intros (r & Hin & H).
    destruct (find _ l) as [r'|] eqn:E; [eauto|].
    apply (find_none _ _ E) in Hin.
    apply token_matches_iff in H. congruence.
Qed.

End EventFacts.

(* ===================================================================== *)
(** * The token gate *)
(* ===================================================================== *)

Section TokenGate.

(** [verifyFolderAccess] writes nothing to the security log. *)
Lemma verifyFolderAccess_run (req : request) (w : world) :
  exists evs,
    trace (snd (verifyFolderAccess req w)) = trace w ++ evs
    /\ existsb is_log evs = false
    /\ securityLogs (snd (verifyFolderAccess req w)) = securityLogs w.
Proof.
  unfold verifyFolderAccess.
  destruct (JS.truthy_string _); cbn [negb].
  2: { eexists. split; [apply trace_respond, trace_start|].
       split; reflexivity. }
  destruct (prisma.folder_findFirst _ _ w) as [d|].
  2: { eexists. split; [apply trace_respond, trace_start|].
       split; reflexivity. }
  destruct (isProtected d); cbn [negb].
  2: { exists []. split; [apply trace_start|]. split; reflexivity. }
  destruct (JS.truthy_string _); cbn [negb].
  2: { eexists. split; [apply trace_respond, trace_start|].
       split; reflexivity. }
  unfold prisma.folderAccessToken_findFirst.
  destruct (find _ _).
  - eexists. split; [apply trace_emit, trace_start|]. split; reflexivity.
  - eexists. split; [apply trace_respond, trace_emit, trace_start|].
    split; reflexivity.
Qed.

(** For a protected folder of the user and a token header, access is
    granted exactly when a row matches that has not expired. *)
Lemma verify_granted_iff (req : request) (w : world) (d : folder)
    (tok : string) :
  let fid := or_string (params_id req) (params_folderId req) in
  fid <> "" ->
  prisma.folder_findFirst fid (user req) w = Some d ->
  isProtected d = true ->
  x_folder_token req = Some tok ->
  tok <> "" ->
  ((exists a, fst (verifyFolderAccess req w) = Next a)
   <-> exists row, In row (folderAccessTokens w) /\ token row = tok
                  /\ token_folderId row = fid
                  /\ token_userId row = user req
                  /\ (clock w < expiresAt row)%Z)
  /\ ((exists a, fst (verifyFolderAccess req w) = Next a)
      \/ fst (verifyFolderAccess req w)
         = Sent (mkResponse 403 (Json token_invalid))).
Proof.
  intros fid Hfid Hd Hprot Htok Hne.
  rewrite <- find_token_iff.
  unfold verifyFolderAccess. fold fid.
  destruct fid as [|c fid'] eqn:Efid; [congruence|].
  cbn [JS.truthy_string negb]. rewrite Hd, Hprot, Htok. cbn [negb].
  destruct tok as [|c' tok']; [congruence|].
  cbn [or_default or_string JS.truthy_string negb].
  unfold prisma.folderAccessToken_findFirst.
  destruct (find _ _) as [row|]; cbn [fst].
  - split; [|left; eauto]. split; eauto.
  - split; [|right; reflexivity].
    split; intros (x & H); discriminate.
Qed.

End TokenGate.

(* ===================================================================== *)
(** * Folder unlock *)
(* ===================================================================== *)

Section Unlock.

Variable P : Platform.

(** What a successful unlock did. *)
Lemma unlock_granted (req : request) (w : world) (v : JS.json) :
  fst (unlock P req w) = Sent (mkResponse 200 (Json v)) ->
  let tok := fst (CryptoService.generateToken (random w)) in
  let row := mkToken tok (params_id req) (user req)
               (clock w + 2 * 60 * 60 * 1000) in
  (exists d, prisma.folder_findFirst (params_id req) (user req) w = Some d
             /\ isProtected d = true)
  /\ existsb (fun r => String.eqb (token r) tok) (folderAccessTokens w)
     = false
  /\ folderAccessTokens (snd (unlock P req w))
     = folderAccessTokens w ++ [row]
  /\ folders (snd (unlock P req w)) = folders w
  /\ clock (snd (unlock P req w)) = clock w
  /\ v = JS.JObj [("message", JS.JStr "Folder unlocked successfully");
                  ("accessToken", JS.JStr tok);
                  ("expiresAt", JS.JStr (toISOString P (expiresAt row)))].
Proof.
  unfold unlock.
  destruct (unlockFolderSchema_validate P req) as [e|password];
    [discriminate|].
  destruct (prisma.folder_findFirst _ _ w) as [d|]; [|discriminate].
  destruct (isProtected d) eqn:Hprot; cbn [negb]; [|discriminate].
  destruct (match passwordHash d with
            | Some stored => String.eqb stored password
            | None => false
            end); cbn [negb]; [|discriminate].
  destruct (CryptoService.generateToken (random w)) as [tok g] eqn:Etok.
  unfold prisma.folderAccessToken_create.
  cbn [folderAccessTokens set_random token].
  destruct (existsb _ _) eqn:Hfresh; [discriminate|].
  cbn. intros H. injection H as <-.
  repeat split; eauto.
Qed.

End Unlock.

Section TokenExpiry.

Variable P : Platform.

Lemma generateToken_truthy (g : rng) :
  fst (CryptoService.generateToken g) <> "".
Proof.
  unfold CryptoService.generateToken.
  pose proof (randomBytes_length 32 g) as Hlen.
  destruct (randomBytes 32 g) as [bytes g']. cbn [fst] in *.
  destruct bytes as [|a rest]; [discriminate|].
  pose proof (toString_base64url_truthy a rest) as H.
  intros E. rewrite E in H. discriminate.
Qed.

Lemma folder_findFirst_folders (id owner : string) (w w' : world) :
  folders w' = folders w ->
  prisma.folder_findFirst id owner w' = prisma.folder_findFirst id owner w.
Proof. unfold prisma.folder_findFirst. now intros ->. Qed.

(** C5. A successful unlock stores the token it returns with an expiry of
    the time of issue plus 2 hours; a verification of that token for the
    same folder and user is granted at every time before that expiry and
    denied at the expiry and after it; and in any state the verification
    of a token for a protected folder is granted exactly when a row with
    that token, folder and user exists whose [expiresAt] is later than the
    time of the verification. *)
Theorem token_expiry (req : request) (w : world) (v : JS.json) :
  params_id req <> "" ->
  fst (unlock P req w) = Sent (mkResponse 200 (Json v)) ->
  exists tok,
    lookup "accessToken"
      match v with JS.JObj fields => fields | _ => [] end
    = Some (JS.JStr tok)
    /\ folderAccessTokens (snd (unlock P req w))
       = folderAccessTokens w
         ++ [mkToken tok (params_id req) (user req)
               (clock w + 2 * 60 * 60 * 1000)]
    /\ (forall (check : request) (t : Z),
          user check = user req ->
          or_string (params_id check) (params_folderId check)
          = params_id req ->
          x_folder_token check = Some tok ->
          ((t < clock w + 2 * 60 * 60 * 1000)%Z ->
           exists a,
             fst (verifyFolderAccess check
                    (set_clock t (snd (unlock P req w)))) = Next a)
          /\ ((clock w + 2 * 60 * 60 * 1000 <= t)%Z ->
              fst (verifyFolderAccess check
                     (set_clock t (snd (unlock P req w))))
              = Sent (mkResponse 403
                        (Json (JS.JObj
                           [("error",
                             JS.JStr
                               "Invalid or expired folder access token");
                            ("requiresFolderPassword",
                             JS.JBool true)])))))
    /\ (forall (check : request) (w0 : world) (d : folder) (tk : string),
          or_string (params_id check) (params_folderId check) <> "" ->
          prisma.folder_findFirst
            (or_string (params_id check) (params_folderId check))
            (user check) w0 = Some d ->
          isProtected d = true ->
          x_folder_token check = Some tk ->
          tk <> "" ->
          ((exists a, fst (verifyFolderAccess check w0) = Next a)
           <-> exists row,
                 In row (folderAccessTokens w0) /\ token row = tk
                 /\ token_folderId row
                    = or_string (params_id check) (params_folderId check)
                 /\ token_userId row = user check
                 /\ (clock w0 < expiresAt row)%Z)).
Proof.
  intros Hid Hok.
  destruct (unlock_granted P req w v Hok)
    as ((d & Hd & Hprot) & Hfresh & Htokens & Hfolders & Hclock & Hv).
  set (tok := fst (CryptoService.generateToken (random w))) in *.
  exists tok. split; [now rewrite Hv|]. split; [exact Htokens|].
  split.
  - intros check t Huser Hfid Htok.
    set (w1 := set_clock t (snd (unlock P req w))).
    assert (Hd1 : prisma.folder_findFirst
                    (or_string (params_id check) (params_folderId check))
                    (user check) w1 = Some d).
    { rewrite Hfid, Huser.
      rewrite (folder_findFirst_folders _ _ w w1); auto. }
    assert (Hfid' : or_string (params_id check) (params_folderId check)
                    <> "") by now rewrite Hfid.
    destruct (verify_granted_iff check w1 d tok Hfid' Hd1 Hprot Htok
                (generateToken_truthy (random w))) as (Hiff & Hcases).
    assert (Hrows : folderAccessTokens w1
                    = folderAccessTokens w
                      ++ [mkToken tok (params_id req) (user req)
                            (clock w + 2 * 60 * 60 * 1000)])
      by exact Htokens.
    assert (Hwin : (exists a, fst (verifyFolderAccess check w1) = Next a)
                   <-> (t < clock w + 2 * 60 * 60 * 1000)%Z).
    { rewrite Hiff, Hrows. change (clock w1) with t. split.
      - intros (row & Hin & Ht & _ & _ & Hexp).
        apply in_app_or in Hin as [Hold | [<- | []]]; [|exact Hexp].
        apply (none_of _ _ _ Hfresh) in Hold.
        rewrite Ht, String.eqb_refl in Hold. discriminate.
      - intros Hlt. eexists. split; [apply in_or_app; right; left;
                                     reflexivity|].
        cbn. rewrite Hfid, Huser. auto. }
    split.
    + intros Hlt. now apply Hwin.
    + intros Hge. destruct Hcases as [Hyes | Hno]; [|exact Hno].
      apply Hwin in Hyes. lia.
  - intros check w0 d0 tk H1 H2 H3 H4 H5.
    now destruct (verify_granted_iff check w0 d0 tk H1 H2 H3 H4 H5).
Qed.

End TokenExpiry.

(* ===================================================================== *)
(** * The upload route *)
(* ===================================================================== *)

Section Upload.

Variable P : Platform.

Lemma lookup_app_some {A} (key : string) (l l' : list (string * A))
    (v : A) :
  lookup key l = Some v -> lookup key (l ++ l') = Some v.
Proof.
  induction l as [|[k x] l IH]; cbn; [discriminate|].
  destruct (String.eqb k key); auto.
Qed.

Lemma lookup_app_none {A} (key : string) (l l' : list (string * A)) :
  lookup key l = None -> lookup key (l ++ l') = lookup key l'.
Proof.
  induction l as [|[k x] l IH]; cbn; auto.
  destruct (String.eqb k key); [discriminate | auto].
Qed.

(** A storage upload keeps what the bucket holds, and what it stores under
    the path it returns is the buffer it was given. *)
Lemma supabase_upload_run (filePath : string) (data : Buffer.t)
    (w : world) :
  let r := supabase_upload (supabase_error P) filePath data w in
  trace (snd r) = trace w ++ [EvStorageUpload filePath data]
  /\ securityLogs (snd r) = securityLogs w
  /\ files (snd r) = files w
  /\ random (snd r) = random w
  /\ clock (snd r) = clock w
  /\ ids (snd r) = ids w
  /\ (forall p d, lookup p (bucket w) = Some d ->
                  lookup p (bucket (snd r)) = Some d)
  /\ (forall path, fst r = inr path ->
                   lookup path (bucket (snd r)) = Some data).
Proof.
  unfold supabase_upload. cbv zeta.
  destruct (supabase_error P (calls w)).
  { cbn. repeat split; auto. discriminate. }
  cbn [bucket emit tick].
  destruct (lookup filePath (bucket w)) eqn:E; cbn.
  { repeat split; auto. discriminate. }
  repeat split; auto.
  - intros p d H. now apply lookup_app_some.
  - intros path H. injection H as <-.
    rewrite lookup_app_none by assumption. cbn.
    now rewrite String.eqb_refl.
Qed.

Ltac trace_done :=
  cbn [trace emit tick set_random set_bucket set_files next_id
       prisma.file_create generateCover fst snd];
  rewrite <- ?app_assoc;
  first [ reflexivity | symmetry; apply app_nil_r ].

(** The body of the [try] block: its events, and what it leaves in the
    tables and in the bucket. *)
Lemma store_file_run (req : request) (mode : string)
    (password : option JS.json) (f : upload) (w : world) :
  let r := store_file P req mode password f w in
  exists evs,
    trace (snd r) = trace w ++ evs
    /\ Forall (upload_event f mode password) evs
    /\ securityLogs (snd r) = securityLogs w
    /\ files (snd r) = files w ++ rows_of (fst r)
    /\ (forall p d, lookup p (bucket w) = Some d ->
                    lookup p (bucket (snd r)) = Some d)
    /\ (String.eqb mode secure = false ->
        existsb is_wrap evs = false
        /\ forall row, fst r = inr (Uploaded row) ->
                       plain_row f mode (snd r) row).
Proof.
  unfold store_file. cbv zeta.
  destruct (startsWith "image/" (mimetype f)
            && negb (validateImage (buffer f))).
  { exists []. cbn. rewrite !app_nil_r.
    repeat split; auto; discriminate. }
  destruct (String.eqb mode secure) eqn:Emode.
  - apply String.eqb_eq in Emode.
    destruct (CryptoService.encryptFileForStorage _ _ _) as [[e|ef] g].
    { exists []. cbn. rewrite !app_nil_r.
      repeat split; auto; discriminate. }
    destruct (CryptoService.generateSalt _) as [salt g2].
    destruct (encryptFileKey_any _ _ _ _ _) as [[e|wk] g3].
    { exists [EvWrapKey (originalname f) password]. cbn.
      rewrite !app_nil_r.
      repeat split; auto; try discriminate.
      repeat constructor; auto. }
    destruct (JS.truthy_string (CryptoService.encryptedKeyBlob wk));
      cbn [negb].
    2: { exists [EvWrapKey (originalname f) password]. cbn.
         rewrite !app_nil_r.
         repeat split; auto; try discriminate.
         repeat constructor; auto. }
    unfold uploadEncryptedFile.
    match goal with
    | |- context [supabase_upload _ ?p ?d ?w1] =>
        pose proof (supabase_upload_run p d w1) as Hup;
        destruct (supabase_upload (supabase_error P) p d w1)
          as [[e|path] w2]
    end; cbv zeta in Hup; cbn [fst snd] in Hup;
      destruct Hup as (Htr & Hlog & Hfiles & _ & _ & _ & Hkeep & Hnew).
    + eexists. split.
      { cbn [JS.bind fst snd]. rewrite Htr. trace_done. }
      cbn [JS.bind fst snd rows_of]. rewrite Hlog, Hfiles, app_nil_r.
      repeat split; auto; try discriminate.
      repeat constructor; auto.
    + eexists. split.
      { cbn [JS.bind JS.ok fst snd trace emit tick set_random set_bucket
             set_files next_id prisma.file_create generateCover].
        rewrite Htr. trace_done. }
      cbn [JS.bind JS.ok fst snd rows_of].
      cbn. rewrite Hlog, Hfiles.
      repeat split; auto; try discriminate.
      repeat constructor; auto.
  - unfold uploadFile.
    match goal with
    | |- context [supabase_upload _ ?p ?d ?w1] =>
        pose proof (supabase_upload_run p d w1) as Hup;
        destruct (supabase_upload (supabase_error P) p d w1)
          as [[e|path] w2]
    end; cbv zeta in Hup; cbn [fst snd] in Hup;
      destruct Hup as (Htr & Hlog & Hfiles & _ & _ & _ & Hkeep & Hnew).
    + eexists. split.
      { cbn [JS.bind fst snd]. rewrite Htr. trace_done. }
      cbn [JS.bind fst snd rows_of]. rewrite Hlog, Hfiles, app_nil_r.
      repeat split; auto; try discriminate.
      repeat constructor; auto.
    + eexists. split.
      { cbn [JS.bind JS.ok fst snd trace emit tick set_random set_bucket
             set_files next_id prisma.file_create generateCover].
        rewrite Htr. trace_done. }
      cbn [JS.bind JS.ok fst snd rows_of].
      cbn. rewrite Hlog, Hfiles.
      split; [repeat constructor; auto|].
      do 3 (split; [solve [auto]|]).
      intros _. split; [reflexivity|].
      intros row H. injection H as <-.
      unfold plain_row. cbn. repeat split; auto.
Qed.

Lemma json_index_throws (v : JS.json) (i : nat) (e : JS.error) :
  json_index v i = inl e -> v = JS.JNull.
Proof.
  destruct v; cbn; try discriminate; auto.
Qed.

Lemma select_password_throws (mode : string) (passwords : JS.json)
    (i : nat) (e : JS.error) :
  select_password mode passwords i = inl e ->
  String.eqb mode secure = true /\ passwords = JS.JNull.
Proof.
  unfold select_password.
  destruct (String.eqb mode secure); [|discriminate].
  destruct passwords; cbn; try discriminate; auto.
  - destruct (String.get i s); cbn.
    + discriminate.
    + destruct (String.get 0 s); discriminate.
  - destruct (nth_error items i) as [v|]; cbn.
    + destruct (JS.truthy v); discriminate.
    + discriminate.
  - destruct (lookup (decimal i) fields) as [v|]; cbn.
    + destruct (JS.truthy v); discriminate.
    + discriminate.
Qed.

Lemma loop_throws_select (mode : string) (passwords coverTypes : JS.json)
    (i : nat) :
  loop_throws mode passwords coverTypes ->
  (exists e, select_password mode passwords i = inl e)
  \/ (exists e, json_index coverTypes i = inl e).
Proof.
  intros [[Hm ->] | ->].
  - left. unfold select_password, secure. rewrite Hm. cbn. eauto.
  - right. cbn. eauto.
Qed.

(** One turn of the loop: it throws before it does anything, or it
    processes the file under the password selected for its index. *)
Lemma process_file_run (req : request) (mode : string)
    (passwords coverTypes : JS.json) (i : nat) (f : upload) (w : world) :
  let r := process_file P req mode passwords coverTypes i f w in
  match fst r with
  | inl _ => snd r = w /\ loop_throws mode passwords coverTypes
  | inr p =>
      ~ loop_throws mode passwords coverTypes
      /\ exists password evs,
           select_password mode passwords i = inr password
           /\ trace (snd r) = trace w ++ evs
           /\ Forall (upload_event f mode password) evs
           /\ securityLogs (snd r) = securityLogs w
           /\ files (snd r) = files w ++ rows_of (inr p)
           /\ (forall q d, lookup q (bucket w) = Some d ->
                           lookup q (bucket (snd r)) = Some d)
           /\ (String.eqb mode secure = false ->
               existsb is_wrap evs = false
               /\ forall row, p = Uploaded row ->
                              plain_row f mode (snd r) row)
  end.
Proof.
  unfold process_file. cbv zeta.
  destruct (select_password mode passwords i) as [e|password] eqn:Esel.
  { cbn. split; auto. left. now apply select_password_throws in Esel. }
  destruct (json_index coverTypes i) as [e|c] eqn:Ecov.
  { cbn. split; auto. right. now apply json_index_throws in Ecov. }
  pose proof (store_file_run req mode password f w) as Hrun.
  cbv zeta in Hrun.
  destruct (store_file P req mode password f w) as [r w'].
  cbn [fst snd] in *.
  destruct Hrun as (evs & Htr & Hev & Hlog & Hfiles & Hkeep & Hplain).
  split.
  { intros Hth.
    destruct (loop_throws_select mode passwords coverTypes i Hth)
    as [(e & H) | (e & H)];
      congruence. }
  exists password, evs. repeat (split; [solve [auto]|]).
  split; [|split; [exact Hkeep|]].
  - rewrite Hfiles. destruct r as [e|[row|n m]]; reflexivity.
  - intros Hm. destruct (Hplain Hm) as (H1 & H2). split; auto.
    intros row Hrow. destruct r as [e|[row'|n m]]; try discriminate.
    apply H2. congruence.
Qed.

Lemma plain_row_kept (f : upload) (mode : string) (w w' : world)
    (row : file) :
  (forall q d, lookup q (bucket w) = Some d ->
               lookup q (bucket w') = Some d) ->
  plain_row f mode w row -> plain_row f mode w' row.
Proof.
  intros Hkeep (H1 & H2 & H3 & H4 & H5). repeat split; auto.
Qed.

Lemma uploadedFiles_cons (p : processed) (l : list processed) :
  uploadedFiles (p :: l) = rows_of (inr p) ++ uploadedFiles l.
Proof. destruct p; reflexivity. Qed.

(** The whole loop: it throws at its first turn, before any effect, or it
    runs to the end. *)
Lemma upload_loop_run (req : request) (mode : string)
    (passwords coverTypes : JS.json) :
  forall (todo : list upload) (i : nat) (done : list processed)
         (w : world),
    let r := upload_loop P req mode passwords coverTypes i todo done w in
    match fst r with
    | inl _ => snd r = w /\ loop_throws mode passwords coverTypes
    | inr all =>
        exists news evs,
          all = done ++ news
          /\ trace (snd r) = trace w ++ evs
          /\ Forall (loop_event mode passwords i todo) evs
          /\ securityLogs (snd r) = securityLogs w
          /\ files (snd r) = files w ++ uploadedFiles news
          /\ (forall q d, lookup q (bucket w) = Some d ->
                          lookup q (bucket (snd r)) = Some d)
          /\ (String.eqb mode secure = false ->
              existsb is_wrap evs = false
              /\ Forall (fun row => exists f, In f todo
                                     /\ plain_row f mode (snd r) row)
                   (uploadedFiles news))
    end.
Proof.
  induction todo as [|f rest IH]; intros i done w; cbv zeta.
  { cbn. exists [], []. rewrite !app_nil_r.
    repeat split; auto; constructor. }
  cbn [upload_loop].
  pose proof (process_file_run req mode passwords coverTypes i f w) as H1.
  cbv zeta in H1.
  destruct (process_file P req mode passwords coverTypes i f w)
    as [[e|p] w1]; cbn [fst snd] in H1.
  { cbn. exact H1. }
  destruct H1 as (Hno & password & evs1 & Hsel & Htr1 & Hev1 & Hlog1
                  & Hfiles1 & Hkeep1 & Hplain1).
  specialize (IH (S i) (done ++ [p]) w1). cbv zeta in IH.
  destruct (upload_loop P req mode passwords coverTypes (S i) rest
              (done ++ [p]) w1) as [[e|all] w2]; cbn [fst snd] in *.
  { destruct IH as (_ & Hth). contradiction. }
  destruct IH as (news & evs2 & Hall & Htr2 & Hev2 & Hlog2 & Hfiles2
                  & Hkeep2 & Hplain2).
  exists (p :: news), (evs1 ++ evs2).
  split. { rewrite Hall, <- app_assoc. reflexivity. }
  split. { rewrite Htr2, Htr1, app_assoc. reflexivity. }
  split.
  { apply Forall_app. split.
    - eapply Forall_impl; [|exact Hev1].
      intros e He. exists 0, f, password. rewrite Nat.add_0_r. auto.
    - eapply Forall_impl; [|exact Hev2].
      intros e (k & f' & pw & Hk & Hs & He).
      exists (S k), f', pw. rewrite Nat.add_succ_r. auto. }
  split. { congruence. }
  split. { rewrite Hfiles2, Hfiles1, uploadedFiles_cons, app_assoc.
           reflexivity. }
  split. { auto. }
  intros Hm. destruct (Hplain1 Hm) as (Hw1 & Hrow1).
  destruct (Hplain2 Hm) as (Hw2 & Hrows2).
  split. { rewrite existsb_app, Hw1, Hw2. reflexivity. }
  rewrite uploadedFiles_cons. apply Forall_app. split.
  - destruct p as [row|n m]; cbn; constructor; [|constructor].
    exists f. split; [now left|].
    apply (plain_row_kept f mode w1 w2 row Hkeep2). now apply Hrow1.
  - eapply Forall_impl; [|exact Hrows2].
    intros row (f' & Hin & Hrow). exists f'. split; [now right | exact Hrow].
Qed.

(** A run of the upload handler: a rejection with status 400 and nothing
    else; an exception before any effect; or the loop, then the log, then
    the response 201. *)
Lemma upload_files_run (req : request) (w : world) :
  let r := upload_files P req w in
  (exists v,
     r = (Sent (mkResponse 400 (Json v)),
          emit (EvResponse (mkResponse 400 (Json v))) w))
  \/ (exists e, fst r = Thrown e /\ snd r = w)
  \/ (exists todo passwords done evs row resp,
        let mode := or_default (body_uploadMode req) secure in
        req_files req = Some todo
        /\ (if String.eqb mode secure
            then JSON_parse P (or_default (body_passwords req) "[]")
                 = inr passwords
                 /\ secureUploadSchema_validate P passwords = None
                 /\ json_length passwords = Some (List.length todo)
            else passwords = JS.JArr [])
        /\ trace (snd r)
           = trace w ++ evs ++ [EvSecurityLog row; EvResponse resp]
        /\ Forall (loop_event mode passwords 0 todo) evs
        /\ fst r = Sent resp /\ status resp = 201
        /\ action row = "file_upload"
        /\ securityLogs (snd r) = securityLogs w ++ [row]
        /\ files (snd r) = files w ++ uploadedFiles done
        /\ (String.eqb mode secure = false ->
            existsb is_wrap evs = false
            /\ Forall (fun row => exists f, In f todo
                                   /\ plain_row f mode (snd r) row)
                 (uploadedFiles done))).
Proof.
  unfold upload_files. cbv zeta.
  destruct (req_files req) as [[|f0 rest]|] eqn:Efiles;
    [left; eexists; reflexivity | | left; eexists; reflexivity].
  set (todo := f0 :: rest) in *.
  set (mode := or_default (body_uploadMode req) secure).
  destruct (String.eqb mode secure) eqn:Emode.
  - destruct (JSON_parse P (or_default (body_passwords req) "[]"))
      as [e|passwords] eqn:Epw; [left; eexists; reflexivity|].
    destruct (JSON_parse P (or_default (body_coverTypes req) "[]"))
      as [e|coverTypes]; [left; eexists; reflexivity|].
    destruct (secureUploadSchema_validate P passwords) as [details|] eqn:Ev;
      [left; eexists; reflexivity|].
    destruct (json_length passwords) as [n|] eqn:En;
      [|left; eexists; reflexivity].
    destruct (Nat.eqb n (List.length todo)) eqn:Hn; cbn [negb];
      [|left; eexists; reflexivity].
    apply Nat.eqb_eq in Hn. subst n.
    right.
    pose proof (upload_loop_run req mode passwords coverTypes todo 0 [] w)
      as Hrun. cbv zeta in Hrun.
    destruct (upload_loop P req mode passwords coverTypes 0 todo [] w)
      as [[e|all] w1]; cbn [fst snd] in Hrun.
    { left. exists e. cbn. split; [reflexivity | apply Hrun]. }
    destruct Hrun as (news & evs & Hall & Htr & Hev & Hlog & Hfiles
                      & Hkeep & Hplain).
    cbn [app] in Hall. subst all.
    right. exists todo, passwords, news, evs. eexists. eexists.
    cbv zeta.
    split; [reflexivity|]. split; [auto|].
    split. { cbn. rewrite Htr, <- !app_assoc. reflexivity. }
    split; [exact Hev|]. split; [reflexivity|]. split; [reflexivity|].
    split; [reflexivity|]. split. { cbn. now rewrite Hlog. }
    split. { exact Hfiles. }
    discriminate.
  - destruct (JSON_parse P (or_default (body_coverTypes req) "[]"))
      as [e|coverTypes]; [left; eexists; reflexivity|].
    right. unfold JS.ok. cbv beta iota.
    pose proof (upload_loop_run req mode (JS.JArr []) coverTypes todo 0
                  [] w) as Hrun. cbv zeta in Hrun.
    destruct (upload_loop P req mode (JS.JArr []) coverTypes 0 todo [] w)
      as [[e|all] w1]; cbn [fst snd] in Hrun.
    { left. exists e. cbn. split; [reflexivity | apply Hrun]. }
    destruct Hrun as (news & evs & Hall & Htr & Hev & Hlog & Hfiles
                      & Hkeep & Hplain).
    cbn [app] in Hall. subst all.
    right. exists todo, (JS.JArr []), news, evs. eexists. eexists.
    cbv zeta.
    split; [reflexivity|]. split; [reflexivity|].
    split. { cbn. rewrite Htr, <- !app_assoc. reflexivity. }
    split; [exact Hev|]. split; [reflexivity|]. split; [reflexivity|].
    split; [reflexivity|]. split. { cbn. now rewrite Hlog. }
    split. { exact Hfiles. }
    intros _. now apply Hplain.
Qed.

End Upload.

(* ===================================================================== *)
(** * Unwrap failures, the audit trail and the password count *)
(* ===================================================================== *)

Section Handlers.

Variable P : Platform.

(** C3. Whenever the key-unwrap route calls [decryptFileKey] and the call
    fails, whatever the error, the response is status 401 with the body
    [{ error: 'Invalid password', success: false }]. *)
Theorem unwrap_failure_uniform (req : request) (w : world)
    (blob : option string) (password : string) (saltBase64 : option string)
    (e : JS.error) :
  In (EvUnwrapKey blob password saltBase64)
     (events_of w (snd (decrypt_key P req w))) ->
  CryptoService.decryptFileKey (node P) blob password saltBase64 = inl e ->
  fst (decrypt_key P req w)
  = Sent (mkResponse 401
            (Json (JS.JObj [("error", JS.JStr "Invalid password");
                            ("success", JS.JBool false)]))).
Proof.
  intros Hin Hfail.
  destruct (decrypt_key_run P req w)
    as (evs & Htr & [(Hno & _)
                    | (pre & f & row & r & Hevs & Hpre & Hfst & _ & _
                       & Hres)]);
    rewrite (events_of_app _ _ _ Htr) in Hin.
  - apply (none_of is_unwrap _ _ Hno) in Hin. discriminate.
  - rewrite Hevs in Hin. apply in_app_or in Hin as [Hin | Hin].
    + apply (none_of is_unwrap _ _ Hpre) in Hin. discriminate.
    + destruct Hin as [E | [E | [E | []]]]; try discriminate.
      injection E as <- <- <-. rewrite Hfail in Hres.
      destruct Hres as (_ & ->). exact Hfst.
Qed.

Lemma select_password_own (passwords : JS.json) (todo : list upload)
    (k : nat) (f : upload) :
  secureUploadSchema_validate P passwords = None ->
  json_length passwords = Some (List.length todo) ->
  nth_error todo k = Some f ->
  exists items s,
    passwords = JS.JArr items
    /\ List.length items = List.length todo
    /\ nth_error items k = Some (JS.JStr s)
    /\ select_password secure passwords k = inr (Some (JS.JStr s)).
Proof.
  intros Hv Hlen Hk.
  unfold secureUploadSchema_validate in Hv.
  destruct passwords as [| | | |items|]; try discriminate.
  destruct items as [|item items]; [discriminate|].
  destruct (forallb min4 (item :: items)) eqn:Hall; [|discriminate].
  cbn [json_length] in Hlen. injection Hlen as Hlen.
  assert (Hlt : k < List.length todo).
  { apply nth_error_Some. congruence. }
  destruct (nth_error (item :: items) k) as [v|] eqn:Ev.
  2: { apply nth_error_None in Ev. cbn [List.length] in *. lia. }
  rewrite forallb_forall in Hall.
  pose proof (Hall v (nth_error_In _ _ Ev)) as Hmin.
  destruct v as [| | |s| |]; try discriminate.
  exists (item :: items), s. repeat split; auto.
  unfold select_password, secure. rewrite String.eqb_refl.
  cbn [json_index JS.bind JS.ok]. rewrite Ev.
  destruct s as [|c s]; [discriminate|]. reflexivity.
Qed.

(** C4 (amended). Every run of the key-unwrap route that calls
    [decryptFileKey] writes a [file_unlock_attempt] record, whose success
    flag tells whether the call returned, and then responds; every upload
    request in which a key is wrapped writes a [file_upload] record after
    the wraps and then responds; and a verification that
    [verifyFolderAccess] grants writes no record to the security log. *)
Theorem audit_before_response (req : request) (w : world) :
  (forall blob password saltBase64,
     In (EvUnwrapKey blob password saltBase64)
        (events_of w (snd (decrypt_key P req w))) ->
     exists pre row r,
       events_of w (snd (decrypt_key P req w))
       = pre ++ [EvUnwrapKey blob password saltBase64;
                 EvSecurityLog row; EvResponse r]
       /\ fst (decrypt_key P req w) = Sent r
       /\ action row = "file_unlock_attempt"
       /\ (success row = true
           <-> exists fileKey,
                 CryptoService.decryptFileKey (node P) blob password
                   saltBase64 = inr fileKey)
       /\ securityLogs (snd (decrypt_key P req w))
          = securityLogs w ++ [row])
  /\ (forall filename password,
        In (EvWrapKey filename password)
           (events_of w (snd (upload_files P req w))) ->
        exists pre row r,
          events_of w (snd (upload_files P req w))
          = pre ++ [EvSecurityLog row; EvResponse r]
          /\ In (EvWrapKey filename password) pre
          /\ fst (upload_files P req w) = Sent r
          /\ status r = 201
          /\ action row = "file_upload"
          /\ securityLogs (snd (upload_files P req w))
             = securityLogs w ++ [row])
  /\ (forall granted,
        fst (verifyFolderAccess req w) = Next granted ->
        securityLogs (snd (verifyFolderAccess req w)) = securityLogs w
        /\ forall row,
             ~ In (EvSecurityLog row)
                 (events_of w (snd (verifyFolderAccess req w)))).
Proof.
  split; [|split].
  - intros blob password saltBase64 Hin.
    destruct (decrypt_key_run P req w)
      as (evs & Htr & [(Hno & _)
                      | (pre & f & row & r & Hevs & Hpre & Hfst & Hlog
                         & Hact & Hres)]);
      rewrite (events_of_app _ _ _ Htr) in *.
    { apply (none_of is_unwrap _ _ Hno) in Hin. discriminate. }
    rewrite Hevs in Hin. apply in_app_or in Hin as [Hin | Hin].
    { apply (none_of is_unwrap _ _ Hpre) in Hin. discriminate. }
    destruct Hin as [E | [E | [E | []]]]; try discriminate.
    injection E as <- <- <-.
    exists pre, row, r. repeat (split; [solve [auto]|]).
    split; [|exact Hlog].
    destruct (CryptoService.decryptFileKey _ _ _ _) as [e|k].
    + destruct Hres as (Hs & _). rewrite Hs.
      split; [discriminate | intros (k & H); discriminate].
    + destruct Hres as (Hs & _). rewrite Hs. split; eauto.
  - intros filename password Hin.
    destruct (upload_files_run P req w)
      as [(v & Hrun) | [(e & Hthrown & Hw)
                       | (todo & passwords & done & evs & row & resp
                          & _ & _ & Htr & _ & Hfst & Hst & Hact & Hlog
                          & _)]].
    + rewrite Hrun in Hin. cbn [snd] in Hin.
      rewrite (events_of_app w _ [EvResponse (mkResponse 400 (Json v))])
        in Hin by reflexivity.
      destruct Hin as [E | []]. discriminate.
    + rewrite Hw, events_of_refl in Hin. destruct Hin.
    + rewrite (events_of_app _ _ _ Htr) in *.
      exists evs, row, resp. repeat split; auto.
      apply in_app_or in Hin as [Hin | [E | [E | []]]];
        [exact Hin | discriminate | discriminate].
  - intros granted _.
    destruct (verifyFolderAccess_run req w) as (evs & Htr & Hno & Hlog).
    split; [exact Hlog|].
    intros row Hin. rewrite (events_of_app _ _ _ Htr) in Hin.
    apply (none_of is_log _ _ Hno) in Hin. discriminate.
Qed.

(** C9. In secure mode a request whose passwords are not as many as its
    files is answered with status 400 and has no other effect; and in
    every run, each key wrap is made for a file of the request under the
    password found at that file's own index. *)
Theorem password_count_enforced (req : request) (w : world)
    (todo : list upload) :
  req_files req = Some todo ->
  (forall passwords,
     or_default (body_uploadMode req) "secure" = "secure" ->
     JSON_parse P (or_default (body_passwords req) "[]") = inr passwords ->
     json_length passwords <> Some (List.length todo) ->
     exists v,
       upload_files P req w
       = (Sent (mkResponse 400 (Json v)),
          emit (EvResponse (mkResponse 400 (Json v))) w))
  /\ (forall filename password,
        In (EvWrapKey filename password)
           (events_of w (snd (upload_files P req w))) ->
        exists k f items s,
          nth_error todo k = Some f
          /\ filename = originalname f
          /\ JSON_parse P (or_default (body_passwords req) "[]")
             = inr (JS.JArr items)
          /\ List.length items = List.length todo
          /\ nth_error items k = Some (JS.JStr s)
          /\ password = Some (JS.JStr s)).
Proof.
  intros Hfiles. split.
  - intros passwords Hmode Hparse Hlen.
    unfold upload_files. rewrite Hfiles.
    destruct todo as [|f0 rest]; [eexists; reflexivity|].
    unfold secure. rewrite Hmode. cbn [String.eqb Ascii.eqb Bool.eqb].
    cbv beta iota. rewrite Hparse.
    destruct (JSON_parse P (or_default (body_coverTypes req) "[]"));
      [eexists; reflexivity|].
    destruct (secureUploadSchema_validate P passwords);
      [eexists; reflexivity|].
    destruct (json_length passwords) as [n|];
      [|eexists; reflexivity].
    destruct (Nat.eqb n (List.length (f0 :: rest))) eqn:En.
    { apply Nat.eqb_eq in En. congruence. }
    eexists. reflexivity.
  - intros filename password Hin.
    destruct (upload_files_run P req w)
      as [(v & Hrun) | [(e & Hthrown & Hw)
                       | (todo' & passwords & done & evs & row & resp
                          & Htodo & Hpw & Htr & Hev & _)]].
    + rewrite Hrun in Hin. cbn [snd] in Hin.
      rewrite (events_of_app w _ [EvResponse (mkResponse 400 (Json v))])
        in Hin by reflexivity.
      destruct Hin as [E | []]. discriminate.
    + rewrite Hw, events_of_refl in Hin. destruct Hin.
    + rewrite (events_of_app _ _ _ Htr) in Hin.
      rewrite Hfiles in Htodo. injection Htodo as <-.
      apply in_app_or in Hin as [Hin | [E | [E | []]]];
        [| discriminate | discriminate].
      rewrite Forall_forall in Hev.
      destruct (Hev _ Hin) as (k & f & pw & Hk & Hsel & Hup).
      cbn in Hup. destruct Hup as (-> & -> & Hmode).
      cbv zeta in Hpw. rewrite Hmode in Hpw, Hsel.
      change (String.eqb "secure" secure) with true in Hpw.
      destruct Hpw as (Hparse & Hvalid & Hlen).
      destruct (select_password_own passwords todo k f Hvalid Hlen Hk)
        as (items & s & -> & Hlen' & Hnth & Hown).
      cbn [Nat.add] in Hsel. fold secure in Hsel.
      rewrite Hown in Hsel. injection Hsel as <-.
      exists k, f, items, s. repeat split; auto.
Qed.

End Handlers.

(* ===================================================================== *)
(** * The folder token check on the file routes *)
(* ===================================================================== *)

Section FileRoutes.

Variable P : Platform.

(** On a protected folder the key-unwrap route looks the token up before
    anything else, and stops with status 403 when no row matches. *)
Lemma decrypt_key_gated (req : request) (w : world) (f : file)
    (d : folder) :
  or_default (body_password req) "" <> "" ->
  prisma.file_findFirst (params_id req) (user req) w = Some f ->
  prisma.file_folder f w = Some d ->
  isProtected d = true ->
  find (prisma.token_matches (or_default (x_folder_token req) "")
          (folder_id d) (user req) (clock w)) (folderAccessTokens w)
  = None ->
  exists v evs,
    fst (decrypt_key P req w) = Sent (mkResponse 403 (Json v))
    /\ trace (snd (decrypt_key P req w)) = trace w ++ evs
    /\ existsb is_unwrap evs = false
    /\ files (snd (decrypt_key P req w)) = files w
    /\ securityLogs (snd (decrypt_key P req w)) = securityLogs w.
Proof.
  intros Hpw Hf Hd Hprot Hnone. unfold decrypt_key.
  destruct (or_default (body_password req) "") as [|c pw] eqn:Epw;
    [congruence|]. cbn [JS.truthy_string negb].
  rewrite Hf, Hd, Hprot.
  destruct (JS.truthy_string (or_default (x_folder_token req) ""));
    cbn [negb].
  - unfold prisma.folderAccessToken_findFirst. rewrite Hnone.
    eexists. eexists. split; [reflexivity|].
    split; [apply trace_respond, trace_emit, trace_start|].
    repeat split; reflexivity.
  - eexists. eexists. split; [reflexivity|].
    split; [apply trace_respond, trace_start|].
    repeat split; reflexivity.
Qed.

(** So does the route of the encrypted blob. *)
Lemma get_encrypted_gated (req : request) (w : world) (f : file)
    (d : folder) :
  prisma.file_findFirst (params_id req) (user req) w = Some f ->
  prisma.file_folder f w = Some d ->
  isProtected d = true ->
  find (prisma.token_matches (or_default (x_folder_token req) "")
          (folderId f) (user req) (clock w)) (folderAccessTokens w)
  = None ->
  exists v evs,
    fst (get_encrypted P req w) = Sent (mkResponse 403 (Json v))
    /\ trace (snd (get_encrypted P req w)) = trace w ++ evs
    /\ existsb is_download evs = false.
Proof.
  intros Hf Hd Hprot Hnone. unfold get_encrypted.
  rewrite Hf, Hd, Hprot.
  destruct (JS.truthy_string (or_default (x_folder_token req) ""));
    cbn [negb].
  - unfold prisma.folderAccessToken_findFirst. rewrite Hnone.
    eexists. eexists. split; [reflexivity|].
    split; [apply trace_respond, trace_emit, trace_start|].
    reflexivity.
  - eexists. eexists. split; [reflexivity|].
    split; [apply trace_respond, trace_start|].
    reflexivity.
Qed.

(** The delete route reads neither the folder nor the token: whenever the
    file is found it deletes it. *)
Lemma delete_file_run (req : request) (w : world) (f : file) :
  prisma.file_findFirst (params_id req) (user req) w = Some f ->
  fst (delete_file P req w)
  = Sent (mkResponse 200
            (Json (JS.JObj
               [("message", JS.JStr "File deleted successfully")])))
  /\ files (snd (delete_file P req w))
     = filter (fun x => negb (String.eqb (file_id x) (params_id req)))
         (files w)
  /\ events_of w (snd (delete_file P req w))
     = [EvStorageDelete (storagePath f); EvStorageDelete (coverPath f);
        EvFileDelete (params_id req);
        EvResponse
          (mkResponse 200
             (Json (JS.JObj
                [("message", JS.JStr "File deleted successfully")])))].
Proof.
  intros Hf. unfold delete_file. rewrite Hf.
  unfold deleteFile. cbv zeta.
  destruct (supabase_error P (calls w));
    cbn [calls emit tick set_bucket];
    destruct (supabase_error P (S (calls w)));
    (split; [reflexivity|]; split; [reflexivity|];
     apply events_of_app; cbn; rewrite <- !app_assoc; reflexivity).
Qed.

(** The rows a plain-mode upload adds hold no KeyBlob and no salt, carry
    the mode of the request, and point at the unchanged payload of one of
    its files. *)
Lemma plain_upload_rows (req : request) (w : world) (todo : list upload) :
  req_files req = Some todo ->
  or_default (body_uploadMode req) "secure" = "normal" ->
  exists rows,
    files (snd (upload_files P req w)) = files w ++ rows
    /\ Forall (fun row =>
                 encryptedKeyBlob row = None /\ salt row = None
                 /\ uploadMode row = "normal"
                 /\ exists f, In f todo
                              /\ originalName row = originalname f
                              /\ lookup (storagePath row)
                                   (bucket (snd (upload_files P req w)))
                                 = Some (buffer f)) rows
    /\ existsb is_wrap (events_of w (snd (upload_files P req w))) = false.
Proof.
  intros Hfiles Hmode.
  destruct (upload_files_run P req w)
    as [(v & Hrun) | [(e & Hthrown & Hw)
                     | (todo' & passwords & done & evs & row & resp
                        & Htodo & _ & Htr & _ & _ & _ & _ & _ & Hrows
                        & Hplain)]].
  - exists []. rewrite Hrun. cbn [snd]. split; [cbn; now rewrite app_nil_r|].
    split; [constructor|].
    now rewrite (events_of_app w _ [EvResponse (mkResponse 400 (Json v))]).
  - exists []. rewrite Hw, events_of_refl, app_nil_r. repeat constructor.
  - cbv zeta in Hplain. unfold secure in Hplain. rewrite Hmode in Hplain.
    destruct (Hplain eq_refl) as (Hnowrap & Hall).
    rewrite Hfiles in Htodo. injection Htodo as <-.
    exists (uploadedFiles done). split; [exact Hrows|]. split.
    + eapply Forall_impl; [|exact Hall].
      intros r (f & Hin & H1 & H2 & H3 & H4 & H5). eauto 10.
    + rewrite (events_of_app _ _ _ Htr), existsb_app, Hnowrap.
      reflexivity.
Qed.

End FileRoutes.

(* ===================================================================== *)
(** * Runs on the reference platform *)
(* ===================================================================== *)

(** C1, the failing run. The folder is protected and nobody holds a token
    for it, yet [DELETE /:id] without a token removes the file from the
    storage and from the table: the route makes no token lookup. *)
Theorem delete_without_folder_token :
  let req := Reference.request_for "f1" None None in
  let r := delete_file Reference.platform req Reference.locked_world in
  prisma.file_folder Reference.plain_file Reference.locked_world
  = Some Reference.vault
  /\ isProtected Reference.vault = true
  /\ folderAccessTokens Reference.locked_world = []
  /\ fst r
     = Sent (mkResponse 200
               (Json (JS.JObj
                  [("message", JS.JStr "File deleted successfully")])))
  /\ files (snd r) = []
  /\ bucket (snd r) = []
  /\ trace (snd r)
     = [EvStorageDelete "normal/1-normal/4-cat.png";
        EvStorageDelete "https://images.unsplash.com/photo-1";
        EvFileDelete "f1";
        EvResponse
          (mkResponse 200
             (Json (JS.JObj
                [("message", JS.JStr "File deleted successfully")])))].
Proof. cbv zeta. repeat split; reflexivity. Qed.

(** C3, on the reference platform: a wrong password. *)
Lemma unwrap_failure_uniform_witness :
  fst (decrypt_key Reference.platform
         (Reference.request_for "f2" None (Some "wrong-password"))
         Reference.open_world)
  = Sent (mkResponse 401
            (Json (JS.JObj [("error", JS.JStr "Invalid password");
                            ("success", JS.JBool false)]))).
Proof.
  apply (unwrap_failure_uniform Reference.platform _ _
           (Some Reference.wrapped) "wrong-password"
           (Some (Buffer.toString_base64 Reference.salt_bytes))
           (JS.Error
              ("File key decryption failed: "
               ++ "Unsupported state or unable to authenticate data"))).
  - vm_compute. left. reflexivity.
  - vm_compute. reflexivity.
Defined.

(** C4, on the reference platform: the failed unwrap is logged before the
    response. *)
Lemma audit_before_response_witness :
  let req := Reference.request_for "f2" None (Some "wrong-password") in
  let r := decrypt_key Reference.platform req Reference.open_world in
  exists pre row resp,
    events_of Reference.open_world (snd r)
    = pre ++ [EvUnwrapKey (Some Reference.wrapped) "wrong-password"
                (Some (Buffer.toString_base64 Reference.salt_bytes));
              EvSecurityLog row; EvResponse resp]
    /\ fst r = Sent resp
    /\ action row = "file_unlock_attempt".
Proof.
  cbv zeta.
  destruct (proj1 (audit_before_response Reference.platform
                     (Reference.request_for "f2" None
                        (Some "wrong-password"))
                     Reference.open_world)
              (Some Reference.wrapped) "wrong-password"
              (Some (Buffer.toString_base64 Reference.salt_bytes)))
    as (pre & row & resp & H1 & H2 & H3 & _).
  - vm_compute. left. reflexivity.
  - exists pre, row, resp. auto.
Defined.

(** C4, counterexample: a verification denied for want of a token adds no
    record to the security log, and neither does the verification of the
    token that an unlock has just issued. *)
Lemma verify_without_log :
  let denied := verifyFolderAccess (Reference.request_for "vault" None None)
                  Reference.locked_world in
  let unlocked := snd (unlock Reference.platform
                         (Reference.request_for "vault" None (Some "open"))
                         Reference.locked_world) in
  let tok := "AAAAAAAAAAAAAAAAAAAAAAAAAAAAAAAAAAAAAAAAAAA" in
  let granted := verifyFolderAccess
                   (Reference.request_for "vault" (Some tok) None)
                   unlocked in
  fst denied
  = Sent (mkResponse 403
            (Json (JS.JObj
               [("error", JS.JStr "Folder access token required");
                ("requiresFolderPassword", JS.JBool true)])))
  /\ securityLogs (snd denied) = []
  /\ trace (snd denied)
     = [EvResponse
          (mkResponse 403
             (Json (JS.JObj
                [("error", JS.JStr "Folder access token required");
                 ("requiresFolderPassword", JS.JBool true)])))]
  /\ fst granted
     = Next (Reference.vault,
             Some (mkToken tok "vault" Reference.alice 7201000))
  /\ securityLogs (snd granted) = securityLogs unlocked
  /\ events_of unlocked (snd granted)
     = [EvTokenLookup tok "vault" Reference.alice 1000 true].
Proof. cbv zeta. repeat split; reflexivity. Qed.

(** C5, on the reference platform: a token issued at 1000 is granted at
    7200999 and denied at 7201000. *)
Lemma token_expiry_witness :
  let req := Reference.request_for "vault" None (Some "open") in
  let w := snd (unlock Reference.platform req Reference.locked_world) in
  exists tok,
    (exists a,
       fst (verifyFolderAccess (Reference.request_for "vault" (Some tok) None)
              (set_clock 7200999 w)) = Next a)
    /\ fst (verifyFolderAccess (Reference.request_for "vault" (Some tok) None)
              (set_clock 7201000 w))
       = Sent (mkResponse 403
                 (Json (JS.JObj
                    [("error",
                      JS.JStr "Invalid or expired folder access token");
                     ("requiresFolderPassword", JS.JBool true)]))).
Proof.
  cbv zeta.
  destruct (token_expiry Reference.platform
              (Reference.request_for "vault" None (Some "open"))
              Reference.locked_world
              (JS.JObj
                 [("message", JS.JStr "Folder unlocked successfully");
                  ("accessToken",
                   JS.JStr "AAAAAAAAAAAAAAAAAAAAAAAAAAAAAAAAAAAAAAAAAAA");
                  ("expiresAt", JS.JStr "7201000")]))
    as (tok & _ & _ & Hwin & _).
  - discriminate.
  - reflexivity.
  - exists tok.
    destruct (Hwin (Reference.request_for "vault" (Some tok) None) 7200999%Z
                eq_refl eq_refl eq_refl) as (Hyes & _).
    destruct (Hwin (Reference.request_for "vault" (Some tok) None) 7201000%Z
                eq_refl eq_refl eq_refl) as (_ & Hno).
    split; [apply Hyes | apply Hno]; cbn; lia.
Defined.

(** C8, the failing run. A file uploaded in plain mode is stored with no
    KeyBlob and no salt, and [POST /:id/decrypt-key] on it still calls
    [decryptFileKey], records a failed unlock attempt and answers 'Invalid
    password'. *)
Theorem plain_file_unwrap_attempted :
  let w := snd (upload_files Reference.platform
                  (Reference.upload_request "normal" None [Reference.png])
                  Reference.open_world) in
  let r := decrypt_key Reference.platform
             (Reference.request_for "row2" None (Some "abcd")) w in
  (exists row,
     files w = files Reference.open_world ++ [row]
     /\ file_id row = "row2" /\ uploadMode row = "normal"
     /\ encryptedKeyBlob row = None /\ salt row = None
     /\ lookup (storagePath row) (bucket w)
        = Some (buffer Reference.png))
  /\ fst r
     = Sent (mkResponse 401
               (Json (JS.JObj [("error", JS.JStr "Invalid password");
                               ("success", JS.JBool false)])))
  /\ exists row,
       events_of w (snd r)
       = [EvUnwrapKey None "abcd" None; EvSecurityLog row;
          EvResponse
            (mkResponse 401
               (Json (JS.JObj [("error", JS.JStr "Invalid password");
                               ("success", JS.JBool false)])))]
       /\ action row = "file_unlock_attempt" /\ success row = false.
Proof.
  cbv zeta. split; [|split].
  - eexists. vm_compute. repeat split; reflexivity.
  - vm_compute. reflexivity.
  - eexists. vm_compute. repeat split; reflexivity.
Qed.

(** C9, on the reference platform: one password for two files. *)
Lemma password_count_enforced_witness :
  let req := Reference.upload_request "secure" (Some "abcd")
               [Reference.png; Reference.jpg] in
  exists v,
    upload_files Reference.platform req Reference.open_world
    = (Sent (mkResponse 400 (Json v)),
       emit (EvResponse (mkResponse 400 (Json v))) Reference.open_world).
Proof.
  cbv zeta.
  refine (proj1 (password_count_enforced Reference.platform
                   (Reference.upload_request "secure" (Some "abcd")
                      [Reference.png; Reference.jpg])
                   Reference.open_world [Reference.png; Reference.jpg]
                   eq_refl)
            (JS.JArr [JS.JStr "abcd"]) eq_refl eq_refl _).
  discriminate.
Defined.

(* ===================================================================== *)
(** * Tokens *)
(* ===================================================================== *)

Section Tokens.

Lemma digit_url_safe (v : N) :
  (v < 64)%N -> url_safe (Buffer.digit Buffer.alphabet_url v) = true.
Proof.
  intros Hv.
  assert (H : forallb (fun n => url_safe (Buffer.digit Buffer.alphabet_url
                                            (N.of_nat n))) (seq 0 64)
              = true) by (vm_compute; reflexivity).
  rewrite forallb_forall in H.
  specialize (H (N.to_nat v)). rewrite N2Nat.id in H.
  apply H, in_seq. lia.
Qed.

Lemma encode_url_safe (buf : Buffer.t) :
  forallb url_safe (Buffer.encode Buffer.alphabet_url false buf) = true.
Proof.
  induction buf as [|a|a b|a b c rest IH] using triples_ind.
  - reflexivity.
  - pose proof (to_N_lt a) as Ha.
    destruct (sextets_bounds _ _ _ Ha Ha Ha) as (S0 & _ & _ & _ & S1 & _).
    cbn [Buffer.encode Buffer.sextets1 map app forallb].
    now rewrite !digit_url_safe.
  - pose proof (to_N_lt a) as Ha. pose proof (to_N_lt b) as Hb.
    destruct (sextets_bounds _ _ _ Ha Hb Hb) as (S0 & S1 & _ & _ & _ & S2).
    cbn [Buffer.encode Buffer.sextets2 map app forallb].
    now rewrite !digit_url_safe.
  - pose proof (to_N_lt a) as Ha. pose proof (to_N_lt b) as Hb.
    pose proof (to_N_lt c) as Hc.
    destruct (sextets_bounds _ _ _ Ha Hb Hc) as (S0 & S1 & S2 & S3 & _).
    cbn [Buffer.encode Buffer.sextets3 map app forallb].
    now rewrite !digit_url_safe, IH.
Qed.

Lemma encode_length (table : list ascii) (buf : Buffer.t) :
  List.length (Buffer.encode table false buf)
  = (4 * List.length buf + 2) / 3.
Proof.
  induction buf as [|a|a b|a b c rest IH] using triples_ind;
    try reflexivity.
  cbn [Buffer.encode Buffer.sextets3 map app List.length].
  rewrite IH.
  replace (4 * S (S (S (List.length rest))) + 2)
    with ((4 * List.length rest + 2) + 4 * 3) by lia.
  rewrite Nat.div_add by lia. lia.
Qed.

Lemma string_length_of_list (l : list ascii) :
  String.length (string_of_list_ascii l) = List.length l.
Proof. induction l; cbn; congruence. Qed.

(** X1. A folder access token is a string of 43 characters, each of them a
    letter, a digit, [-] or [_]; it is made of the next 32 bytes of the
    random source and of nothing else. *)
Theorem generateToken_shape (g : rng) :
  let tok := fst (CryptoService.generateToken g) in
  String.length tok = 43
  /\ forallb url_safe (list_ascii_of_string tok) = true
  /\ tok = Buffer.toString_base64url (map (stream g) (seq (cursor g) 32))
  /\ cursor (snd (CryptoService.generateToken g)) = cursor g + 32
  /\ stream (snd (CryptoService.generateToken g)) = stream g.
Proof.
  unfold CryptoService.generateToken, randomBytes. cbn [fst snd cursor stream].
  unfold Buffer.toString_base64url.
  rewrite string_length_of_list, list_ascii_of_string_of_list_ascii,
    encode_length, length_map, length_seq.
  repeat split; auto using encode_url_safe.
Qed.

End Tokens.

(* ===================================================================== *)
(** * The browser reads what the server writes *)
(* ===================================================================== *)

Section ClientBase64.

Variable browser : Browser.

Lemma std_digits_ok : forallb std_digit_ok (seq 0 64) = true.
Proof. vm_compute. reflexivity. Qed.

Lemma std_digit (v : N) :
  (v < 64)%N ->
  Client.is_whitespace (Buffer.digit Buffer.alphabet v) = false
  /\ Ascii.eqb (Buffer.digit Buffer.alphabet v) Buffer.pad = false
  /\ Buffer.index_in Buffer.alphabet (Buffer.digit Buffer.alphabet v) 0
     = Some v.
Proof.
  intros Hv. pose proof std_digits_ok as H.
  rewrite forallb_forall in H.
  specialize (H (N.to_nat v)).
  assert (Hin : In (N.to_nat v) (seq 0 64)) by (apply in_seq; lia).
  apply H in Hin. unfold std_digit_ok in Hin. rewrite N2Nat.id in Hin.
  apply andb_true_iff in Hin as [Hin Hval].
  apply andb_true_iff in Hin as [Hws Hpad].
  apply negb_true_iff in Hws. apply negb_true_iff in Hpad.
  repeat split; auto.
  destruct (Buffer.index_in _ _ _) as [u|]; [|discriminate].
  apply N.eqb_eq in Hval. now subst.
Qed.

(** The sextets of a buffer, four for every three bytes. *)
Lemma encode_digits (padding : bool) (buf : Buffer.t) :
  exists vs pads,
    Buffer.encode Buffer.alphabet padding buf
    = map (Buffer.digit Buffer.alphabet) vs ++ pads
    /\ Forall (fun v => (v < 64)%N) vs
    /\ Buffer.encode Buffer.alphabet false buf
       = map (Buffer.digit Buffer.alphabet) vs
    /\ Buffer.bytes_of_symbols vs = buf
    /\ (pads = [] \/ pads = [Buffer.pad] \/ pads = [Buffer.pad; Buffer.pad])
    /\ (padding = true -> (List.length vs + List.length pads) mod 4 = 0)
    /\ List.length vs mod 4 <> 1.
Proof.
  induction buf as [|a|a b|a b c rest IH] using triples_ind.
  - exists [], []. cbn. repeat split; auto.
  - pose proof (to_N_lt a) as Ha.
    destruct (sextets_bounds _ _ _ Ha Ha Ha) as (S0 & _ & _ & _ & S1 & _).
    destruct (regroup_tail _ _ Ha Ha) as (E & _).
    exists (Buffer.sextets1 a), (if padding then [Buffer.pad; Buffer.pad]
                                 else []).
    cbn [Buffer.encode]. rewrite app_nil_r.
    split; [reflexivity|]. split; [repeat constructor; assumption|].
    split; [reflexivity|]. split.
    { cbn [Buffer.sextets1 Buffer.bytes_of_symbols]. rewrite E.
      now rewrite byte_of_to_N. }
    split. { destruct padding; auto. }
    split. { intros ->. reflexivity. }
    cbn. discriminate.
  - pose proof (to_N_lt a) as Ha. pose proof (to_N_lt b) as Hb.
    destruct (sextets_bounds _ _ _ Ha Hb Hb) as (S0 & S1 & _ & _ & _ & S2).
    destruct (regroup_tail _ _ Ha Hb) as (E0 & E1).
    destruct (regroup _ _ _ Ha Hb Hb) as (E0' & _).
    exists (Buffer.sextets2 a b), (if padding then [Buffer.pad] else []).
    cbn [Buffer.encode]. rewrite app_nil_r.
    split; [reflexivity|]. split; [repeat constructor; assumption|].
    split; [reflexivity|]. split.
    { cbn [Buffer.sextets2 Buffer.bytes_of_symbols]. rewrite E0', E1.
      now rewrite !byte_of_to_N. }
    split. { destruct padding; auto. }
    split. { intros ->. reflexivity. }
    cbn. discriminate.
  - pose proof (to_N_lt a) as Ha. pose proof (to_N_lt b) as Hb.
    pose proof (to_N_lt c) as Hc.
    destruct (sextets_bounds _ _ _ Ha Hb Hc) as (S0 & S1 & S2 & S3 & _).
    destruct (regroup _ _ _ Ha Hb Hc) as (E0 & E1 & E2).
    destruct IH as (vs & pads & Henc & Hvs & Hraw & Hdec & Hpads & Hlen
                    & Hmod).
    exists (Buffer.sextets3 a b c ++ vs), pads.
    cbn [Buffer.encode]. rewrite Henc, Hraw, map_app, <- app_assoc.
    split; [reflexivity|].
    split. { apply Forall_app. split; [repeat constructor|]; assumption. }
    split; [reflexivity|]. split.
    { cbn [Buffer.sextets3 Buffer.bytes_of_symbols app].
      rewrite E0, E1, E2, Hdec. now rewrite !byte_of_to_N. }
    split; [exact Hpads|].
    cbn [Buffer.sextets3 app List.length].
    split.
    + intros Hp. specialize (Hlen Hp).
      replace (S (S (S (S (List.length vs)))) + List.length pads)
        with ((List.length vs + List.length pads) + 1 * 4) by lia.
      now rewrite Nat.Div0.mod_add.
    + replace (S (S (S (S (List.length vs)))))
        with (List.length vs + 1 * 4) by lia.
      now rewrite Nat.Div0.mod_add.
Qed.

Lemma filter_digits (vs : list N) (pads : list ascii) :
  Forall (fun v => (v < 64)%N) vs ->
  (pads = [] \/ pads = [Buffer.pad] \/ pads = [Buffer.pad; Buffer.pad]) ->
  filter (fun c => negb (Client.is_whitespace c))
    (map (Buffer.digit Buffer.alphabet) vs ++ pads)
  = map (Buffer.digit Buffer.alphabet) vs ++ pads.
Proof.
  intros Hvs Hpads. rewrite filter_app. f_equal.
  - induction Hvs as [|v vs Hv _ IH]; [reflexivity|].
    cbn [map filter]. destruct (std_digit v Hv) as (-> & _). cbn [negb].
    now rewrite IH.
  - destruct Hpads as [-> | [-> | ->]]; reflexivity.
Qed.

Lemma drop_padding_digits (vs : list N) (pads : list ascii) :
  Forall (fun v => (v < 64)%N) vs ->
  (pads = [] \/ pads = [Buffer.pad] \/ pads = [Buffer.pad; Buffer.pad]) ->
  Client.drop_padding (map (Buffer.digit Buffer.alphabet) vs ++ pads)
  = map (Buffer.digit Buffer.alphabet) vs.
Proof.
  intros Hvs Hpads.
  assert (Hp : Client.drop_padding pads = []).
  { destruct Hpads as [-> | [-> | ->]]; reflexivity. }
  induction Hvs as [|v vs Hv Hvs IH]; [exact Hp|].
  destruct (std_digit v Hv) as (_ & Hv' & _).
  cbn [map app]. cbn [Client.drop_padding].
  destruct (map (Buffer.digit Buffer.alphabet) vs ++ pads)
    as [|d [|d' rest]] eqn:E.
  - cbn [Client.drop_padding] in IH. now rewrite Hv', <- IH.
  - cbn [Client.drop_padding] in IH.
    destruct (Ascii.eqb d Buffer.pad); rewrite <- IH, ?Hv'; reflexivity.
  - rewrite IH. reflexivity.
Qed.

Lemma values_digits (vs : list N) :
  Forall (fun v => (v < 64)%N) vs ->
  Client.values (map (Buffer.digit Buffer.alphabet) vs) = Some vs.
Proof.
  induction 1 as [|v vs Hv _ IH]; [reflexivity|].
  cbn [map Client.values]. destruct (std_digit v Hv) as (_ & _ & ->).
  now rewrite IH.
Qed.

(** [atob] of a padded base64 text is the string of the encoded bytes. *)
Lemma atob_encode (buf : Buffer.t) :
  Client.atob browser
    (string_of_list_ascii (Buffer.encode Buffer.alphabet true buf))
  = inr (string_of_list_byte buf).
Proof.
  destruct (encode_digits true buf)
    as (vs & pads & Henc & Hvs & _ & Hdec & Hpads & Hlen & Hmod).
  unfold Client.atob. cbv zeta.
  rewrite list_ascii_of_string_of_list_ascii, Henc.
  rewrite (filter_digits vs pads Hvs Hpads).
  rewrite length_app, length_map, (Hlen eq_refl). cbn [Nat.eqb].
  rewrite (drop_padding_digits vs pads Hvs Hpads), length_map.
  destruct (Nat.eqb (List.length vs mod 4) 1) eqn:E.
  { apply Nat.eqb_eq in E. contradiction. }
  now rewrite (values_digits vs Hvs), Hdec.
Qed.

Lemma base64ToUint8Array_toString (buf : Buffer.t) :
  Client.base64ToUint8Array browser (Buffer.toString_base64 buf) = inr buf.
Proof.
  unfold Client.base64ToUint8Array, Buffer.toString_base64.
  rewrite atob_encode. cbn [JS.bind JS.ok].
  now rewrite list_byte_of_string_of_list_byte.
Qed.

(** X2. The browser's base64 decoder returns the bytes from the text that
    the server's [toString('base64')] makes of them, and from the text that
    the browser's own encoder makes of them, which is the same text. *)
Theorem base64ToUint8Array_round_trip (buf : Buffer.t) :
  Client.base64ToUint8Array browser (Buffer.toString_base64 buf) = inr buf
  /\ Client.uint8ArrayToBase64 buf = Buffer.toString_base64 buf
  /\ Client.base64ToUint8Array browser (Client.uint8ArrayToBase64 buf)
     = inr buf.
Proof.
  assert (E : Client.uint8ArrayToBase64 buf = Buffer.toString_base64 buf).
  { unfold Client.uint8ArrayToBase64, Client.btoa, Buffer.toString_base64.
    now rewrite list_byte_of_string_of_list_byte. }
  rewrite E. auto using base64ToUint8Array_toString.
Qed.

End ClientBase64.

Section Interop.

Variable nc : NodeCrypto.
Variable browser : Browser.
Hypothesis laws : NodeCryptoLaws nc.
Hypothesis same : BrowserLaws nc browser.

(** The browser cuts a blob where the server joined it, and hands
    WebCrypto the ciphertext followed by the tag. *)
Lemma decryptFileData_blob (key iv tag ct data : Buffer.t) :
  List.length iv = 12 -> List.length tag = 16 ->
  aes_256_gcm_encrypt nc key iv CryptoService.AAD data = inr (ct, tag) ->
  Client.decryptFileData browser
    (CryptoService.createStorageBlob ct iv tag) key = inr data.
Proof.
  intros Hiv Htag Henc.
  unfold Client.decryptFileData, CryptoService.createStorageBlob.
  cbv zeta.
  destruct (subarray_concat iv tag ct Hiv Htag) as (-> & -> & ->).
  change Client.AAD with CryptoService.AAD.
  now rewrite (decrypt_node same _ _ _ _ Henc).
Qed.

(** What [encryptFileForStorage] returns: a key, and the encryption of the
    data under it. *)
Lemma encryptFileForStorage_run (data : Buffer.t) (g : rng) :
  exists ef,
    fst (CryptoService.encryptFileForStorage nc data g) = inr ef
    /\ aes_256_gcm_encrypt nc (CryptoService.ef_fileKey ef)
         (CryptoService.ef_iv ef) CryptoService.AAD data
       = inr (CryptoService.ef_encryptedData ef,
              CryptoService.ef_authTag ef)
    /\ List.length (CryptoService.ef_fileKey ef) = 32
    /\ List.length (CryptoService.ef_iv ef) = 12
    /\ List.length (CryptoService.ef_authTag ef) = 16.
Proof.
  unfold CryptoService.encryptFileForStorage,
    CryptoService.generateFileKey.
  destruct (randomBytes 32 g) as [fileKey g1] eqn:Ek.
  assert (Hk : List.length fileKey = 32).
  { pose proof (randomBytes_length 32 g) as H. now rewrite Ek in H. }
  destruct (encryptData_returns nc laws data fileKey g1 Hk)
    as (ct & tag & Henc & Hrun & Hct & Htag).
  rewrite Hrun. cbn.
  eexists. split; [reflexivity|]. cbn.
  repeat split; auto using randomBytes_length.
Qed.

(** X3. The blob under which the server stores a file is opened by the
    browser's [decryptFileData] with the file's key: it returns the bytes
    that were uploaded. *)
Theorem client_opens_file_blob (data : Buffer.t) (g : rng) :
  exists ef,
    fst (CryptoService.encryptFileForStorage nc data g) = inr ef
    /\ Client.decryptFileData browser
         (CryptoService.createStorageBlob
            (CryptoService.ef_encryptedData ef) (CryptoService.ef_iv ef)
            (CryptoService.ef_authTag ef))
         (CryptoService.ef_fileKey ef)
       = inr data.
Proof.
  destruct (encryptFileForStorage_run data g)
    as (ef & Hrun & Henc & _ & Hiv & Htag).
  exists ef. split; [exact Hrun|].
  now apply decryptFileData_blob.
Qed.

(** The browser's unwrap of a KeyBlob made by the server. *)
Lemma client_decryptFileKey_wrapped (K : Buffer.t) (password : string)
    (salt : Buffer.t) (g : rng) :
  password <> "" ->
  exists r,
    fst (CryptoService.encryptFileKey nc K password salt g) = inr r
    /\ CryptoService.salt r = Buffer.toString_base64 salt
    /\ Client.decryptFileKey browser (CryptoService.encryptedKeyBlob r)
         password (CryptoService.salt r) = inr K.
Proof.
  intros Hp.
  destruct (encryptFileKey_returns nc laws K password salt g Hp)
    as (ct & tag & Henc & Hct & Htag & Hrun).
  rewrite Hrun. eexists. split; [reflexivity|].
  cbn [CryptoService.encryptedKeyBlob CryptoService.salt].
  split; [reflexivity|].
  unfold Client.decryptFileKey.
  rewrite !base64ToUint8Array_toString. cbn [JS.bind]. cbv zeta.
  destruct (subarray_concat (fst (randomBytes 12 g)) tag ct
              (randomBytes_length 12 g) Htag) as (-> & -> & ->).
  unfold Client.deriveKey.
  rewrite (deriveKey_pbkdf2 same). cbn [JS.try_catch JS.bind].
  change Client.AAD with CryptoService.AAD.
  now rewrite (decrypt_node same _ _ _ _ Henc).
Qed.

(** X4. The browser's [decryptFileKey] recovers the ContentKey from the
    KeyBlob and the salt that the server's [encryptFileKey] returns, under
    the password of the wrap. *)
Theorem client_unwraps_key_blob (K : Buffer.t) (password : string)
    (salt : Buffer.t) (g : rng) :
  password <> "" ->
  exists r,
    fst (CryptoService.encryptFileKey nc K password salt g) = inr r
    /\ Client.decryptFileKey browser (CryptoService.encryptedKeyBlob r)
         password (CryptoService.salt r) = inr K.
Proof.
  intros Hp.
  destruct (client_decryptFileKey_wrapped K password salt g Hp)
    as (r & H1 & _ & H2).
  eauto.
Qed.

End Interop.

Section ReferenceBrowserFacts.

Lemma firstn_skipn_app {A} (l l' : list A) :
  firstn (List.length (l ++ l') - List.length l') (l ++ l') = l
  /\ skipn (List.length (l ++ l') - List.length l') (l ++ l') = l'.
Proof.
  rewrite length_app.
  replace (List.length l + List.length l' - List.length l')
    with (List.length l) by lia.
  split.
  - rewrite firstn_app, Nat.sub_diag, firstn_O, app_nil_r.
    apply firstn_all.
  - rewrite skipn_app, Nat.sub_diag, skipn_O, skipn_all. reflexivity.
Qed.

Lemma reference_browser_laws :
  BrowserLaws Reference.crypto ReferenceBrowser.browser.
Proof.
  constructor.
  - intros password salt. cbn. unfold ReferenceBrowser.deriveKey.
    unfold Buffer.toString_utf8, Buffer.from_utf8.
    rewrite string_of_list_byte_of_string. reflexivity.
  - intros key iv aad data ct tag Henc.
    pose proof (gcm_decrypt_encrypt reference_laws _ _ _ _ Henc)
      as Hdec.
    cbn in Henc, Hdec |- *.
    assert (Htag : List.length tag = 16).
    { unfold Reference.encrypt in Henc.
      destruct (Reference.check_key_iv key iv); [discriminate|].
      injection Henc as _ <-. apply repeat_length. }
    unfold ReferenceBrowser.decrypt. change (128 / 8) with 16.
    destruct (Nat.ltb (List.length (ct ++ tag)) 16) eqn:E.
    { apply Nat.ltb_lt in E. rewrite length_app in E. lia. }
    destruct (firstn_skipn_app ct tag) as (H1 & H2).
    rewrite Htag in H1, H2. rewrite H1, H2, Hdec. reflexivity.
Qed.

End ReferenceBrowserFacts.

(** X3, on the reference platform. *)
Lemma client_opens_file_blob_witness :
  exists ef,
    fst (CryptoService.encryptFileForStorage Reference.crypto
           (Buffer.from_utf8 "hello-world") Reference.zeros) = inr ef
    /\ Client.decryptFileData ReferenceBrowser.browser
         (CryptoService.createStorageBlob
            (CryptoService.ef_encryptedData ef) (CryptoService.ef_iv ef)
            (CryptoService.ef_authTag ef))
         (CryptoService.ef_fileKey ef)
       = inr (Buffer.from_utf8 "hello-world").
Proof.
  exact (client_opens_file_blob _ _ reference_laws reference_browser_laws
           (Buffer.from_utf8 "hello-world") Reference.zeros).
Defined.

(** X4, on the reference platform. *)
Lemma client_unwraps_key_blob_witness :
  exists r,
    fst (CryptoService.encryptFileKey Reference.crypto (repeat x07 32)
           "correct-horse" (repeat x02 32) Reference.zeros) = inr r
    /\ Client.decryptFileKey ReferenceBrowser.browser
         (CryptoService.encryptedKeyBlob r) "correct-horse"
         (CryptoService.salt r) = inr (repeat x07 32).
Proof.
  refine (client_unwraps_key_blob _ _ reference_laws reference_browser_laws
            (repeat x07 32) "correct-horse" (repeat x02 32)
            Reference.zeros _).
  discriminate.
Defined.

(* ===================================================================== *)
(** * The rows of an upload *)
(* ===================================================================== *)

Section UploadRows.

Variable P : Platform.
Variable browser : Browser.

(** The server's unwrap of a KeyBlob it has made. *)
Lemma decryptFileKey_wrapped (K : Buffer.t) (password : string)
    (salt : Buffer.t) (g : rng) :
  NodeCryptoLaws (node P) ->
  password <> "" ->
  exists r,
    fst (CryptoService.encryptFileKey (node P) K password salt g) = inr r
    /\ CryptoService.salt r = Buffer.toString_base64 salt
    /\ JS.truthy_string (CryptoService.encryptedKeyBlob r) = true
    /\ CryptoService.decryptFileKey (node P)
         (Some (CryptoService.encryptedKeyBlob r)) password
         (Some (CryptoService.salt r)) = inr K.
Proof.
  intros laws Hp.
  destruct (encryptFileKey_returns (node P) laws K password salt g Hp)
    as (ct & tag & Henc & Hct & Htag & Hrun).
  rewrite Hrun. eexists. split; [reflexivity|].
  cbn [CryptoService.encryptedKeyBlob CryptoService.salt].
  split; [reflexivity|]. split.
  { pose proof (randomBytes_length 12 g) as Hiv.
    destruct (fst (randomBytes 12 g)) as [|a iv]; [discriminate|].
    apply toString_base64_truthy. }
  rewrite decryptFileKey_slices, !from_base64_toString.
  destruct (subarray_concat (fst (randomBytes 12 g)) tag ct
              (randomBytes_length 12 g) Htag) as (-> & -> & ->).
  unfold CryptoService.decryptData, CryptoService.deriveKeyFromPassword.
  now rewrite (gcm_decrypt_encrypt laws _ _ _ _ Henc).
Qed.

Lemma sealed_row_kept (mode : string) (f : upload)
    (password : option JS.json) (w w' : world) (row : file) :
  (forall q d, lookup q (bucket w) = Some d ->
               lookup q (bucket w') = Some d) ->
  sealed_when_secure (node P) browser mode f password w row ->
  sealed_when_secure (node P) browser mode f password w' row.
Proof.
  intros Hkeep H Hm laws same.
  destruct (H Hm laws same) as (pw & K & stored & H1 & H2 & H3 & H4).
  exists pw, K, stored. auto.
Qed.

(** A key is wrapped only under a password that is a non-empty string. *)
Lemma encryptFileKey_any_string (K : Buffer.t) (password : option JS.json)
    (salt : Buffer.t) (g : rng) (wk : CryptoService.wrappedKey) :
  fst (encryptFileKey_any P K password salt g) = inr wk ->
  exists pw,
    password = Some (JS.JStr pw) /\ pw <> ""
    /\ encryptFileKey_any P K password salt g
       = CryptoService.encryptFileKey (node P) K pw salt g.
Proof.
  unfold encryptFileKey_any.
  destruct password as [[| |n|pw|items|fields]|]; cbn [JS.truthy];
    try discriminate.
  - destruct b; discriminate.
  - destruct (negb (Z.eqb n 0)); discriminate.
  - intros H. exists pw. repeat split; auto.
    intros ->. rewrite encryptFileKey_empty_password in H. discriminate.
Qed.

(** The row that the body of the [try] block creates. *)
Lemma store_file_row (req : request) (mode : string)
    (password : option JS.json) (f : upload) (w : world) (row : file) :
  fst (store_file P req mode password f w) = inr (Uploaded row) ->
  row_of_upload req mode f row
  /\ sealed_when_secure (node P) browser mode f password
       (snd (store_file P req mode password f w)) row.
Proof.
  unfold store_file. cbv zeta.
  destruct (startsWith "image/" (mimetype f)
            && negb (validateImage (buffer f))) eqn:Eimg;
    [discriminate|].
  assert (Himg : startsWith "image/" (mimetype f) = true ->
                 validateImage (buffer f) = true).
  { intros E. rewrite E in Eimg. cbn in Eimg.
    now apply negb_false_iff in Eimg. }
  unfold sealed_when_secure, secure.
  destruct (String.eqb mode "secure") eqn:Emode.
  - destruct (CryptoService.encryptFileForStorage _ _ _) as [[e|ef] g]
      eqn:Eef; [discriminate|].
    destruct (CryptoService.generateSalt _) as [salt0 g2].
    destruct (encryptFileKey_any _ _ _ _ _) as [[e|wk] g3] eqn:Eany;
      [discriminate|].
    destruct (JS.truthy_string (CryptoService.encryptedKeyBlob wk));
      cbn [negb]; [|discriminate].
    unfold uploadEncryptedFile.
    match goal with
    | |- context [supabase_upload _ ?p ?d ?w1] =>
        pose proof (supabase_upload_run P p d w1) as Hup;
        destruct (supabase_upload (supabase_error P) p d w1)
          as [[e|path] w2]
    end; cbv zeta in Hup; cbn [fst snd] in Hup;
      destruct Hup as (_ & _ & _ & _ & _ & _ & _ & Hnew);
      [cbn; discriminate|].
    cbn [JS.bind JS.ok generateCover fst snd].
    intros H. injection H as <-.
    split; [repeat split; auto|].
    intros _ laws same.
    destruct (encryptFileForStorage_run (node P) laws (buffer f)
                (random w)) as (ef' & Hef & Henc & Hk & Hiv & Htag).
    rewrite Eef in Hef. cbn [fst] in Hef. injection Hef as <-.
    destruct (encryptFileKey_any_string _ _ _ _ wk
                (f_equal fst Eany)) as (pw & -> & Hpw & Hsame).
    rewrite Hsame in Eany.
    destruct (decryptFileKey_wrapped (CryptoService.ef_fileKey ef) pw salt0
                (random (emit (EvWrapKey (originalname f)
                                 (Some (JS.JStr pw)))
                           (set_random g2 (set_random g w)))) laws Hpw)
      as (wk' & Hwk & Hsalt & Htruthy & Hunwrap).
    rewrite Eany in Hwk. cbn [fst] in Hwk. injection Hwk as <-.
    exists pw, (CryptoService.ef_fileKey ef).
    eexists. split; [reflexivity|].
    cbn [encryptedKeyBlob salt storagePath].
    split; [now rewrite <- Hsalt|].
    split; [cbn; apply Hnew; reflexivity|].
    now apply (decryptFileData_blob (node P) browser same).
  - unfold uploadFile.
    destruct (supabase_upload _ _ _ _) as [[e|path] w2];
      [cbn; discriminate|].
    cbn [JS.bind JS.ok generateCover fst snd].
    intros H. injection H as <-.
    split; [repeat split; auto|discriminate].
Qed.

Lemma process_file_row (req : request) (mode : string)
    (passwords coverTypes : JS.json) (i : nat) (f : upload) (w : world)
    (row : file) :
  fst (process_file P req mode passwords coverTypes i f w)
  = inr (Uploaded row) ->
  exists password,
    select_password mode passwords i = inr password
    /\ row_of_upload req mode f row
    /\ sealed_when_secure (node P) browser mode f password
         (snd (process_file P req mode passwords coverTypes i f w)) row.
Proof.
  unfold process_file.
  destruct (select_password mode passwords i) as [e|password];
    [discriminate|].
  destruct (json_index coverTypes i) as [e|c]; [discriminate|].
  pose proof (store_file_row req mode password f w row) as Hrow.
  destruct (store_file P req mode password f w) as [[e|[row'|n m]] w'];
    cbn [fst snd] in *; try discriminate.
  intros H. injection H as ->. exists password. split; [reflexivity|].
  now apply Hrow.
Qed.

(** The loop, when it runs to its end: one entry for every file, and the
    rows it created. *)
Lemma upload_loop_rows (req : request) (mode : string)
    (passwords coverTypes : JS.json) :
  forall (todo : list upload) (i : nat) (done : list processed)
         (w : world) (all : list processed),
    let r := upload_loop P req mode passwords coverTypes i todo done w in
    fst r = inr all ->
    exists news,
      all = done ++ news
      /\ List.length news = List.length todo
      /\ Forall (fun row =>
           exists k f password,
             nth_error todo k = Some f
             /\ select_password mode passwords (i + k) = inr password
             /\ row_of_upload req mode f row
             /\ sealed_when_secure (node P) browser mode f password
                  (snd r) row)
           (uploadedFiles news).
Proof.
  induction todo as [|f rest IH]; intros i done w all; cbv zeta.
  { cbn. intros H. injection H as <-. exists [].
    rewrite app_nil_r. repeat split; constructor. }
  cbn [upload_loop].
  pose proof (process_file_row req mode passwords coverTypes i f w) as H1.
  destruct (process_file P req mode passwords coverTypes i f w)
    as [[e|p] w1]; cbn [fst snd] in H1; [discriminate|].
  specialize (IH (S i) (done ++ [p]) w1 all). cbv zeta in IH.
  pose proof (upload_loop_run P req mode passwords coverTypes rest (S i)
                (done ++ [p]) w1) as Hrun. cbv zeta in Hrun.
  destruct (upload_loop P req mode passwords coverTypes (S i) rest
              (done ++ [p]) w1) as [r w2]; cbn [fst snd] in *.
  intros Hall. subst r.
  destruct (IH eq_refl) as (news & Hnews & Hlen & Hrows).
  destruct Hrun as (news' & evs' & _ & _ & _ & _ & _ & Hkeep & _).
  exists (p :: news).
  split. { rewrite Hnews, <- app_assoc. reflexivity. }
  split. { cbn. now rewrite Hlen. }
  rewrite uploadedFiles_cons. apply Forall_app. split.
  - destruct p as [row|n m]; cbn [rows_of]; constructor; [|constructor].
    destruct (H1 row eq_refl) as (password & Hsel & Hrow & Hsealed).
    exists 0, f, password. rewrite Nat.add_0_r.
    do 3 (split; [solve [auto]|]).
    now apply (sealed_row_kept mode f password w1 w2 row Hkeep).
  - eapply Forall_impl; [|exact Hrows].
    intros row (k & f' & pw & Hk & Hs & Hrow & Hsealed).
    exists (S k), f', pw. rewrite Nat.add_succ_r. auto.
Qed.

Lemma processed_count (done : list processed) :
  List.length (uploadedFiles done) + List.length (errors done)
  = List.length done.
Proof.
  unfold uploadedFiles, errors.
  induction done as [|[row|n m] done IH];
    cbn [flat_map app List.length] in *; lia.
Qed.

(** A run of the upload handler that answers 201. *)
Lemma upload_files_rows (req : request) (w : world) (resp : response) :
  fst (upload_files P req w) = Sent resp ->
  status resp = 201 ->
  let mode := or_default (body_uploadMode req) secure in
  exists todo passwords done,
    req_files req = Some todo
    /\ (if String.eqb mode secure
        then JSON_parse P (or_default (body_passwords req) "[]")
             = inr passwords
             /\ secureUploadSchema_validate P passwords = None
             /\ json_length passwords = Some (List.length todo)
        else passwords = JS.JArr [])
    /\ List.length done = List.length todo
    /\ payload resp = Json (upload_report P done)
    /\ files (snd (upload_files P req w)) = files w ++ uploadedFiles done
    /\ Forall (fun row =>
         exists k f password,
           nth_error todo k = Some f
           /\ select_password mode passwords k = inr password
           /\ row_of_upload req mode f row
           /\ sealed_when_secure (node P) browser mode f password
                (snd (upload_files P req w)) row)
         (uploadedFiles done).
Proof.
  cbv zeta. unfold upload_files.
  destruct (req_files req) as [[|f0 rest]|] eqn:Efiles;
    [cbn; intros H E; injection H as <-; discriminate | |
     cbn; intros H E; injection H as <-; discriminate].
  set (todo := f0 :: rest) in *.
  set (mode := or_default (body_uploadMode req) secure).
  assert (Hgo :
    forall passwords coverTypes,
      (if String.eqb mode secure
       then JSON_parse P (or_default (body_passwords req) "[]")
            = inr passwords
            /\ secureUploadSchema_validate P passwords = None
            /\ json_length passwords = Some (List.length todo)
       else passwords = JS.JArr []) ->
      forall r : outcome unit * world,
        r = (let '(r, w0) :=
               upload_loop P req mode passwords coverTypes 0 todo [] w in
             match r with
             | inl e => (Thrown e, w0)
             | inr done =>
                 respond 201 (upload_report P done)
                   (prisma.securityLog_create
                      (mkLog (Some (user req)) "file_upload"
                         (Nat.ltb 0 (List.length (uploadedFiles done)))
                         (ip req) (user_agent req)
                         (JS.JObj
                            [("folderId", JS.JStr (params_folderId req));
                             ("filesUploaded",
                              JS.JNum (Z.of_nat
                                (List.length (uploadedFiles done))));
                             ("filesError",
                              JS.JNum (Z.of_nat
                                (List.length (errors done))))])) w0)
             end) ->
        fst r = Sent resp ->
        exists todo' passwords' done,
          Some todo = Some todo'
          /\ (if String.eqb mode secure
              then JSON_parse P (or_default (body_passwords req) "[]")
                   = inr passwords'
                   /\ secureUploadSchema_validate P passwords' = None
                   /\ json_length passwords' = Some (List.length todo')
              else passwords' = JS.JArr [])
          /\ List.length done = List.length todo'
          /\ payload resp = Json (upload_report P done)
          /\ files (snd r) = files w ++ uploadedFiles done
          /\ Forall (fun row =>
               exists k f password,
                 nth_error todo' k = Some f
                 /\ select_password mode passwords' k = inr password
                 /\ row_of_upload req mode f row
                 /\ sealed_when_secure (node P) browser mode f password
                      (snd r) row)
               (uploadedFiles done)).
  { intros passwords coverTypes Hpw r -> .
    pose proof (upload_loop_rows req mode passwords coverTypes todo 0 []
                  w) as Hrows. cbv zeta in Hrows.
    pose proof (upload_loop_run P req mode passwords coverTypes todo 0 []
                  w) as Hrun. cbv zeta in Hrun.
    destruct (upload_loop P req mode passwords coverTypes 0 todo [] w)
      as [[e|all] w1]; cbn [fst snd] in *; [discriminate|].
    intros H. injection H as <-.
    destruct (Hrows all eq_refl) as (news & Hnews & Hlen & Hall).
    cbn [app] in Hnews. subst news.
    destruct Hrun as (news & evs & Hnews & _ & _ & _ & Hfiles & _).
    cbn [app] in Hnews. subst news.
    exists todo, passwords, all.
    split; [reflexivity|]. split; [exact Hpw|].
    split; [exact Hlen|]. split; [reflexivity|].
    split; [exact Hfiles|].
    eapply Forall_impl; [|exact Hall].
    intros row (k & f & pw & Hk & Hs & Hrow & Hsealed).
    exists k, f, pw. do 3 (split; [solve [auto]|]).
    apply (sealed_row_kept mode f pw w1 _ row); auto. }
  destruct (String.eqb mode secure) eqn:Emode.
  - destruct (JSON_parse P (or_default (body_passwords req) "[]"))
      as [e|passwords] eqn:Epw;
      [cbn; intros H E; injection H as <-; discriminate|].
    destruct (JSON_parse P (or_default (body_coverTypes req) "[]"))
      as [e|coverTypes];
      [cbn; intros H E; injection H as <-; discriminate|].
    destruct (secureUploadSchema_validate P passwords) as [details|] eqn:Ev;
      [cbn; intros H E; injection H as <-; discriminate|].
    destruct (json_length passwords) as [n|] eqn:En;
      [|cbn; intros H E; injection H as <-; discriminate].
    destruct (Nat.eqb n (List.length todo)) eqn:Hn; cbn [negb];
      [|cbn; intros H E; injection H as <-; discriminate].
    apply Nat.eqb_eq in Hn. subst n.
    intros H _. eapply (Hgo passwords coverTypes); eauto.
  - destruct (JSON_parse P (or_default (body_coverTypes req) "[]"))
      as [e|coverTypes];
      [cbn; intros H E; injection H as <-; discriminate|].
    unfold JS.ok. cbv beta iota.
    intros H _. eapply (Hgo (JS.JArr []) coverTypes); eauto.
Qed.

End UploadRows.

(* ===================================================================== *)
(** * What an upload leaves behind *)
(* ===================================================================== *)

Section UploadTheorems.

Variable P : Platform.
Variable browser : Browser.

(** X5. Every row that a secure-mode upload creates can be opened again:
    for primitives that satisfy the laws, the row belongs to a file of the
    request; under the password found at that file's index, the row's
    KeyBlob and salt unwrap to a key; and the bucket holds under the row's
    storage path a blob from which the browser's [decryptFileData] with
    that key returns the bytes of the file. *)
Theorem secure_upload_recoverable (req : request) (w : world)
    (todo : list upload) (items : list JS.json) :
  NodeCryptoLaws (node P) -> BrowserLaws (node P) browser ->
  req_files req = Some todo ->
  or_default (body_uploadMode req) "secure" = "secure" ->
  JSON_parse P (or_default (body_passwords req) "[]")
  = inr (JS.JArr items) ->
  let w' := snd (upload_files P req w) in
  exists rows,
    files w' = files w ++ rows
    /\ Forall (fun row =>
         exists k f pw K stored,
           nth_error todo k = Some f
           /\ nth_error items k = Some (JS.JStr pw)
           /\ originalName row = originalname f
           /\ uploadMode row = "secure"
           /\ CryptoService.decryptFileKey (node P) (encryptedKeyBlob row)
                pw (salt row) = inr K
           /\ lookup (storagePath row) (bucket w') = Some stored
           /\ Client.decryptFileData browser stored K = inr (buffer f))
         rows.
Proof.
  intros laws same Hfiles Hmode Hparse. cbv zeta.
  destruct (upload_files_run P req w)
    as [(v & Hrun) | [(e & Hthrown & Hw)
                     | (todo' & passwords & done & evs & row & resp
                        & _ & _ & _ & _ & Hsent & Hstatus & _)]].
  - exists []. rewrite Hrun. cbn. rewrite app_nil_r. split; constructor.
  - exists []. rewrite Hw, app_nil_r. split; constructor.
  - destruct (upload_files_rows P browser req w resp Hsent Hstatus)
      as (todo2 & passwords2 & done2 & Htodo & Hpw & _ & _ & Hrows & Hall).
    cbv zeta in Hpw, Hall. unfold secure in Hpw, Hall.
    rewrite Hmode in Hpw, Hall. cbn [String.eqb Ascii.eqb Bool.eqb] in Hpw.
    destruct Hpw as (Hparse2 & Hvalid & Hlen).
    rewrite Hfiles in Htodo. injection Htodo as <-.
    rewrite Hparse in Hparse2. injection Hparse2 as <-.
    exists (uploadedFiles done2). split; [exact Hrows|].
    eapply Forall_impl; [|exact Hall].
    intros r (k & f & password & Hk & Hsel & Hrow & Hsealed).
    destruct (Hsealed eq_refl laws same)
      as (pw & K & stored & -> & Hunwrap & Hstored & Hopen).
    destruct (select_password_own P (JS.JArr items) todo k f Hvalid Hlen
                Hk) as (items' & s & Eitems & _ & Hnth & Hown).
    injection Eitems as <-. unfold secure in Hown.
    rewrite Hown in Hsel. injection Hsel as ->.
    destruct Hrow as (_ & _ & Hm & Hname & _).
    exists k, f, pw, K, stored. repeat split; auto.
Qed.

(** X6. In the answer 201 of the upload handler every file of the request
    is accounted for once: the entries of [files] and of [errors] are
    together as many as the files sent, the rows listed in [files] are the
    rows added to the table, and each of them carries the user and the
    folder of the request and the mode of the upload. *)
Theorem upload_accounts_for_every_file (req : request) (w : world)
    (resp : response) (todo : list upload) :
  req_files req = Some todo ->
  fst (upload_files P req w) = Sent resp ->
  status resp = 201 ->
  exists done,
    List.length (uploadedFiles done) + List.length (errors done)
    = List.length todo
    /\ payload resp = Json (upload_report P done)
    /\ files (snd (upload_files P req w)) = files w ++ uploadedFiles done
    /\ Forall (fun row =>
         ownerId row = user req /\ folderId row = params_folderId req
         /\ uploadMode row = or_default (body_uploadMode req) "secure")
         (uploadedFiles done).
Proof.
  intros Hfiles Hsent Hstatus.
  destruct (upload_files_rows P ReferenceBrowser.browser req w resp Hsent
              Hstatus)
    as (todo2 & passwords2 & done & Htodo & _ & Hlen & Hpay & Hrows
        & Hall).
  rewrite Hfiles in Htodo. injection Htodo as <-.
  exists done. rewrite processed_count.
  do 3 (split; [solve [auto]|]).
  eapply Forall_impl; [|exact Hall].
  intros r (k & f & password & _ & _ & (H1 & H2 & H3 & _) & _). auto.
Qed.

End UploadTheorems.

(** X5, on the reference platform: two files under their two passwords;
    both rows are created. *)
Lemma secure_upload_recoverable_witness :
  let req := Reference.upload_request "secure" (Some "abcd,efgh")
               [Reference.png; Reference.jpg] in
  let w' := snd (upload_files Reference.platform req
                   Reference.open_world) in
  List.length (files w') = 3
  /\ exists rows,
       files w' = files Reference.open_world ++ rows
       /\ Forall (fun row =>
            exists k f pw K stored,
              nth_error [Reference.png; Reference.jpg] k = Some f
              /\ nth_error [JS.JStr "abcd"; JS.JStr "efgh"] k
                 = Some (JS.JStr pw)
              /\ originalName row = originalname f
              /\ uploadMode row = "secure"
              /\ CryptoService.decryptFileKey Reference.crypto
                   (encryptedKeyBlob row) pw (salt row) = inr K
              /\ lookup (storagePath row) (bucket w') = Some stored
              /\ Client.decryptFileData ReferenceBrowser.browser stored K
                 = inr (buffer f))
            rows.
Proof.
  cbv zeta. split; [vm_compute; reflexivity|].
  exact (secure_upload_recoverable Reference.platform
           ReferenceBrowser.browser
           (Reference.upload_request "secure" (Some "abcd,efgh")
              [Reference.png; Reference.jpg])
           Reference.open_world [Reference.png; Reference.jpg]
           [JS.JStr "abcd"; JS.JStr "efgh"]
           reference_laws reference_browser_laws eq_refl eq_refl eq_refl).
Defined.

(** X6, on the reference platform: a PNG and a file whose bytes are not
    those of an image. *)
Lemma upload_accounts_for_every_file_witness :
  let req := Reference.upload_request "normal" None
               [Reference.png;
                mkUpload "note.png" "image/png" 2 [x00; x01]] in
  exists done,
    List.length (uploadedFiles done) + List.length (errors done) = 2
    /\ payload (mkResponse 201
                  (Json (upload_report Reference.platform
                           [Uploaded
                              (mkFile "row2" "cat.png" "image/png" 4
                                 "normal/1000-normal/4-cat.png"
                                 "https://images.unsplash.com/photo-1"
                                 None None "normal" "alice" "album" 1000);
                            Failed "note.png" "Invalid image format"])))
       = Json (upload_report Reference.platform done)
    /\ files (snd (upload_files Reference.platform req
                     Reference.open_world))
       = files Reference.open_world ++ uploadedFiles done
    /\ Forall (fun row =>
         ownerId row = user req /\ folderId row = params_folderId req
         /\ uploadMode row = or_default (body_uploadMode req) "secure")
         (uploadedFiles done).
Proof.
  cbv zeta.
  refine (upload_accounts_for_every_file Reference.platform
            (Reference.upload_request "normal" None
               [Reference.png;
                mkUpload "note.png" "image/png" 2 [x00; x01]])
            Reference.open_world
            (mkResponse 201
               (Json (upload_report Reference.platform
                        [Uploaded
                           (mkFile "row2" "cat.png" "image/png" 4
                              "normal/1000-normal/4-cat.png"
                              "https://images.unsplash.com/photo-1"
                              None None "normal" "alice" "album" 1000);
                         Failed "note.png" "Invalid image format"])))
            _ eq_refl _ eq_refl).
  vm_compute. reflexivity.
Defined.

(* ===================================================================== *)
(** * The routes behind [verifyFolderAccess] *)
(* ===================================================================== *)

Section Guarded.

Variable P : Platform.

Lemma same_tables_emit (e : event) (w w' : world) :
  same_tables w w' -> same_tables w (emit e w').
Proof. exact (fun H => H). Qed.

Lemma same_tables_refl (w : world) : same_tables w w.
Proof. repeat split. Qed.

Lemma same_tables_respond {A} (s : nat) (v : JS.json) (w w' : world) :
  same_tables w w' -> same_tables w (snd (@respond A s v w')).
Proof. exact (fun H => H). Qed.

Lemma folder_findFirst_some (id owner : string) (w : world) (d : folder) :
  prisma.folder_findFirst id owner w = Some d ->
  In d (folders w) /\ folder_id d = id /\ folder_ownerId d = owner.
Proof.
  unfold prisma.folder_findFirst. intros H.
  apply find_some in H as (Hin & Hm).
  apply andb_true_iff in Hm as (H1 & H2).
  apply String.eqb_eq in H1. apply String.eqb_eq in H2. auto.
Qed.

Lemma or_default_some (h : option string) (s : string) :
  or_default h "" = s -> s <> "" -> h = Some s.
Proof.
  destruct h as [[|c t]|]; cbn; intros <-; congruence.
Qed.

(** How [verifyFolderAccess] ends: it changes no table; it calls [next()]
    exactly for a request that may enter the folder, and otherwise answers
    404 or 403. *)
Lemma verifyFolderAccess_cases (req : request) (w : world) :
  let fid := or_string (params_id req) (params_folderId req) in
  fid <> "" ->
  same_tables w (snd (verifyFolderAccess req w))
  /\ match fst (verifyFolderAccess req w) with
     | Next (d, _) =>
         prisma.folder_findFirst fid (user req) w = Some d
         /\ may_enter req fid w
     | Sent resp =>
         (status resp = 404 \/ status resp = 403)
         /\ ~ may_enter req fid w
     | Thrown _ => False
     end.
Proof.
  intros fid Hfid. unfold verifyFolderAccess. fold fid.
  destruct fid as [|c0 fid0] eqn:Efid; [congruence|].
  rewrite <- Efid in *. clear Efid.
  replace (JS.truthy_string fid) with true
    by (destruct fid; [congruence | reflexivity]).
  cbn [negb].
  destruct (prisma.folder_findFirst fid (user req) w) as [d|] eqn:Hd.
  2: { split; [exact (same_tables_refl w)|]. cbn. split; [auto|].
       intros (d & Hd' & _). congruence. }
  destruct (isProtected d) eqn:Hprot; cbn [negb].
  2: { split; [exact (same_tables_refl w)|]. cbn. split; [reflexivity|].
       exists d. split; [exact Hd|]. congruence. }
  destruct (JS.truthy_string (or_default (x_folder_token req) ""))
    eqn:Htok; cbn [negb].
  2: { split; [exact (same_tables_refl w)|]. cbn. split; [auto|].
       intros (d' & Hd' & H). rewrite Hd in Hd'. injection Hd' as <-.
       destruct (H Hprot) as (t & _ & Hh & Hne & _).
       rewrite Hh in Htok. cbn in Htok.
       destruct (token t); [congruence | discriminate]. }
  unfold prisma.folderAccessToken_findFirst.
  destruct (find _ _) as [t|] eqn:Hfind.
  - split; [exact (same_tables_refl w)|]. cbn. split; [reflexivity|].
    exists d. split; [exact Hd|]. intros _.
    apply find_some in Hfind as (Hin & Hm).
    apply token_matches_iff in Hm as (H1 & H2 & H3 & H4).
    exists t. split; [exact Hin|].
    assert (Hne : token t <> "").
    { rewrite H1. intros E. rewrite E in Htok. discriminate. }
    split. { apply or_default_some; congruence. }
    auto.
  - split; [exact (same_tables_refl w)|]. cbn. split; [auto|].
    intros (d' & Hd' & H). rewrite Hd in Hd'. injection Hd' as <-.
    destruct (H Hprot) as (t & Hin & Hh & Hne & H2 & H3 & H4).
    apply (find_none _ _ Hfind) in Hin.
    assert (Hm : prisma.token_matches (or_default (x_folder_token req) "")
                   fid (user req) (clock w) t = true).
    { apply token_matches_iff. repeat split; auto.
      rewrite Hh. cbn. destruct (token t); [congruence | reflexivity]. }
    congruence.
Qed.

(** [verifyFolderAccess] calls [next()] exactly for a request that may
    enter the folder. *)
Lemma verifyFolderAccess_next_iff (req : request) (w : world) :
  let fid := or_string (params_id req) (params_folderId req) in
  (exists a, fst (verifyFolderAccess req w) = Next a)
  <-> fid <> "" /\ may_enter req fid w.
Proof.
  cbv zeta.
  destruct (or_string (params_id req) (params_folderId req)) as [|c fid]
    eqn:Efid.
  - unfold verifyFolderAccess. rewrite Efid. cbn.
    split; [intros (a & H); discriminate | intros (H & _); congruence].
  - pose proof (verifyFolderAccess_cases req w) as H. cbv zeta in H.
    rewrite Efid in H. specialize (H ltac:(discriminate)).
    destruct H as (_ & H).
    destruct (fst (verifyFolderAccess req w)) as [resp|[d tok]|e].
    + destruct H as (_ & Hno). split.
      * intros (a & Ha). discriminate.
      * intros (_ & Hyes). contradiction.
    + destruct H as (_ & Hyes). split; [|eauto].
      intros _. split; [discriminate | exact Hyes].
    + destruct H.
Qed.

(** The rows an upload adds belong to the user and to the folder of the
    request. *)
Lemma upload_files_added (req : request) (w : world) :
  exists rows,
    files (snd (upload_files P req w)) = files w ++ rows
    /\ Forall (fun row => ownerId row = user req
                          /\ folderId row = params_folderId req) rows.
Proof.
  destruct (upload_files_run P req w)
    as [(v & Hrun) | [(e & Hthrown & Hw)
                     | (todo' & passwords & done & evs & row & resp
                        & _ & _ & _ & _ & Hsent & Hstatus & _)]].
  - exists []. rewrite Hrun. cbn. rewrite app_nil_r. split; constructor.
  - exists []. rewrite Hw, app_nil_r. split; constructor.
  - destruct (upload_files_rows P ReferenceBrowser.browser req w resp
                Hsent Hstatus)
      as (todo2 & passwords2 & done2 & _ & _ & _ & _ & Hrows & Hall).
    exists (uploadedFiles done2). split; [exact Hrows|].
    eapply Forall_impl; [|exact Hall].
    intros r (k & f & password & _ & _ & (H1 & H2 & _) & _). auto.
Qed.

Variable createSignedUrl : string -> string.
Variable upload_array : request -> JS.result form.

(** X7. Whatever multer makes of the body, the upload route adds rows only
    for a request that may enter the folder of the route: a folder of the
    user which, if it is protected, the request opens with a token that has
    not expired.  Every row it adds belongs to that user and that folder.
    A request that may not enter is answered 404 or 403 and changes no
    table, bucket or random source. *)
Theorem upload_route_guarded (req : request) (w : world) :
  params_id req = "" ->
  params_folderId req <> "" ->
  let r := upload_route P upload_array req w in
  (exists rows,
     files (snd r) = files w ++ rows
     /\ Forall (fun row => ownerId row = user req
                           /\ folderId row = params_folderId req) rows
     /\ (rows <> [] -> may_enter req (params_folderId req) w))
  /\ (~ may_enter req (params_folderId req) w ->
      same_tables w (snd r)
      /\ exists resp,
           fst r = Sent resp
           /\ (status resp = 404 \/ status resp = 403)).
Proof.
  intros Hid Hfid. cbv zeta. unfold upload_route.
  pose proof (verifyFolderAccess_cases req w) as Hv. cbv zeta in Hv.
  rewrite Hid in Hv. cbn [or_string JS.truthy_string] in Hv.
  specialize (Hv Hfid).
  destruct (verifyFolderAccess req w) as [[resp|[d tok]|e] w1];
    cbn [fst snd behind] in *.
  - destruct Hv as (Hsame & Hst & Hno). split.
    + destruct Hsame as (_ & Hf & _).
      exists []. rewrite app_nil_r. repeat split; auto. congruence.
    + intros _. split; [exact Hsame | eauto].
  - destruct Hv as ((_ & Hf & _) & _ & Henter). split; [|contradiction].
    destruct (upload_array req) as [e|f]; cbn [snd].
    + exists []. rewrite app_nil_r. repeat split; auto.
    + destruct (upload_files_added (with_form req f) w1)
        as (rows & Hrows & Hall).
      exists rows. rewrite Hrows, Hf. repeat split; auto.
  - destruct Hv as (_ & []).
Qed.

End Guarded.

(* ===================================================================== *)
(** * The other routes of a file *)
(* ===================================================================== *)

Section FileRoutesMore.

Variable P : Platform.
Variable browser : Browser.
Variable createSignedUrl : string -> string.

Lemma file_findFirst_some (id owner : string) (w : world) (f : file) :
  prisma.file_findFirst id owner w = Some f ->
  In f (files w) /\ file_id f = id /\ ownerId f = owner.
Proof.
  unfold prisma.file_findFirst. intros H.
  apply find_some in H as (Hin & Hm).
  apply andb_true_iff in Hm as (H1 & H2).
  apply String.eqb_eq in H1. apply String.eqb_eq in H2. auto.
Qed.

Lemma file_findFirst_none (id owner : string) (w : world) :
  (forall f, In f (files w) -> file_id f = id -> ownerId f <> owner) ->
  prisma.file_findFirst id owner w = None.
Proof.
  intros H. destruct (prisma.file_findFirst id owner w) as [f|] eqn:E;
    [|reflexivity].
  apply file_findFirst_some in E as (Hin & H1 & H2).
  destruct (H f Hin H1 H2).
Qed.

(** X8. [GET /:id/url] stands behind [verifyFolderAccess], which reads the
    id of the route, the id of a file, as the id of a folder: for a file
    of the user, whatever its mode and its folder, the route answers 404
    'Folder not found' unless the user owns a folder whose id is the id of
    the file. *)
Theorem url_route_reads_file_id_as_folder_id (req : request) (w : world)
    (f : file) :
  prisma.file_findFirst (params_id req) (user req) w = Some f ->
  file_id f <> "" ->
  (forall d, In d (folders w) -> folder_id d = file_id f ->
             folder_ownerId d <> user req) ->
  url_route P createSignedUrl req w
  = respond 404 (error_body "Folder not found") w.
Proof.
  intros Hf Hne Hnone.
  apply file_findFirst_some in Hf as (_ & Hid & _).
  unfold url_route, verifyFolderAccess.
  rewrite <- Hid in *.
  destruct (file_id f) as [|c s] eqn:E; [congruence|].
  cbn [or_string JS.truthy_string negb].
  destruct (prisma.folder_findFirst (String c s) (user req) w)
    as [d|] eqn:Hd; [|reflexivity].
  apply folder_findFirst_some in Hd as (Hin & H1 & H2).
  destruct (Hnone d Hin H1 H2).
Qed.

(** X9. [GET /:id/meta] hands the KeyBlob and the salt of a file to its
    owner without a look at the folder token: for a file in a protected
    folder and a request that carries no valid token, the routes of the
    encrypted blob and of the key unwrap answer 403, and the meta route
    answers 200 with both values, having made no token lookup. *)
Theorem meta_skips_folder_token (req : request) (w : world) (f : file)
    (d : folder) :
  prisma.file_findFirst (params_id req) (user req) w = Some f ->
  prisma.file_folder f w = Some d ->
  isProtected d = true ->
  folderAccessTokens w = [] ->
  or_default (body_password req) "" <> "" ->
  (exists fields,
     get_meta P req w
     = respond 200 (JS.JObj [("file", JS.JObj fields)]) w
     /\ lookup "encryptedKeyBlob" fields
        = Some (opt_json (encryptedKeyBlob f))
     /\ lookup "salt" fields = Some (opt_json (salt f)))
  /\ (exists v, fst (get_encrypted P req w)
                = Sent (mkResponse 403 (Json v)))
  /\ (exists v, fst (decrypt_key P req w)
                = Sent (mkResponse 403 (Json v))).
Proof.
  intros Hf Hd Hprot Htok Hpw. split; [|split].
  - unfold get_meta. rewrite Hf. eexists. split; [reflexivity|].
    split; reflexivity.
  - destruct (get_encrypted_gated P req w f d Hf Hd Hprot)
      as (v & evs & H & _); [now rewrite Htok | eauto].
  - destruct (decrypt_key_gated P req w f d Hpw Hf Hd Hprot)
      as (v & evs & H & _); [now rewrite Htok | eauto].
Qed.


(** X11. The routes of a file answer only its owner: when no row with the
    id of the request belongs to the user, the meta, blob, URL and delete
    routes answer 404 'File not found' and the key-unwrap route 404 or,
    without a password, 400; no table and no bucket content changes and
    nothing is written to the security log. *)
Theorem file_routes_owner_only (req : request) (w : world) :
  (forall f, In f (files w) -> file_id f = params_id req ->
             ownerId f <> user req) ->
  get_meta P req w = file_not_found w
  /\ get_encrypted P req w = file_not_found w
  /\ get_url P createSignedUrl req w = file_not_found w
  /\ delete_file P req w = file_not_found w
  /\ (decrypt_key P req w = file_not_found w
      \/ decrypt_key P req w
         = respond 400 (error_body "Password required") w)
  /\ same_tables w (snd (file_not_found w)).
Proof.
  intros H. apply file_findFirst_none in H.
  unfold get_meta, get_encrypted, get_url, delete_file, decrypt_key.
  rewrite H.
  do 4 (split; [reflexivity|]). split; [|exact (same_tables_refl w)].
  destruct (JS.truthy_string (or_default (body_password req) ""));
    cbn [negb]; auto.
Qed.


End FileRoutesMore.

(* ===================================================================== *)
(** * The folders router *)
(* ===================================================================== *)

Section Folders.

Variable P : Platform.

Lemma folder_findByName_none (name owner : string) (w : world) :
  folder_findByName name owner w = None ->
  ~ In (owner, name)
      (map (fun d => (folder_ownerId d, folder_name d)) (folders w)).
Proof.
  unfold folder_findByName. intros Hnone Hin.
  apply in_map_iff in Hin as (d & E & Hin). injection E as E1 E2.
  apply (find_none _ _ Hnone) in Hin.
  rewrite E1, E2, !String.eqb_refl in Hin. discriminate.
Qed.

Lemma NoDup_snoc {A} (l : list A) (x : A) :
  NoDup l -> ~ In x l -> NoDup (l ++ [x]).
Proof.
  intros Hl Hx. induction Hl as [|y l Hy Hl IH]; cbn.
  - repeat constructor. auto.
  - constructor.
    + intros Hin. apply in_app_or in Hin as [Hin | [E | []]]; [auto|].
      apply Hx. left. congruence.
    + apply IH. intros Hin. apply Hx. now right.
Qed.

(** X13. Creating folders keeps the names of a user's folders distinct: a
    name the user already has is answered 409 and nothing is created, and
    a folder is added only under a name the user does not have yet, with
    the user as its owner. *)
Theorem create_folder_keeps_names_unique (req : request) (b : folder_body)
    (w : world) :
  names_unique w ->
  let r := create_folder P req b w in
  names_unique (snd r)
  /\ (forall name d,
        body_name b = Some name ->
        createFolderSchema_validate P b = None ->
        folder_findByName name (user req) w = Some d ->
        r = respond 409
              (error_body "Folder with this name already exists") w)
  /\ (folders (snd r) = folders w
      \/ exists row,
           folders (snd r) = folders w ++ [row]
           /\ body_name b = Some (folder_name row)
           /\ folder_ownerId row = user req
           /\ folder_findByName (folder_name row) (user req) w = None).
Proof.
  intros Huniq. cbv zeta. unfold create_folder.
  destruct (createFolderSchema_validate P b) as [details|] eqn:Ev.
  { repeat split; auto. discriminate. }
  unfold createFolderSchema_validate in Ev.
  destruct (body_name b) as [name|] eqn:Ename; [|discriminate].
  destruct name as [|c name']; [discriminate|].
  cbn [or_default or_string JS.truthy_string].
  destruct (folder_findByName (String c name') (user req) w) as [d|]
    eqn:Hfind.
  { repeat split; auto. }
  split; [|split].
  - unfold names_unique. cbn. rewrite map_app. cbn.
    apply NoDup_snoc; [exact Huniq|].
    now apply folder_findByName_none.
  - intros n d Hn _ Hd. injection Hn as <-. congruence.
  - right. eexists. split; [reflexivity|]. cbn. auto.
Qed.

Lemma unlock_validated (req : request) (password : string) :
  body_password req = Some password -> password <> "" ->
  unlockFolderSchema_validate P req = inr password.
Proof.
  unfold unlockFolderSchema_validate. intros -> Hne.
  destruct password; [congruence | reflexivity].
Qed.

(** An unlock that is not given the stored password. *)
Lemma unlock_refused (req : request) (w : world) (d : folder)
    (password : string) :
  body_password req = Some password -> password <> "" ->
  prisma.folder_findFirst (params_id req) (user req) w = Some d ->
  isProtected d = true ->
  passwordHash d <> Some password ->
  exists row,
    unlock P req w
    = respond 401 (error_body "Invalid folder password")
        (prisma.securityLog_create row w)
    /\ action row = "folder_unlock_attempt" /\ success row = false.
Proof.
  intros Hbody Hne Hd Hprot Hhash. unfold unlock.
  rewrite (unlock_validated req password Hbody Hne), Hd, Hprot.
  cbn [negb].
  destruct (passwordHash d) as [stored|].
  - destruct (String.eqb stored password) eqn:E.
    { apply String.eqb_eq in E. congruence. }
    cbn [negb]. eexists. split; [reflexivity|]. split; reflexivity.
  - cbn [negb]. eexists. split; [reflexivity|]. split; reflexivity.
Qed.


Lemma find_map_same {A} (p : A -> bool) (u : A -> A) (l : list A) :
  (forall x, p (u x) = p x) ->
  find p (map u l) = option_map u (find p l).
Proof.
  intros H. induction l as [|x l IH]; [reflexivity|].
  cbn. rewrite H. destruct (p x); [reflexivity | exact IH].
Qed.

(** The folder a request finds once [lock] has run. *)
Lemma folder_findFirst_lock (id password fid owner : string) (w : world) :
  prisma.folder_findFirst fid owner (folder_lock id password w)
  = option_map (fun d => if String.eqb (folder_id d) id
                         then locked d password else d)
      (prisma.folder_findFirst fid owner w).
Proof.
  unfold prisma.folder_findFirst, folder_lock. cbn [folders set_folders].
  apply find_map_same. intros d.
  destruct (String.eqb (folder_id d) id); reflexivity.
Qed.

(** A run of [lock] on a folder of the user. *)
Lemma lock_run (req : request) (w : world) (d : folder)
    (password : string) :
  body_password req = Some password ->
  4 <= String.length password ->
  prisma.folder_findFirst (params_id req) (user req) w = Some d ->
  exists v row,
    lock P req w
    = respond 200 v
        (prisma.securityLog_create row
           (folder_lock (params_id req) password w))
    /\ action row = "folder_password_set".
Proof.
  intros Hbody Hlen Hd. unfold lock, lockFolderSchema_validate.
  rewrite Hbody.
  replace (Nat.leb 4 (String.length password)) with true
    by (symmetry; now apply Nat.leb_le).
  cbn [JS.ok]. rewrite Hd.
  eexists. eexists. split; reflexivity.
Qed.


(** The requests of the owner that may enter a folder are the same before
    and after a change of its password. *)
Lemma lock_may_enter (req req2 : request) (w : world) (d : folder)
    (password fid : string) :
  body_password req = Some password ->
  4 <= String.length password ->
  prisma.folder_findFirst (params_id req) (user req) w = Some d ->
  isProtected d = true ->
  user req2 = user req ->
  folderAccessTokens (snd (lock P req w)) = folderAccessTokens w
  /\ (may_enter req2 fid (snd (lock P req w)) <-> may_enter req2 fid w).
Proof.
  intros Hbody Hlen Hd Hprot Huser.
  destruct (lock_run req w d password Hbody Hlen Hd)
    as (v & row & Hlock & _).
  rewrite Hlock.
  set (w1 := snd (respond 200 v
                    (prisma.securityLog_create row
                       (folder_lock (params_id req) password w)))).
  assert (Hfind : prisma.folder_findFirst fid (user req2) w1
                  = option_map (fun d => if String.eqb (folder_id d)
                                              (params_id req)
                                         then locked d password else d)
                      (prisma.folder_findFirst fid (user req2) w)).
  { rewrite <- folder_findFirst_lock. reflexivity. }
  split; [reflexivity|].
  unfold may_enter. rewrite Hfind.
  change (folderAccessTokens w1) with (folderAccessTokens w).
  change (clock w1) with (clock w).
  destruct (prisma.folder_findFirst fid (user req2) w) as [d2|] eqn:Hd2;
    cbn [option_map].
  2: { split; intros (x & H & _); discriminate. }
  destruct (String.eqb (folder_id d2) (params_id req)) eqn:E.
  - apply String.eqb_eq in E.
    assert (Hsame : d2 = d).
    { pose proof (folder_findFirst_some _ _ _ _ Hd2) as (_ & Hid2 & _).
      rewrite <- Hid2, E, Huser, Hd in Hd2. congruence. }
    subst d2.
    split; intros (x & H & Htok); injection H as <-; eexists;
      (split; [reflexivity|]); intros _; now apply Htok.
  - tauto.
Qed.

(** X15. Setting a new password on a protected folder revokes nothing: the
    table of tokens is as it was, and [verifyFolderAccess] lets a request
    of the owner through after the change exactly when it did before. *)
Theorem lock_keeps_tokens (req req2 : request) (w : world) (d : folder)
    (password : string) :
  body_password req = Some password ->
  4 <= String.length password ->
  prisma.folder_findFirst (params_id req) (user req) w = Some d ->
  isProtected d = true ->
  user req2 = user req ->
  let w1 := snd (lock P req w) in
  folderAccessTokens w1 = folderAccessTokens w
  /\ ((exists a, fst (verifyFolderAccess req2 w1) = Next a)
      <-> (exists a, fst (verifyFolderAccess req2 w) = Next a)).
Proof.
  intros Hbody Hlen Hd Hprot Huser. cbv zeta.
  destruct (lock_may_enter req req2 w d password
              (or_string (params_id req2) (params_folderId req2))
              Hbody Hlen Hd Hprot Huser) as (Htok & Henter).
  split; [exact Htok|].
  rewrite !verifyFolderAccess_next_iff, Henter. reflexivity.
Qed.

Lemma find_snoc {A} (p : A -> bool) (l : list A) (x : A) :
  find p (l ++ [x])
  = match find p l with
    | Some y => Some y
    | None => if p x then Some x else None
    end.
Proof.
  induction l as [|y l IH]; cbn; [reflexivity|].
  destruct (p y); [reflexivity | exact IH].
Qed.

Variable disk : Type.
Variable unlink : string -> disk -> disk.

(** X16. Deleting a folder takes its rows with it and nothing else: the
    folder, its files and its tokens leave their tables, every other row
    stays, no folder token is asked for, and the storage bucket, in which
    the uploads were stored, is left as it was: the route unlinks paths of
    the local disk only. *)
Theorem delete_folder_cascade (req : request) (d0 : disk) (w : world)
    (d : folder) :
  prisma.folder_findFirst (params_id req) (user req) w = Some d ->
  let r := delete_folder unlink req d0 w in
  let w' := snd (snd r) in
  fst r = Sent (mkResponse 200
                  (Json (JS.JObj
                     [("message",
                       JS.JStr
                         "Folder and all files deleted successfully")])))
  /\ (forall x, In x (folders w')
                <-> In x (folders w) /\ folder_id x <> params_id req)
  /\ (forall f, In f (files w')
                <-> In f (files w) /\ folderId f <> params_id req)
  /\ (forall t, In t (folderAccessTokens w')
                <-> In t (folderAccessTokens w)
                    /\ token_folderId t <> params_id req)
  /\ bucket w' = bucket w
  /\ securityLogs w' = securityLogs w
  /\ events_of w w'
     = [EvResponse
          (mkResponse 200
             (Json (JS.JObj
                [("message",
                  JS.JStr
                    "Folder and all files deleted successfully")])))].
Proof.
  intros Hd. cbv zeta. unfold delete_folder. rewrite Hd.
  cbn [fst snd respond].
  split; [reflexivity|].
  assert (Hneq : forall a b, negb (String.eqb a b) = true <-> a <> b).
  { intros a b. rewrite negb_true_iff. apply String.eqb_neq. }
  split; [|split; [|split]].
  - intros x. cbn. rewrite filter_In, Hneq. reflexivity.
  - intros f. cbn. rewrite filter_In, Hneq. reflexivity.
  - intros t. cbn. rewrite filter_In, Hneq. reflexivity.
  - split; [reflexivity|]. split; [reflexivity|].
    apply events_of_app. reflexivity.
Qed.

(** X17. A folder created as protected but without a password cannot be
    unlocked: its row holds no password, so that, as long as the table of
    folders stays as the creation left it, every unlock of it with a
    password is answered 401 and stores no token. *)
Theorem protected_without_password_never_unlocks (req req2 : request)
    (b : folder_body) (w w2 : world) (name attempt : string) :
  body_name b = Some name ->
  createFolderSchema_validate P b = None ->
  body_isProtected b = Some true ->
  body_folder_password b = None ->
  folder_findByName name (user req) w = None ->
  (forall x, In x (folders w) -> folder_id x <> cuid P (ids w)) ->
  folders w2 = folders (snd (create_folder P req b w)) ->
  user req2 = user req -> params_id req2 = cuid P (ids w) ->
  body_password req2 = Some attempt -> attempt <> "" ->
  (exists v, fst (create_folder P req b w)
             = Sent (mkResponse 201 (Json v)))
  /\ In (mkFolder (cuid P (ids w)) name true None (user req)) (folders w2)
  /\ fst (unlock P req2 w2)
     = Sent (mkResponse 401 (Json (error_body "Invalid folder password")))
  /\ folderAccessTokens (snd (unlock P req2 w2)) = folderAccessTokens w2.
Proof.
  intros Hname Hvalid Hprot Hpw Hfresh Hid Hfolders Huser Hparam Hbody Hne.
  unfold create_folder in *.
  rewrite Hvalid, Hname in *.
  unfold createFolderSchema_validate in Hvalid. rewrite Hname in Hvalid.
  destruct name as [|c name']; [discriminate|].
  cbn [or_default or_string JS.truthy_string] in *.
  rewrite Hfresh, Hprot, Hpw in *. cbn in Hfolders.
  split; [eexists; reflexivity|].
  split. { rewrite Hfolders. apply in_or_app. right. now left. }
  assert (Hd : prisma.folder_findFirst (params_id req2) (user req2) w2
               = Some (mkFolder (cuid P (ids w)) (String c name') true
                         None (user req))).
  { unfold prisma.folder_findFirst. rewrite Hfolders, find_snoc.
    destruct (find _ (folders w)) as [x|] eqn:E.
    - apply find_some in E as (Hin & Hm).
      apply andb_true_iff in Hm as (H1 & _).
      apply String.eqb_eq in H1. rewrite Hparam in H1.
      destruct (Hid x Hin H1).
    - cbn. now rewrite Hparam, Huser, !String.eqb_refl. }
  destruct (unlock_refused req2 w2 _ attempt Hbody Hne Hd eq_refl)
    as (row & Hrun & _); [discriminate|].
  rewrite Hrun. split; reflexivity.
Qed.

End Folders.

(* ===================================================================== *)
(** * The error handler *)
(* ===================================================================== *)

Section ErrorHandler.


(** X19. In production the answer to an error other than a
    'ValidationError' tells nothing of its message, its details or its
    stack: two errors with the same name, status, status code and code are
    answered alike. *)
Theorem errorHandler_production_hides_message (err err' : failure)
    (req : incoming) (w : world) :
  err_name err <> "ValidationError" ->
  err_name err' = err_name err ->
  err_status err' = err_status err ->
  err_statusCode err' = err_statusCode err ->
  err_code err' = err_code err ->
  fst (errorHandler true err' req w) = fst (errorHandler true err req w).
Proof.
  intros Hname Hn Hs Hc Hcode. unfold errorHandler, code_is.
  rewrite Hn, Hs, Hc, Hcode.
  destruct (String.eqb (err_name err) "ValidationError") eqn:E.
  { apply String.eqb_eq in E. contradiction. }
  repeat match goal with
         | |- context [if ?c then _ else _] => destruct c
         end; reflexivity.
Qed.

End ErrorHandler.

(* ===================================================================== *)
(** * Authentication *)
(* ===================================================================== *)

Section AuthenticationFacts.

Variable jwt_verify : string -> JS.result (option string).

Lemma split_spaces_scheme (scheme rest word : string) :
  no_space scheme = true ->
  split_spaces (scheme ++ String " " rest) word
  = (word ++ scheme)%string :: split_spaces rest EmptyString.
Proof.
  revert word. induction scheme as [|c scheme IH]; intros word Hs.
  - cbn. f_equal. clear. induction word; cbn; congruence.
  - cbn in Hs. apply andb_true_iff in Hs as (Hc & Hs).
    apply negb_true_iff in Hc.
    cbn [String.append split_spaces]. rewrite Hc, (IH _ Hs).
    f_equal. clear. induction word; cbn; congruence.
Qed.

(** X20. [authenticateToken] reads the second word of the header and never
    its first: whatever stands before the first space, 'Bearer' or not,
    the request is treated alike.  It calls [next()] only with a row of
    [users] whose id is the [userId] of a token that verifies. *)
Theorem authenticateToken_ignores_scheme (scheme rest : string)
    (users : list account) (w : world) :
  no_space scheme = true ->
  authenticateToken jwt_verify (Some (scheme ++ String " " rest)%string) users w
  = authenticateToken jwt_verify (Some ("Bearer " ++ rest)%string) users w
  /\ forall account,
       fst (authenticateToken jwt_verify
              (Some (scheme ++ String " " rest)%string) users w) = Next account ->
       In account users
       /\ exists token,
            nth_error (split_spaces rest EmptyString) 0 = Some token
            /\ jwt_verify token = inr (Some (account_id account)).
Proof.
  intros Hs.
  assert (Htok : forall s, no_space s = true ->
            (if JS.truthy_string (s ++ String " " rest)
             then nth_error (split_spaces (s ++ String " " rest)
                               EmptyString) 1
             else None)
            = nth_error (split_spaces rest EmptyString) 0).
  { intros s H. rewrite (split_spaces_scheme s rest EmptyString H).
    destruct s; reflexivity. }
  unfold authenticateToken.
  change ("Bearer " ++ rest)%string with ("Bearer" ++ String " " rest)%string.
  rewrite (Htok scheme Hs), (Htok "Bearer" eq_refl).
  split; [reflexivity|].
  intros account.
  destruct (nth_error (split_spaces rest EmptyString) 0) as [token|];
    [|discriminate].
  destruct (JS.truthy_string token); cbn [negb]; [|discriminate].
  destruct (jwt_verify token) as [e|[userId|]] eqn:Ev.
  - repeat match goal with
           | |- context [if ?c then _ else _] => destruct c
           end; discriminate.
  - destruct (find _ users) as [u|] eqn:Efind; [|discriminate].
    cbn. intros H. injection H as <-.
    apply find_some in Efind as (Hin & Hid).
    apply String.eqb_eq in Hid. split; [exact Hin|].
    exists token. split; [reflexivity|]. now rewrite Hid.
  - discriminate.
Qed.

End AuthenticationFacts.

(* ===================================================================== *)
(** * The signature check and the storage service *)
(* ===================================================================== *)

Section Services.

Lemma has_signature_prefix (signature : list byte) (buf : Buffer.t) :
  has_signature signature buf = true
  <-> exists rest, buf = signature ++ rest.
Proof.
  revert buf. induction signature as [|s sig' IH]; intros buf.
  - cbn. destruct buf; split; eauto.
  - destruct buf as [|b buf']; cbn.
    + split; [discriminate | intros (rest & H); discriminate].
    + rewrite andb_true_iff, IH. split.
      * intros (Hb & rest & ->).
        apply Byte.byte_dec_bl in Hb. subst b. eauto.
      * intros (rest & H). injection H as -> ->. split; [|eauto].
        now apply Byte.byte_dec_lb.
Qed.

(** X21. The signature check accepts exactly the buffers that begin with
    the first bytes of a JPEG, PNG, GIF or BMP file or with 'RIFF'; it
    reads no byte past the fourth, so that what follows the signature does
    not matter. *)
Theorem validateImage_reads_signature (buf : Buffer.t) :
  (validateImage buf = true
   <-> exists signature rest,
         In signature imageSignatures /\ buf = signature ++ rest)
  /\ validateImage buf = validateImage (firstn 4 buf).
Proof.
  assert (Hiff : forall b,
            validateImage b = true
            <-> exists signature rest,
                  In signature imageSignatures /\ b = signature ++ rest).
  { intros b. unfold validateImage. destruct b as [|x b'].
    - split; [discriminate|].
      intros (sig & rest & Hin & H).
      cbn in Hin.
      destruct Hin as [<-|[<-|[<-|[<-|[<-|[]]]]]]; discriminate.
    - rewrite existsb_exists. split.
      + intros (sig & Hin & H). apply has_signature_prefix in H as (r & H).
        eauto.
      + intros (sig & rest & Hin & H). exists sig. split; [exact Hin|].
        apply has_signature_prefix. eauto. }
  split; [apply Hiff|].
  assert (Hfour : forall sig, In sig imageSignatures ->
                    List.length sig <= 4).
  { intros sig Hin. cbn in Hin.
    destruct Hin as [<-|[<-|[<-|[<-|[<-|[]]]]]]; cbn; lia. }
  destruct (validateImage buf) eqn:E.
  - apply Hiff in E as (sig & rest & Hin & ->). symmetry. apply Hiff.
    exists sig, (firstn (4 - List.length sig) rest). split; [exact Hin|].
    rewrite firstn_app. f_equal. apply firstn_all2. now apply Hfour.
  - destruct (validateImage (firstn 4 buf)) eqn:E4; [|reflexivity].
    apply Hiff in E4 as (sig & rest & Hin & H).
    assert (validateImage buf = true); [|congruence].
    apply Hiff. exists sig, (rest ++ skipn 4 buf). split; [exact Hin|].
    rewrite app_assoc, <- H. symmetry. apply firstn_skipn.
Qed.

Variable P : Platform.

(** X22. What the storage service stores it returns: when
    [uploadEncryptedFile] returns a path, the path is 'encrypted/', the
    time, '-' and the name it was given; a later download of that path,
    when Supabase answers, returns the very bytes; and the objects stored
    before are still there. *)
Theorem storage_round_trip (data : Buffer.t) (fileName path : string)
    (w w2 : world) :
  fst (uploadEncryptedFile (supabase_error P) data fileName w)
  = inr path ->
  bucket w2
  = bucket (snd (uploadEncryptedFile (supabase_error P) data fileName w)) ->
  supabase_error P (calls w2) = None ->
  path = ("encrypted/" ++ decimalZ (clock w) ++ "-" ++ fileName)%string
  /\ lookup path (bucket w) = None
  /\ fst (downloadEncryptedFile (supabase_error P) path w2) = inr data
  /\ forall other stored,
       lookup other (bucket w) = Some stored ->
       fst (downloadEncryptedFile (supabase_error P) other w2)
       = inr stored.
Proof.
  unfold uploadEncryptedFile.
  pose proof (supabase_upload_run P
                ("encrypted/" ++ decimalZ (clock w) ++ "-" ++ fileName)
                data w) as Hrun. cbv zeta in Hrun.
  destruct Hrun as (_ & _ & _ & _ & _ & _ & Hkeep & Hnew).
  intros Hpath Hb Hup.
  assert (Hfresh : lookup path (bucket w) = None /\ path
            = ("encrypted/" ++ decimalZ (clock w) ++ "-" ++ fileName)%string).
  { revert Hpath. unfold supabase_upload. cbv zeta.
    destruct (supabase_error P (calls w)); [discriminate|].
    cbn [bucket emit tick].
    destruct (lookup _ (bucket w)) eqn:E; [discriminate|].
    cbn. intros H. injection H as <-. auto. }
  destruct Hfresh as (Hfresh & Epath).
  assert (Hdl : forall q d, lookup q (bucket w2) = Some d ->
            fst (downloadEncryptedFile (supabase_error P) q w2) = inr d).
  { intros q d H. unfold downloadEncryptedFile. rewrite Hup.
    cbn [bucket emit tick]. now rewrite H. }
  split; [exact Epath|]. split; [exact Hfresh|]. split.
  - apply Hdl. rewrite Hb. now apply Hnew.
  - intros other stored H. apply Hdl. rewrite Hb. now apply Hkeep.
Qed.

End Services.

(* ===================================================================== *)
(** * Deletion, upload modes and the upload dialog *)
(* ===================================================================== *)

Section MoreUploads.

Variable P : Platform.

Lemma lookup_filter_out {A} (key : string) (l : list (string * A)) :
  lookup key (filter (fun e => negb (String.eqb (fst e) key)) l) = None.
Proof.
  induction l as [|[k v] l IH]; [reflexivity|].
  cbn [filter fst]. destruct (String.eqb k key) eqn:E; cbn [negb].
  - exact IH.
  - cbn [lookup]. now rewrite E.
Qed.

Lemma lookup_filter_none {A} (key other : string)
    (l : list (string * A)) :
  lookup key l = None ->
  lookup key (filter (fun e => negb (String.eqb (fst e) other)) l) = None.
Proof.
  induction l as [|[k v] l IH]; [reflexivity|].
  cbn [lookup filter fst]. destruct (String.eqb k key) eqn:E;
    [discriminate|].
  intros H. destruct (String.eqb k other); cbn [negb lookup];
    rewrite ?E; auto.
Qed.

(** X23. [DELETE /:id] does not look at what the storage service answers:
    whenever the file is found the row leaves the table and the answer is
    200.  When Supabase answers the first call, the stored object is gone
    as well; when it refuses both calls, the bucket still holds everything
    it held. *)
Theorem delete_file_ignores_storage_failure (req : request) (w : world)
    (f : file) :
  prisma.file_findFirst (params_id req) (user req) w = Some f ->
  let r := delete_file P req w in
  fst r = Sent (mkResponse 200
                  (Json (JS.JObj
                     [("message", JS.JStr "File deleted successfully")])))
  /\ (forall x, In x (files (snd r))
                <-> In x (files w) /\ file_id x <> params_id req)
  /\ (supabase_error P (calls w) = None ->
      lookup (storagePath f) (bucket (snd r)) = None)
  /\ (supabase_error P (calls w) <> None ->
      supabase_error P (S (calls w)) <> None ->
      bucket (snd r) = bucket w).
Proof.
  intros Hf. cbv zeta. unfold delete_file. rewrite Hf.
  unfold deleteFile. cbv zeta.
  destruct (supabase_error P (calls w)) as [m1|] eqn:E1;
    cbn [calls emit tick set_bucket];
    destruct (supabase_error P (S (calls w))) as [m2|] eqn:E2;
    cbn [fst snd respond];
    (split; [reflexivity|]);
    (split;
     [intros x; cbn; rewrite filter_In, negb_true_iff;
      rewrite String.eqb_neq; reflexivity|]);
    (split; [intros H; try discriminate | intros H1 H2; try congruence]).
  - reflexivity.
  - cbn. apply lookup_filter_out.
  - cbn. apply lookup_filter_none, lookup_filter_out.
Qed.


Lemma validated_passwords (files : list UploadModal.fileData)
    (passwords : list (string * string)) :
  UploadModal.validatePasswords "secure" files passwords = true ->
  exists items,
    UploadModal.passwordArray files passwords = JS.JArr items
    /\ List.length items = List.length files
    /\ forallb min4 items = true.
Proof.
  unfold UploadModal.validatePasswords, UploadModal.passwordArray.
  cbn [String.eqb Ascii.eqb Bool.eqb].
  intros H. eexists. split; [reflexivity|]. split; [apply length_map|].
  induction files as [|fd files IH]; [reflexivity|].
  cbn [forallb map] in *. apply andb_true_iff in H as (H1 & H2).
  rewrite (IH H2), andb_true_r.
  destruct (lookup (UploadModal.id fd) passwords) as [pw|];
    [|discriminate].
  apply andb_true_iff in H1 as (_ & H1). apply negb_true_iff in H1.
  apply Nat.ltb_ge in H1. cbn [opt_json min4]. now apply Nat.leb_le.
Qed.

Variable JSON_stringify : JS.json -> string.

(** X25. What the upload dialog lets through, the server accepts: for a
    [JSON.parse] that reads back what [JSON.stringify] wrote, the form
    that [handleUpload] sends in secure mode, with passwords that passed
    [validatePasswords], is turned down neither by the schema nor by the
    count of the passwords nor by the parsing: the handler answers 201. *)
Theorem dialog_passwords_accepted (req : request) (w : world)
    (files : list UploadModal.fileData)
    (passwords : list (string * string)) (f : form) :
  JSON_stringify (UploadModal.passwordArray files passwords) <> "" ->
  JSON_parse P
    (JSON_stringify (UploadModal.passwordArray files passwords))
  = inr (UploadModal.passwordArray files passwords) ->
  JSON_parse P "[]" = inr (JS.JArr []) ->
  UploadModal.handleUpload JSON_stringify "secure" files passwords
  = Some f ->
  UploadModal.validatePasswords "secure" files passwords = true
  /\ exists resp,
       fst (upload_files P (with_form req f) w) = Sent resp
       /\ status resp = 201.
Proof.
  intros Hne Hparse Hempty. unfold UploadModal.handleUpload.
  destruct files as [|fd files]; [discriminate|].
  destruct (UploadModal.validatePasswords "secure" (fd :: files) passwords)
    eqn:Hvalid; cbn [negb]; [|discriminate].
  intros H. injection H as <-. split; [reflexivity|].
  destruct (validated_passwords (fd :: files) passwords Hvalid)
    as (items & Hitems & Hlen & Hmin).
  unfold upload_files.
  cbn [with_form req_files form_files map body_uploadMode form_uploadMode
       body_passwords form_passwords body_coverTypes form_coverTypes
       String.eqb Ascii.eqb Bool.eqb].
  cbn [or_default or_string JS.truthy_string secure String.eqb Ascii.eqb
       Bool.eqb].
  change (String.eqb secure secure) with true. cbv beta iota.
  destruct (JSON_stringify _) as [|c0 text] eqn:Etext; [congruence|].
  cbn [or_string JS.truthy_string]. rewrite Hparse, Hempty, Hitems.
  unfold secureUploadSchema_validate.
  destruct items as [|item items]; [discriminate|].
  rewrite Hmin. cbn [json_length]. rewrite Hlen.
  cbn [List.length map]. rewrite length_map, Nat.eqb_refl. cbn [negb].
  pose proof (upload_loop_run P
                (with_form req
                   (mkForm (Some "secure") (Some (String c0 text)) None
                      (Some (UploadModal.file fd
                             :: map UploadModal.file files))))
                secure (JS.JArr (item :: items))
                (JS.JArr []) (UploadModal.file fd
                              :: map UploadModal.file files) 0 [] w)
    as Hrun. cbv zeta in Hrun.
  destruct (upload_loop _ _ _ _ _ _ _ _ _) as [[e|done] w1];
    cbn [fst snd] in Hrun.
  - destruct Hrun as (_ & [(_ & H) | H]); discriminate.
  - eexists. split; reflexivity.
Qed.

End MoreUploads.

(* ===================================================================== *)
(** * The properties on the reference platform *)
(* ===================================================================== *)

(** X7: an upload to the protected folder without a token stores
    nothing. *)
Lemma upload_route_guarded_witness :
  let req := Examples.vault_upload in
  let w := Reference.locked_world in
  let r := upload_route Reference.platform Examples.multer req w in
  (exists rows,
     files (snd r) = files w ++ rows
     /\ Forall (fun row => ownerId row = user req
                           /\ folderId row = params_folderId req) rows
     /\ (rows <> [] -> may_enter req (params_folderId req) w))
  /\ (~ may_enter req (params_folderId req) w ->
      same_tables w (snd r)
      /\ exists resp,
           fst r = Sent resp
           /\ (status resp = 404 \/ status resp = 403)).
Proof.
  refine (upload_route_guarded Reference.platform Examples.multer
            Examples.vault_upload Reference.locked_world eq_refl _).
  discriminate.
Defined.

(** X8: the plain file of the vault, asked for by its owner. *)
Lemma url_route_reads_file_id_as_folder_id_witness :
  url_route Reference.platform (fun path => path)
    (Reference.request_for "f1" None None) Reference.locked_world
  = respond 404 (error_body "Folder not found") Reference.locked_world.
Proof.
  refine (url_route_reads_file_id_as_folder_id Reference.platform
            (fun path => path) (Reference.request_for "f1" None None)
            Reference.locked_world Reference.plain_file eq_refl _ _).
  - discriminate.
  - intros d [<-|[]]. discriminate.
Defined.

(** X9: the same file, in the folder nobody has unlocked. *)
Lemma meta_skips_folder_token_witness :
  let req := Reference.request_for "f1" None (Some "abcd") in
  let w := Reference.locked_world in
  (exists fields,
     get_meta Reference.platform req w
     = respond 200 (JS.JObj [("file", JS.JObj fields)]) w
     /\ lookup "encryptedKeyBlob" fields
        = Some (opt_json (encryptedKeyBlob Reference.plain_file))
     /\ lookup "salt" fields
        = Some (opt_json (salt Reference.plain_file)))
  /\ (exists v, fst (get_encrypted Reference.platform req w)
                = Sent (mkResponse 403 (Json v)))
  /\ (exists v, fst (decrypt_key Reference.platform req w)
                = Sent (mkResponse 403 (Json v))).
Proof.
  refine (meta_skips_folder_token Reference.platform
            (Reference.request_for "f1" None (Some "abcd"))
            Reference.locked_world Reference.plain_file Reference.vault
            eq_refl eq_refl eq_refl eq_refl _).
  discriminate.
Defined.

(** X11: the file of alice, asked for by bob. *)
Lemma file_routes_owner_only_witness :
  let req := Examples.bob_request "f1" in
  let w := Reference.locked_world in
  get_meta Reference.platform req w = file_not_found w
  /\ get_encrypted Reference.platform req w = file_not_found w
  /\ get_url Reference.platform (fun path => path) req w
     = file_not_found w
  /\ delete_file Reference.platform req w = file_not_found w
  /\ (decrypt_key Reference.platform req w = file_not_found w
      \/ decrypt_key Reference.platform req w
         = respond 400 (error_body "Password required") w)
  /\ same_tables w (snd (file_not_found w)).
Proof.
  refine (file_routes_owner_only Reference.platform (fun path => path)
            (Examples.bob_request "f1") Reference.locked_world _).
  intros f [<-|[]] _. discriminate.
Defined.


(** X13: a second folder named 'Album'. *)
Lemma create_folder_keeps_names_unique_witness :
  let req := Reference.request_for "" None None in
  let b := mkFolderBody (Some "Album") None None in
  let w := Reference.open_world in
  let r := create_folder Reference.platform req b w in
  names_unique (snd r)
  /\ (forall name d,
        body_name b = Some name ->
        createFolderSchema_validate Reference.platform b = None ->
        folder_findByName name (user req) w = Some d ->
        r = respond 409
              (error_body "Folder with this name already exists") w)
  /\ (folders (snd r) = folders w
      \/ exists row,
           folders (snd r) = folders w ++ [row]
           /\ body_name b = Some (folder_name row)
           /\ folder_ownerId row = user req
           /\ folder_findByName (folder_name row) (user req) w = None).
Proof.
  refine (create_folder_keeps_names_unique Reference.platform
            (Reference.request_for "" None None)
            (mkFolderBody (Some "Album") None None) Reference.open_world
            _).
  repeat constructor. intros [].
Defined.


(** X15: the password of the vault is changed. *)
Lemma lock_keeps_tokens_witness :
  let req := Reference.request_for "vault" None (Some "new-pass") in
  let req2 := Reference.request_for "vault" (Some "token") None in
  let w1 := snd (lock Reference.platform req Reference.locked_world) in
  folderAccessTokens w1 = folderAccessTokens Reference.locked_world
  /\ ((exists a, fst (verifyFolderAccess req2 w1) = Next a)
      <-> (exists a, fst (verifyFolderAccess req2 Reference.locked_world)
                     = Next a)).
Proof.
  refine (lock_keeps_tokens Reference.platform
            (Reference.request_for "vault" None (Some "new-pass"))
            (Reference.request_for "vault" (Some "token") None)
            Reference.locked_world Reference.vault "new-pass"
            eq_refl _ eq_refl eq_refl eq_refl).
  vm_compute. lia.
Defined.

(** X16: the vault is deleted. *)
Lemma delete_folder_cascade_witness :
  let req := Reference.request_for "vault" None None in
  let w := Reference.locked_world in
  let r := @delete_folder unit Examples.unlink req tt w in
  let w' := snd (snd r) in
  fst r = Sent (mkResponse 200
                  (Json (JS.JObj
                     [("message",
                       JS.JStr
                         "Folder and all files deleted successfully")])))
  /\ (forall x, In x (folders w')
                <-> In x (folders w) /\ folder_id x <> params_id req)
  /\ (forall f, In f (files w')
                <-> In f (files w) /\ folderId f <> params_id req)
  /\ (forall t, In t (folderAccessTokens w')
                <-> In t (folderAccessTokens w)
                    /\ token_folderId t <> params_id req)
  /\ bucket w' = bucket w
  /\ securityLogs w' = securityLogs w
  /\ events_of w w'
     = [EvResponse
          (mkResponse 200
             (Json (JS.JObj
                [("message",
                  JS.JStr
                    "Folder and all files deleted successfully")])))].
Proof.
  exact (delete_folder_cascade unit Examples.unlink
           (Reference.request_for "vault" None None) tt
           Reference.locked_world Reference.vault eq_refl).
Defined.

(** X17: a protected folder 'Safe' is created without a password. *)
Lemma protected_without_password_never_unlocks_witness :
  let req := Reference.request_for "" None None in
  let b := mkFolderBody (Some "Safe") (Some true) None in
  let w2 := snd (create_folder Reference.platform req b
                   Reference.open_world) in
  let req2 := Reference.request_for "row2" None (Some "guess") in
  (exists v, fst (create_folder Reference.platform req b
                    Reference.open_world)
             = Sent (mkResponse 201 (Json v)))
  /\ In (mkFolder "row2" "Safe" true None "alice") (folders w2)
  /\ fst (unlock Reference.platform req2 w2)
     = Sent (mkResponse 401 (Json (error_body "Invalid folder password")))
  /\ folderAccessTokens (snd (unlock Reference.platform req2 w2))
     = folderAccessTokens w2.
Proof.
  refine (protected_without_password_never_unlocks Reference.platform
            (Reference.request_for "" None None)
            (Reference.request_for "row2" None (Some "guess"))
            (mkFolderBody (Some "Safe") (Some true) None)
            Reference.open_world
            (snd (create_folder Reference.platform
                    (Reference.request_for "" None None)
                    (mkFolderBody (Some "Safe") (Some true) None)
                    Reference.open_world))
            "Safe" "guess" eq_refl eq_refl eq_refl eq_refl eq_refl _
            eq_refl eq_refl eq_refl eq_refl _).
  - intros x [<-|[]]. discriminate.
  - discriminate.
Defined.

(** X19: two errors with the status 403 and different messages. *)
Lemma errorHandler_production_hides_message_witness :
  fst (errorHandler true (Examples.denied "the vault lies at /srv/vault")
         Examples.browsing Reference.locked_world)
  = fst (errorHandler true (Examples.denied "denied") Examples.browsing
           Reference.locked_world).
Proof.
  refine (errorHandler_production_hides_message
            (Examples.denied "denied")
            (Examples.denied "the vault lies at /srv/vault")
            Examples.browsing Reference.locked_world _ eq_refl eq_refl
            eq_refl eq_refl).
  discriminate.
Defined.

(** X20: the scheme 'Basic' before a token that verifies. *)
Lemma authenticateToken_ignores_scheme_witness :
  authenticateToken Examples.jwt_verify (Some "Basic good") Examples.users
    Reference.locked_world
  = authenticateToken Examples.jwt_verify (Some "Bearer good")
      Examples.users Reference.locked_world
  /\ forall account,
       fst (authenticateToken Examples.jwt_verify (Some "Basic good")
              Examples.users Reference.locked_world) = Next account ->
       In account Examples.users
       /\ exists token,
            nth_error (split_spaces "good" EmptyString) 0 = Some token
            /\ Examples.jwt_verify token
               = inr (Some (account_id account)).
Proof.
  exact (authenticateToken_ignores_scheme Examples.jwt_verify "Basic"
           "good" Examples.users Reference.locked_world eq_refl).
Defined.

(** X22: one byte stored under the name 'a'. *)
Lemma storage_round_trip_witness :
  let w := Reference.open_world in
  let w2 := snd (uploadEncryptedFile (supabase_error Reference.platform)
                   [x01] "a" w) in
  "encrypted/1000-a" = ("encrypted/" ++ decimalZ (clock w) ++ "-a")%string
  /\ lookup "encrypted/1000-a" (bucket w) = None
  /\ fst (downloadEncryptedFile (supabase_error Reference.platform)
            "encrypted/1000-a" w2) = inr [x01]
  /\ forall other stored,
       lookup other (bucket w) = Some stored ->
       fst (downloadEncryptedFile (supabase_error Reference.platform)
              other w2) = inr stored.
Proof.
  exact (storage_round_trip Reference.platform [x01] "a"
           "encrypted/1000-a" Reference.open_world
           (snd (uploadEncryptedFile (supabase_error Reference.platform)
                   [x01] "a" Reference.open_world))
           eq_refl eq_refl eq_refl).
Defined.

(** X23: the plain file of the vault is deleted. *)
Lemma delete_file_ignores_storage_failure_witness :
  let req := Reference.request_for "f1" None None in
  let w := Reference.locked_world in
  let r := delete_file Reference.platform req w in
  fst r = Sent (mkResponse 200
                  (Json (JS.JObj
                     [("message", JS.JStr "File deleted successfully")])))
  /\ (forall x, In x (files (snd r))
                <-> In x (files w) /\ file_id x <> params_id req)
  /\ (supabase_error Reference.platform (calls w) = None ->
      lookup (storagePath Reference.plain_file) (bucket (snd r)) = None)
  /\ (supabase_error Reference.platform (calls w) <> None ->
      supabase_error Reference.platform (S (calls w)) <> None ->
      bucket (snd r) = bucket w).
Proof.
  exact (delete_file_ignores_storage_failure Reference.platform
           (Reference.request_for "f1" None None) Reference.locked_world
           Reference.plain_file eq_refl).
Defined.


(** X25: two files and their two passwords. *)
Lemma dialog_passwords_accepted_witness :
  let files := [UploadModal.mkFileData "a" Reference.png;
                UploadModal.mkFileData "b" Reference.jpg] in
  let passwords := [("a", "abcd"); ("b", "efgh")] in
  let f := mkForm (Some "secure") (Some "abcd,efgh") None
             (Some [Reference.png; Reference.jpg]) in
  UploadModal.validatePasswords "secure" files passwords = true
  /\ exists resp,
       fst (upload_files Reference.platform
              (with_form (Reference.upload_request "secure" None []) f)
              Reference.open_world) = Sent resp
       /\ status resp = 201.
Proof.
  refine (dialog_passwords_accepted Reference.platform
            (fun _ => "abcd,efgh")
            (Reference.upload_request "secure" None [])
            Reference.open_world
            [UploadModal.mkFileData "a" Reference.png;
             UploadModal.mkFileData "b" Reference.jpg]
            [("a", "abcd"); ("b", "efgh")]
            (mkForm (Some "secure") (Some "abcd,efgh") None
               (Some [Reference.png; Reference.jpg]))
            _ eq_refl eq_refl eq_refl).
  discriminate.
Defined.
